(** * RAG Vector Store Writer: validated batched upsert pipeline

    A shallow embedding of [src/agent/validation.py],
    [src/agent/writers/pinecone.py], [src/agent/writers/qdrant.py] and of
    [_load_dataset] of [src/agent/main.py], followed by the properties the
    specification states about them and by further properties of the code.

    Conventions of the embedding:
    - a Python [str] is a [string]: a sequence of code points below 256
      (the Latin-1 range), on which [str.strip], [str.lower] and the [re]
      classes used by the source are written out in full;
    - a JSON value (the actor input, an item, a response body) is a [pyval];
      a Python [dict] with string keys is a [gmap string pyval];
    - a function that returns [(value, None)] or [(None, message)] returns a
      sum; an exception that leaves a function is an explicit result;
    - network traffic is explicit: a script of the server's answers, indexed
      by the number of the HTTP attempt, and a trace of what the program did. *)

From Stdlib Require Import ZArith String Ascii List Lia DecimalString.
From Stdlib Require Import Floats.SpecFloat.
From stdpp Require Import gmap strings list fin_maps.

Set Warnings "-register-all".
Local Open Scope Z_scope.

(* ===================================================================== *)
(** * Python values *)
(* ===================================================================== *)

Inductive pyval :=
| PNone
| PBool (b : bool)
| PInt (z : Z)
| PFloat (f : spec_float)
| PStr (s : string)
| PList (l : list pyval)
| PDict (d : gmap string pyval).

(** [d.get(key, default)] *)
Definition dict_get (d : gmap string pyval) (key : string) (dflt : pyval) : pyval :=
  default dflt (d !! key).

(** [isinstance(v, str)], [isinstance(v, list)], [isinstance(v, dict)] *)
Definition is_str (v : pyval) : bool :=
  match v with PStr _ => true | _ => false end.
Definition is_list (v : pyval) : bool :=
  match v with PList _ => true | _ => false end.
Definition is_dict (v : pyval) : bool :=
  match v with PDict _ => true | _ => false end.
(** [isinstance(v, int)]: [bool] is a subclass of [int]. *)
Definition is_int (v : pyval) : bool :=
  match v with PInt _ | PBool _ => true | _ => false end.
Definition is_float (v : pyval) : bool :=
  match v with PFloat _ => true | _ => false end.

Definition str_is_empty (s : string) : bool :=
  match s with EmptyString => true | String _ _ => false end.

Definition dict_is_empty (d : gmap string pyval) : bool :=
  match map_to_list d with [] => true | _ :: _ => false end.

(** Truth value of an object, as [if v:] and [not v] compute it. *)
Definition truthy (v : pyval) : bool :=
  match v with
  | PNone => false
  | PBool b => b
  | PInt z => negb (z =? 0)
  | PFloat (S754_zero _) => false
  | PFloat _ => true
  | PStr s => negb (str_is_empty s)
  | PList l => match l with [] => false | _ :: _ => true end
  | PDict d => negb (dict_is_empty d)
  end.

(* ===================================================================== *)
(** * Python strings *)
(* ===================================================================== *)

Definition LF : ascii := ascii_of_nat 10.

Definition in_range (lo hi : nat) (c : ascii) : bool :=
  let n := nat_of_ascii c in ((lo <=? n)%nat && (n <=? hi)%nat)%bool.

(** [str.isspace] for one character: the ASCII white space, the four
    separators 0x1c-0x1f, NEL (0x85) and NBSP (0xa0). *)
Definition is_space (c : ascii) : bool :=
  in_range 9 13 c || in_range 28 32 c
  || (nat_of_ascii c =? 133)%nat || (nat_of_ascii c =? 160)%nat.

Definition is_upper (c : ascii) : bool := in_range 65 90 c.
Definition is_lower (c : ascii) : bool := in_range 97 122 c.
Definition is_alpha (c : ascii) : bool := is_upper c || is_lower c.
Definition is_digit (c : ascii) : bool := in_range 48 57 c.
Definition is_alnum (c : ascii) : bool := is_alpha c || is_digit c.
Definition is_char (x c : ascii) : bool := Ascii.eqb x c.

Fixpoint lstrip_by (p : ascii -> bool) (s : string) : string :=
  match s with
  | EmptyString => EmptyString
  | String c s' => if p c then lstrip_by p s' else s
  end.

Fixpoint rstrip_by (p : ascii -> bool) (s : string) : string :=
  match s with
  | EmptyString => EmptyString
  | String c s' =>
      match rstrip_by p s' with
      | EmptyString => if p c then EmptyString else String c EmptyString
      | r => String c r
      end
  end.

(** [s.strip()] *)
Definition py_strip (s : string) : string :=
  rstrip_by is_space (lstrip_by is_space s).

(** [s.rstrip("/")] *)
Definition py_rstrip_slash (s : string) : string :=
  rstrip_by (is_char "/") s.

(** [s.lower()]: A-Z, and the Latin-1 capitals 0xc0-0xde except the
    multiplication sign 0xd7, move up by 32. *)
Definition lower_char (c : ascii) : ascii :=
  let n := nat_of_ascii c in
  if is_upper c || (in_range 192 222 c && negb (n =? 215)%nat)
  then ascii_of_nat (n + 32) else c.

Fixpoint py_lower (s : string) : string :=
  match s with
  | EmptyString => EmptyString
  | String c s' => String (lower_char c) (py_lower s')
  end.

Fixpoint str_filter (p : ascii -> bool) (s : string) : string :=
  match s with
  | EmptyString => EmptyString
  | String c s' => if p c then String c (str_filter p s') else str_filter p s'
  end.

Fixpoint str_existsb (p : ascii -> bool) (s : string) : bool :=
  match s with
  | EmptyString => false
  | String c s' => p c || str_existsb p s'
  end.

(** [s[:n]] *)
Fixpoint str_take (n : nat) (s : string) : string :=
  match n, s with
  | S n', String c s' => String c (str_take n' s')
  | _, _ => EmptyString
  end.

(** [s[n:]] *)
Fixpoint str_drop (n : nat) (s : string) : string :=
  match n, s with
  | S n', String _ s' => str_drop n' s'
  | _, _ => s
  end.

(** [s.startswith(p)] *)
Fixpoint starts_with (p s : string) : bool :=
  match p, s with
  | EmptyString, _ => true
  | String a p', String b s' => Ascii.eqb a b && starts_with p' s'
  | String _ _, EmptyString => false
  end.

(** [p in s] *)
Fixpoint str_contains (p s : string) : bool :=
  starts_with p s ||
  match s with
  | EmptyString => false
  | String _ s' => str_contains p s'
  end.

(* ===================================================================== *)
(** * Regular expressions of the [re] module, as far as the source uses them *)
(* ===================================================================== *)

Inductive regex :=
| RNone                          (* matches no string *)
| REps                           (* the empty string *)
| RClass (p : ascii -> bool)     (* one character of a class *)
| RCat (r1 r2 : regex)
| RAlt (r1 r2 : regex)
| RStar (r : regex).

Fixpoint RLit (s : string) : regex :=
  match s with
  | EmptyString => REps
  | String c s' => RCat (RClass (is_char c)) (RLit s')
  end.

Definition RPlus (r : regex) : regex := RCat r (RStar r).   (* r+ *)
Definition ROpt (r : regex) : regex := RAlt r REps.          (* r? *)

(** [r{0,n}] *)
Fixpoint RUpTo (n : nat) (r : regex) : regex :=
  match n with
  | O => REps
  | S n' => ROpt (RCat r (RUpTo n' r))
  end.

Fixpoint nullable (r : regex) : bool :=
  match r with
  | RNone => false
  | REps => true
  | RClass _ => false
  | RCat r1 r2 => nullable r1 && nullable r2
  | RAlt r1 r2 => nullable r1 || nullable r2
  | RStar _ => true
  end.

Definition cat (r1 r2 : regex) : regex :=
  match r1, r2 with
  | RNone, _ => RNone
  | _, RNone => RNone
  | REps, _ => r2
  | _, _ => RCat r1 r2
  end.

Definition alt (r1 r2 : regex) : regex :=
  match r1, r2 with
  | RNone, _ => r2
  | _, RNone => r1
  | _, _ => RAlt r1 r2
  end.

(** The residual of [r] after the character [c]. *)
Fixpoint deriv (c : ascii) (r : regex) : regex :=
  match r with
  | RNone => RNone
  | REps => RNone
  | RClass p => if p c then REps else RNone
  | RCat r1 r2 =>
      if nullable r1 then alt (cat (deriv c r1) r2) (deriv c r2)
      else cat (deriv c r1) r2
  | RAlt r1 r2 => alt (deriv c r1) (deriv c r2)
  | RStar r1 => cat (deriv c r1) (RStar r1)
  end.

(** [re.compile("^" body "$").match(s)]: the match starts at the first
    character, and [$] holds at the end of the string and also just before
    a newline that is the last character of the string. *)
Fixpoint re_match (body : regex) (s : string) : bool :=
  match s with
  | EmptyString => nullable body
  | String c s' =>
      (nullable body && Ascii.eqb c LF && str_is_empty s')
      || re_match (deriv c body) s'
  end.

(** [re.fullmatch]: every character is consumed (used for comparison only). *)
Fixpoint re_fullmatch (body : regex) (s : string) : bool :=
  match s with
  | EmptyString => nullable body
  | String c s' => re_fullmatch (deriv c body) s'
  end.

(* ===================================================================== *)
(** * validation.py *)
(* ===================================================================== *)

(** ** Hard limits, whitelists and patterns *)

Definition MAX_VECTORS_COUNT : Z := 50000.
Definition MAX_BATCH_SIZE_PINECONE : Z := 1000.
Definition MAX_BATCH_SIZE_QDRANT : Z := 500.

Definition VALID_PROVIDERS : gset string := {[ "pinecone"; "qdrant" ]}.
Definition VALID_DISTANCE_METRICS : gset string := {[ "Cosine"; "Dot"; "Euclid" ]}.

(** [[a-zA-Z0-9_-]] *)
Definition index_name_char (c : ascii) : bool :=
  is_alnum c || is_char "_" c || is_char "-" c.
(** [[a-zA-Z0-9._-]] *)
Definition host_char (c : ascii) : bool :=
  is_alnum c || is_char "." c || is_char "_" c || is_char "-" c.
(** [[a-zA-Z0-9_~-]] *)
Definition dataset_id_char (c : ascii) : bool :=
  is_alnum c || is_char "_" c || is_char "~" c || is_char "-" c.
(** [[a-zA-Z_]] and [[a-zA-Z0-9_.]] *)
Definition field_first_char (c : ascii) : bool :=
  is_alpha c || is_char "_" c.
Definition field_char (c : ascii) : bool :=
  is_alnum c || is_char "_" c || is_char "." c.

(** [^[a-zA-Z0-9][a-zA-Z0-9_-]{0,63}$] *)
Definition _INDEX_NAME_PATTERN : regex :=
  RCat (RClass is_alnum) (RUpTo 63 (RClass index_name_char)).

(** [^https://[a-zA-Z0-9._-]+\.cloud\.qdrant\.io(:\d+)?$]; on the code
    points of a [string], [\d] is [0-9]. *)
Definition _QDRANT_URL_PATTERN : regex :=
  RCat (RLit "https://")
    (RCat (RPlus (RClass host_char))
       (RCat (RLit ".cloud.qdrant.io")
          (ROpt (RCat (RLit ":") (RPlus (RClass is_digit)))))).

(** [^[a-zA-Z0-9][a-zA-Z0-9_~-]{0,63}$] *)
Definition _DATASET_ID_PATTERN : regex :=
  RCat (RClass is_alnum) (RUpTo 63 (RClass dataset_id_char)).

(** [^[a-zA-Z_][a-zA-Z0-9_.]{0,63}$] *)
Definition _FIELD_NAME_PATTERN : regex :=
  RCat (RClass field_first_char) (RUpTo 63 (RClass field_char)).

(** [^[a-zA-Z0-9._-]{0,64}$] *)
Definition _NAMESPACE_PATTERN : regex := RUpTo 64 (RClass host_char).

(** [[\x00-\x08\x0b\x0c\x0e-\x1f\x7f]] *)
Definition _CONTROL_CHARS (c : ascii) : bool :=
  in_range 0 8 c || in_range 11 12 c || in_range 14 31 c
  || (nat_of_ascii c =? 127)%nat.

Record ValidatedInput := {
  api_key : string;
  provider : string;
  index_name : string;
  environment : option string;      (* Qdrant cluster URL *)
  namespace : string;               (* Pinecone namespace *)
  distance_metric : string;         (* Qdrant distance metric *)
  dataset_id : option string;
  vectors : option (list pyval);
  batch_size : Z;                   (* [True] is the integer 1 *)
  id_field : string;
}.

(** [sanitize_text]: [_CONTROL_CHARS.sub("", text)] *)
Definition sanitize_text (text : string) : string :=
  str_filter (fun c => negb (_CONTROL_CHARS c)) text.

(** ** [int(x)] *)

Inductive int_result :=
| IntOk (z : Z)
| IntTypeError
| IntValueError
| IntOverflowError.

(** [int(f)] truncates toward zero; [nan] and the infinities raise. *)
Definition int_of_float (f : spec_float) : int_result :=
  match f with
  | S754_zero _ => IntOk 0
  | S754_infinity _ => IntOverflowError
  | S754_nan => IntValueError
  | S754_finite s m e =>
      let a := if 0 <=? e then Z.pos m * 2 ^ e else Z.pos m / 2 ^ (- e) in
      IntOk (if s then - a else a)
  end.

Definition digit_val (c : ascii) : Z := Z.of_nat (nat_of_ascii c) - 48.

(** The rest of a decimal literal after a digit: digits, each optionally
    preceded by one underscore. *)
Fixpoint int_digits (acc : Z) (s : string) : option Z :=
  match s with
  | EmptyString => Some acc
  | String c s' =>
      if is_digit c then int_digits (10 * acc + digit_val c) s'
      else if is_char "_" c then
        match s' with
        | String d s'' =>
            if is_digit d then int_digits (10 * acc + digit_val d) s'' else None
        | EmptyString => None
        end
      else None
  end.

(** White space as [int()] skips it around a literal: the ASCII white
    space 0x09-0x0d and 0x20, and NEL (0x85) and NBSP (0xa0), which the
    conversion turns into spaces first. The separators 0x1c-0x1f, which
    [str.strip] removes, are not skipped: with one of them the literal is
    invalid. *)
Definition is_int_space (c : ascii) : bool :=
  in_range 9 13 c || (nat_of_ascii c =? 32)%nat
  || (nat_of_ascii c =? 133)%nat || (nat_of_ascii c =? 160)%nat.

(** The number of digits of a literal, underscores not counted. *)
Fixpoint count_digits (s : string) : Z :=
  match s with
  | EmptyString => 0
  | String c s' => (if is_digit c then 1 else 0) + count_digits s'
  end.

(** [sys.int_info.default_max_str_digits]: a decimal literal with more
    digits, leading zeros included, is refused with a [ValueError]. *)
Definition MAX_STR_DIGITS : Z := 4300.

(** [int(s)] in base 10: surrounding white space, one optional sign,
    digits with single underscores between them, at most
    [MAX_STR_DIGITS] digits. *)
Definition int_of_str (s : string) : int_result :=
  let t := rstrip_by is_int_space (lstrip_by is_int_space s) in
  let '(neg, t) :=
    match t with
    | String c r =>
        if is_char "-" c then (true, r)
        else if is_char "+" c then (false, r) else (false, t)
    | EmptyString => (false, t)
    end in
  match t with
  | String c r =>
      if is_digit c then
        match int_digits (digit_val c) r with
        | Some z =>
            if MAX_STR_DIGITS <? count_digits t then IntValueError
            else IntOk (if neg then - z else z)
        | None => IntValueError
        end
      else IntValueError
  | EmptyString => IntValueError
  end.

Definition py_int (v : pyval) : int_result :=
  match v with
  | PInt z => IntOk z
  | PBool b => IntOk (if b then 1 else 0)
  | PFloat f => int_of_float f
  | PStr s => int_of_str s
  | PNone | PList _ | PDict _ => IntTypeError
  end.

(** ** Validation errors: one constructor per [return None, ...] *)

Inductive verror :=
| InvalidProvider (provider : string)
| ApiKeyRequired
| IndexNameRequired
| InvalidIndexName (index_name : string)
| QdrantUrlRequired
| InvalidQdrantUrl (environment : string)
| InvalidNamespace (namespace : string)
| InvalidDistanceMetric (distance_metric : string)
| NoInputProvided
| InvalidDatasetId (dataset_id : string)
| TooManyVectors (n : nat)
| VectorNotObject (i : nat)
| VectorMissingEmbedding (i : nat)
| VectorBadEmbedding (i : nat)
| BatchSizeNotInteger (batch_size : pyval)
| BatchSizeOutOfRange (max_batch : Z) (provider : string) (batch_size : pyval)
| InvalidIdField (id_field : string).

(** What [validate_input] hands back: [(ValidatedInput, None)],
    [(None, error_message)], or an exception that it does not catch. *)
Inductive validation :=
| Valid (v : ValidatedInput)
| Invalid (e : verror)
| Uncaught (exn : string).

Definition as_str (v : pyval) (dflt : string) : string :=
  match v with PStr s => s | _ => dflt end.

Definition as_list (v : pyval) : list pyval :=
  match v with PList l => l | _ => [] end.

(** The loop [for i, v in enumerate(vectors)]: the first failure wins. *)
Fixpoint check_vectors (i : nat) (vs : list pyval) : option verror :=
  match vs with
  | [] => None
  | v :: vs' =>
      match v with
      | PDict d =>
          match d !! "embedding" with
          | None => Some (VectorMissingEmbedding i)
          | Some emb =>
              if negb (is_list emb) || negb (truthy emb)
              then Some (VectorBadEmbedding i)
              else check_vectors (S i) vs'
          end
      | _ => Some (VectorNotObject i)
      end
  end.

Definition validate_input (actor_input : gmap string pyval) : validation :=
  (* --- Provider --- *)
  let provider := dict_get actor_input "provider" (PStr "pinecone") in
  let provider := as_str provider "pinecone" in
  let provider := py_lower (py_strip provider) in
  if negb (bool_decide (provider ∈ VALID_PROVIDERS)) then
    Invalid (InvalidProvider provider)
  else
  (* --- API key --- *)
  let api_key := dict_get actor_input "api_key" (PStr "") in
  let api_key := as_str api_key "" in
  let api_key := py_strip api_key in
  if str_is_empty api_key then Invalid ApiKeyRequired else
  (* --- Index / Collection name --- *)
  let index_name := dict_get actor_input "index_name" (PStr "") in
  let index_name := as_str index_name "" in
  let index_name := py_strip index_name in
  if str_is_empty index_name then Invalid IndexNameRequired else
  if negb (re_match _INDEX_NAME_PATTERN index_name) then
    Invalid (InvalidIndexName index_name)
  else
  (* --- Qdrant cluster URL (required for Qdrant) --- *)
  let environment := dict_get actor_input "environment" PNone in
  let environment : verror + option string :=
    if String.eqb provider "qdrant" then
      if negb (truthy environment) || negb (is_str environment) then
        inl QdrantUrlRequired
      else
        let environment := py_rstrip_slash (py_strip (as_str environment "")) in
        if negb (re_match _QDRANT_URL_PATTERN environment) then
          inl (InvalidQdrantUrl environment)
        else inr (Some environment)
    else inr None in
  match environment with
  | inl e => Invalid e
  | inr environment =>
  (* --- Namespace (Pinecone only) --- *)
  let namespace := dict_get actor_input "namespace" (PStr "") in
  let namespace := as_str namespace "" in
  let namespace := py_strip namespace in
  if negb (str_is_empty namespace)
     && negb (re_match _NAMESPACE_PATTERN namespace) then
    Invalid (InvalidNamespace namespace)
  else
  (* --- Distance metric (Qdrant only) --- *)
  let distance_metric := dict_get actor_input "distance_metric" (PStr "Cosine") in
  let distance_metric := as_str distance_metric "Cosine" in
  if negb (bool_decide (distance_metric ∈ VALID_DISTANCE_METRICS)) then
    Invalid (InvalidDistanceMetric distance_metric)
  else
  (* --- Input sources: dataset_id or vectors --- *)
  let dataset_id := dict_get actor_input "dataset_id" PNone in
  let vectors := dict_get actor_input "vectors" PNone in
  let has_dataset :=
    is_str dataset_id && negb (str_is_empty (py_strip (as_str dataset_id ""))) in
  let has_vectors := is_list vectors && truthy vectors in
  if negb has_dataset && negb has_vectors then Invalid NoInputProvided else
  (* --- Validate dataset_id --- *)
  let dataset_id : verror + option string :=
    if has_dataset then
      let dataset_id := py_strip (as_str dataset_id "") in
      if negb (re_match _DATASET_ID_PATTERN dataset_id) then
        inl (InvalidDatasetId dataset_id)
      else inr (Some dataset_id)
    else inr None in
  match dataset_id with
  | inl e => Invalid e
  | inr dataset_id =>
  (* --- Validate raw vectors --- *)
  let vectors : verror + option (list pyval) :=
    if has_vectors && negb has_dataset then
      let vs := as_list vectors in
      if MAX_VECTORS_COUNT <? Z.of_nat (length vs) then
        inl (TooManyVectors (length vs))
      else
        match check_vectors 0 vs with
        | Some e => inl e
        | None => inr (Some vs)
        end
    else inr None in
  match vectors with
  | inl e => Invalid e
  | inr vectors =>
  (* --- Validate batch_size --- *)
  let batch_size := dict_get actor_input "batch_size" (PInt 100) in
  match py_int batch_size with
  | IntTypeError | IntValueError => Invalid (BatchSizeNotInteger batch_size)
  | IntOverflowError => Uncaught "OverflowError"
  | IntOk n =>
  (* an [int] (or [bool]) is kept as it came, anything else is now [int(..)] *)
  let batch_size := if is_int batch_size then batch_size else PInt n in
  let max_batch :=
    if String.eqb provider "pinecone" then MAX_BATCH_SIZE_PINECONE
    else MAX_BATCH_SIZE_QDRANT in
  if (n <? 1) || (max_batch <? n) then
    Invalid (BatchSizeOutOfRange max_batch provider batch_size)
  else
  (* --- Validate id_field --- *)
  let id_field := dict_get actor_input "id_field" (PStr "chunk_id") in
  let id_field := as_str id_field "chunk_id" in
  let id_field := py_strip id_field in
  let id_field := if str_is_empty id_field then "chunk_id" else id_field in
  if negb (re_match _FIELD_NAME_PATTERN id_field) then
    Invalid (InvalidIdField id_field)
  else
    Valid {| api_key := api_key; provider := provider;
             index_name := index_name; environment := environment;
             namespace := namespace; distance_metric := distance_metric;
             dataset_id := dataset_id; vectors := vectors;
             batch_size := n; id_field := id_field |}
  end end end end.

(** ** The text of the error messages *)

Definition str_of_Z (z : Z) : string := NilZero.string_of_int (Z.to_int z).
Definition str_of_nat (n : nat) : string := str_of_Z (Z.of_nat n).

Fixpoint str_rev_onto (s acc : string) : string :=
  match s with
  | EmptyString => acc
  | String c s' => str_rev_onto s' (String c acc)
  end.
Definition str_rev (s : string) : string := str_rev_onto s EmptyString.

(** Digits, least significant first, with a comma after every third one
    that has a successor. *)
Fixpoint group3 (k : nat) (rev_digits : string) : string :=
  match rev_digits with
  | EmptyString => EmptyString
  | String c s' =>
      match k, s' with
      | 2%nat, String _ _ => String c (String "," (group3 0 s'))
      | _, _ => String c (group3 (S k) s')
      end
  end.

(** [f"{n:,}"] for a count *)
Definition str_of_nat_commas (n : nat) : string :=
  str_rev (group3 0 (str_rev (str_of_nat n))).

Section Messages.
(** [repr] of a float, a list or a dict belongs to the interpreter. *)
Variable py_repr : pyval -> string.

(** [str(v)], as an f-string inserts it *)
Definition py_str (v : pyval) : string :=
  match v with
  | PNone => "None"
  | PBool true => "True"
  | PBool false => "False"
  | PInt z => str_of_Z z
  | PStr s => s
  | PFloat _ | PList _ | PDict _ => py_repr v
  end.

Definition error_message (e : verror) : string :=
  match e with
  | InvalidProvider provider =>
      "Invalid provider '" +:+ provider +:+ "'. "
      +:+ "Must be one of: pinecone, qdrant."
  | ApiKeyRequired =>
      "API key is required. Provide your Pinecone or Qdrant API key."
  | IndexNameRequired =>
      "Index/collection name is required. "
      +:+ "Pinecone: your index name. Qdrant: your collection name."
  | InvalidIndexName index_name =>
      "Invalid index/collection name: '" +:+ index_name +:+ "'. "
      +:+ "Must be alphanumeric (with hyphens/underscores), 1-64 characters, "
      +:+ "starting with a letter or digit."
  | QdrantUrlRequired =>
      "Qdrant cluster URL is required. "
      +:+ "Provide your Qdrant Cloud URL "
      +:+ "(e.g., 'https://xyz.us-east-1.aws.cloud.qdrant.io:6333')."
  | InvalidQdrantUrl environment =>
      "Invalid Qdrant cluster URL: '" +:+ environment +:+ "'. "
      +:+ "Must match pattern: https://{cluster}.cloud.qdrant.io:6333"
  | InvalidNamespace namespace =>
      "Invalid namespace: '" +:+ namespace +:+ "'. "
      +:+ "Must be alphanumeric with hyphens/underscores/dots, max 64 characters."
  | InvalidDistanceMetric distance_metric =>
      "Invalid distance metric '" +:+ distance_metric +:+ "'. "
      +:+ "Must be one of: Cosine, Dot, Euclid."
  | NoInputProvided =>
      "No input provided. Supply either 'dataset_id' (from RAG Embedding "
      +:+ "Generator output) or 'vectors' (raw vector array)."
  | InvalidDatasetId dataset_id =>
      "Invalid dataset_id format: '" +:+ dataset_id +:+ "'. "
      +:+ "Must be alphanumeric (with hyphens/underscores), 1-64 characters."
  | TooManyVectors n =>
      "Too many vectors: " +:+ str_of_nat_commas n +:+ " provided, "
      +:+ "maximum is 50,000."
  | VectorNotObject i =>
      "vectors[" +:+ str_of_nat i +:+ "] is not an object."
  | VectorMissingEmbedding i =>
      "vectors[" +:+ str_of_nat i +:+ "] is missing 'embedding' field. "
      +:+ "Each vector must have an 'embedding' array of floats."
  | VectorBadEmbedding i =>
      "vectors[" +:+ str_of_nat i
      +:+ "]['embedding'] must be a non-empty array of numbers."
  | BatchSizeNotInteger batch_size =>
      "batch_size must be an integer, got '" +:+ py_str batch_size +:+ "'."
  | BatchSizeOutOfRange max_batch provider batch_size =>
      "batch_size must be between 1 and " +:+ str_of_Z max_batch
      +:+ " for " +:+ provider +:+ ", got " +:+ py_str batch_size +:+ "."
  | InvalidIdField id_field =>
      "Invalid id_field: '" +:+ id_field +:+ "'. "
      +:+ "Must start with a letter or underscore, contain only "
      +:+ "alphanumeric characters, underscores, or dots."
  end.
End Messages.


(** ** [_sanitize_error]

    The same eight lines stand in validation.py, writers/pinecone.py and
    writers/qdrant.py. *)

(** [s.replace(old, new)] for a non-empty [old]: occurrences are taken
    from the left and do not overlap; [skip] counts the characters of the
    occurrence just replaced that are still to be passed over. *)
Fixpoint replace_go (old new : string) (skip : nat) (s : string) : string :=
  match s with
  | EmptyString => EmptyString
  | String c s' =>
      match skip with
      | S k => replace_go old new k s'
      | O =>
          if starts_with old s
          then new +:+ replace_go old new (String.length old - 1) s'
          else String c (replace_go old new 0 s')
      end
  end.

(** [s.replace("", new)] puts [new] before every character and at the end. *)
Fixpoint replace_empty (new s : string) : string :=
  match s with
  | EmptyString => new
  | String c s' => new +:+ String c (replace_empty new s')
  end.

Definition str_replace (old new s : string) : string :=
  if str_is_empty old then replace_empty new s else replace_go old new 0 s.

Definition REDACTED : string := "[REDACTED]".

Definition _sanitize_error (message api_key : string) : string :=
  let message :=
    if negb (str_is_empty api_key) && str_contains api_key message
    then str_replace api_key REDACTED message else message in
  let message :=
    if negb (str_is_empty api_key) && (8 <? String.length api_key)%nat
       && str_contains (str_take 8 api_key) message
    then str_replace (str_take 8 api_key) REDACTED message else message in
  message.

(** One of the two strings is a prefix of the other. *)
Definition agree (a b : string) : bool := starts_with a b || starts_with b a.

(** [b], laid over some non-empty tail of [a], agrees with it. *)
Fixpoint overlap (a b : string) : bool :=
  match a with
  | EmptyString => false
  | String _ a' => agree a b || overlap a' b
  end.

(** The text [p] can be confused with the redaction marker: the marker
    followed or preceded by other text can show an occurrence of [p]. The
    empty text clashes. *)
Definition marker_clash (p : string) : bool :=
  overlap REDACTED p || overlap p REDACTED.

(* ===================================================================== *)
(** * writers/pinecone.py and writers/qdrant.py *)
(* ===================================================================== *)

(** ** The outside world

    What one HTTP attempt can end in, seen from the [try] block of
    [_request_with_retry]. *)
Inductive exn :=
| ValueError (message : string)
| OtherException (name : string).      (* TypeError, AttributeError, ... *)

Inductive http_outcome :=
| Response (status : Z) (body : string) (json : pyval)
    (* [resp.status], [await resp.text()], [await resp.json()] *)
| ClientError (text : string)
    (* [aiohttp.ClientError] from the request or from reading the
       response; [text] is [str(exc)] *)
| Raises (e : exn).
    (* any other exception, a time-out for one *)

Inductive log_level := INFO | WARNING.

Inductive event :=
| EvRequest (method url : string) (headers : gmap string string)
    (payload : option pyval)
| EvSleep (seconds : Z)
| EvLog (level : log_level) (format : string) (args : list pyval).

(** The state of a run: how many HTTP attempts and how many UUIDs it has
    consumed, and what it has done, oldest event first. *)
Record world := {
  requests : nat;
  uuids : nat;
  trace : list event;
}.

Inductive result (A : Type) :=
| Ok (a : A)
| Raise (e : exn).
Arguments Ok {A} a.
Arguments Raise {A} e.

Definition M (A : Type) : Type := world -> result A * world.

Definition ret {A} (a : A) : M A := fun w => (Ok a, w).
Definition raise {A} (e : exn) : M A := fun w => (Raise e, w).
Definition bind {A B} (m : M A) (k : A -> M B) : M B :=
  fun w => match m w with
           | (Ok a, w') => k a w'
           | (Raise e, w') => (Raise e, w')
           end.

Notation "x <- m ;; k" := (bind m (fun x => k))
  (at level 100, m at next level, right associativity).
Notation "m ;;; k" := (bind m (fun _ => k))
  (at level 100, right associativity).

Definition emit (e : event) : M unit :=
  fun w => (Ok tt, {| requests := requests w; uuids := uuids w;
                      trace := trace w ++ [e] |}).

Definition sleep (seconds : Z) : M unit := emit (EvSleep seconds).
Definition log (level : log_level) (format : string) (args : list pyval) :
  M unit := emit (EvLog level format args).

(** [try: m except ValueError: handler] *)
Definition catch_ValueError {A} (m : M A) (handler : M A) : M A :=
  fun w => match m w with
           | (Raise (ValueError _), w') => handler w'
           | r => r
           end.

(** An integer as a float, exact for the small numbers that occur. *)
Definition float_of_Z (z : Z) : spec_float :=
  match z with
  | Z0 => S754_zero false
  | Zpos p => S754_finite false p 0
  | Zneg p => S754_finite true p 0
  end.

(** ** Payload builders *)

Definition skip_fields : gset string :=
  {[ "embedding"; "_summary"; "index"; "dimensions" ]}.

(** [isinstance(value, (str, int, float, bool))] *)
Definition is_scalar (value : pyval) : bool :=
  is_str value || is_int value || is_float value.

(** [isinstance(value, list) and all(isinstance(v, str) for v in value)] *)
Definition is_str_list (value : pyval) : bool :=
  match value with PList l => forallb is_str l | _ => false end.

(** [isinstance(value, (str, int, float, bool, list, dict))] *)
Definition is_json_container_or_scalar (value : pyval) : bool :=
  is_scalar value || is_list value || is_dict value.

(** The loop that fills [metadata] in [_build_pinecone_vector]. *)
Definition pinecone_metadata (item : gmap string pyval) (id_field : string) :
  gmap string pyval :=
  map_fold
    (fun key value metadata =>
       if bool_decide (key ∈ skip_fields) then metadata
       else if String.eqb key id_field then metadata
       else if is_scalar value then <[key := value]> metadata
       else if is_str_list value then <[key := value]> metadata
       else metadata)
    ∅ item.

(** The loop that fills [payload] in [_build_qdrant_point]. *)
Definition qdrant_payload (item : gmap string pyval) (id_field : string) :
  gmap string pyval :=
  map_fold
    (fun key value payload =>
       if bool_decide (key ∈ skip_fields) then payload
       else if String.eqb key id_field then payload
       else if is_json_container_or_scalar value then <[key := value]> payload
       else payload)
    ∅ item.

(** ** Retry configuration *)
Definition _MAX_RETRIES : nat := 3.
Definition _BASE_DELAY : Z := 1.          (* the float [1.0], in seconds *)
Definition _REQUEST_TIMEOUT : Z := 60.

(** [_BASE_DELAY * (2 ** attempt)]: a whole number of seconds *)
Definition backoff (attempt : nat) : Z := _BASE_DELAY * 2 ^ Z.of_nat attempt.

(** ** A few operations of the interpreter *)

(** [float(z)]: the nearest double; [OverflowError] when there is none. *)
Definition float_of_int (z : Z) : result spec_float :=
  match binary_normalize 53 1024 z 0 false with
  | S754_infinity _ => Raise (OtherException "OverflowError")
  | f => Ok f
  end.

Definition int_like (v : pyval) : option Z :=
  match v with
  | PInt z => Some z
  | PBool b => Some (if b then 1 else 0)
  | _ => None
  end.

(** [a + b] *)
Definition py_add (a b : pyval) : result pyval :=
  match int_like a, int_like b with
  | Some x, Some y => Ok (PInt (x + y))
  | Some x, None =>
      match b with
      | PFloat g =>
          match float_of_int x with
          | Ok f => Ok (PFloat (SFadd 53 1024 f g))
          | Raise e => Raise e
          end
      | _ => Raise (OtherException "TypeError")
      end
  | None, Some y =>
      match a with
      | PFloat f =>
          match float_of_int y with
          | Ok g => Ok (PFloat (SFadd 53 1024 f g))
          | Raise e => Raise e
          end
      | _ => Raise (OtherException "TypeError")
      end
  | None, None =>
      match a, b with
      | PFloat f, PFloat g => Ok (PFloat (SFadd 53 1024 f g))
      | PStr s, PStr t => Ok (PStr (s +:+ t))
      | PList l, PList l' => Ok (PList (l ++ l'))
      | _, _ => Raise (OtherException "TypeError")
      end
  end.

(** [len(v)] *)
Definition py_len (v : pyval) : result Z :=
  match v with
  | PList l => Ok (Z.of_nat (length l))
  | PStr s => Ok (Z.of_nat (String.length s))
  | PDict d => Ok (Z.of_nat (size d))
  | _ => Raise (OtherException "TypeError")
  end.

(** [v == s] for a string [s] *)
Definition py_eq_str (v : pyval) (s : string) : bool :=
  match v with PStr t => String.eqb t s | _ => false end.

Definition lift {A} (r : result A) : M A := fun w => (r, w).

(** [data.get(key, default)] on a parsed body: only a dict has [get]. *)
Definition json_get (data : pyval) (key : string) (dflt : pyval) : M pyval :=
  match data with
  | PDict d => ret (dict_get d key dflt)
  | _ => raise (OtherException "AttributeError")
  end.

(** The values of [for i in range(start, stop, step)] with [step > 0]:
    [i] starts at [start] and grows by [step] while it is below [stop]. *)
Fixpoint range_from (fuel : nat) (i stop step : Z) : list Z :=
  match fuel with
  | O => []
  | S fuel' =>
      if i <? stop then i :: range_from fuel' (i + step) stop step else []
  end.

(** [range(0, stop, step)]: a zero step is an error, a negative one
    gives nothing when [stop] is not negative. *)
Definition py_range0 (stop step : Z) : M (list Z) :=
  if step =? 0 then raise (ValueError "range() arg 3 must not be zero")
  else if step <? 0 then ret []
  else ret (range_from (Z.to_nat stop) 0 stop step).

(** [l[a:b]] for [0 <= a]; [b] beyond the end is cut down. *)
Definition py_slice {A} (l : list A) (a b : Z) : list A :=
  take (Z.to_nat (b - a)) (drop (Z.to_nat a) l).

(** The loop [for x in xs: ...] that updates running totals [s]. *)
Fixpoint for_fold {A S} (xs : list A) (body : A -> S -> M S) (s : S) : M S :=
  match xs with
  | [] => ret s
  | x :: xs' => s' <- body x s ;; for_fold xs' body s'
  end.

Definition _CONTROL_PLANE_URL : string := "https://api.pinecone.io".

(** What one pass through the retry loop ends in, when it raises nothing. *)
Inductive attempt_result :=
| Returned (data : pyval)
| Retry (last_error : string).

Section Writers.
(** The random draws of [uuid.uuid4()], as text, in the order of the
    calls; the answers of the server, in the order of the attempts; and
    [repr] of the interpreter. *)
Variable uuid4 : nat -> string.
Variable server : nat -> http_outcome.
Variable py_repr : pyval -> string.

(** [str(uuid.uuid4())] *)
Definition fresh_uuid : M string :=
  fun w => (Ok (uuid4 (uuids w)),
            {| requests := requests w; uuids := S (uuids w);
               trace := trace w |}).

(** The identifier: the value at [id_field] when it is a non-empty
    string, a fresh UUID otherwise. *)
Definition record_id (item : gmap string pyval) (id_field : string) :
  M string :=
  let vec_id := dict_get item id_field (PStr "") in
  if negb (truthy vec_id) || negb (is_str vec_id) then fresh_uuid
  else ret (as_str vec_id "").

Definition _build_pinecone_vector
    (item : gmap string pyval) (index : nat) (id_field : string) :
  M pyval :=
  vec_id <- record_id item id_field ;;
  let embedding := dict_get item "embedding" (PList []) in
  let metadata := pinecone_metadata item id_field in
  ret (PDict {[ "id" := PStr vec_id; "values" := embedding;
                "metadata" := PDict metadata ]}).

Definition _build_qdrant_point
    (item : gmap string pyval) (index : nat) (id_field : string) :
  M pyval :=
  point_id <- record_id item id_field ;;
  let embedding := dict_get item "embedding" (PList []) in
  let payload := qdrant_payload item id_field in
  ret (PDict {[ "id" := PStr point_id; "vector" := embedding;
                "payload" := PDict payload ]}).

(** ** The resilient HTTP client

    [_request_with_retry] of the two writers differ in the name they
    put into messages and in [accept_statuses], fixed to [200] for
    Pinecone. *)

(** [session.request(method, url, headers=..., json=payload)] *)
Definition session_request
    (method url : string) (headers : gmap string string)
    (payload : option pyval) : M http_outcome :=
  fun w => (Ok (server (requests w)),
            {| requests := S (requests w); uuids := uuids w;
               trace := trace w ++ [EvRequest method url headers payload] |}).

(** The body of [for attempt in range(_MAX_RETRIES)]. *)
Definition one_attempt
    (who : string) (accept_statuses : list Z)
    (method url : string) (headers : gmap string string)
    (payload : option pyval) (api_key : string) (attempt : nat) :
  M attempt_result :=
  outcome <- session_request method url headers payload ;;
  match outcome with
  | Response status body json =>
      if bool_decide (status ∈ accept_statuses) then ret (Returned json)
      else
        let safe_body := _sanitize_error body api_key in
        if bool_decide (status ∈ [400; 401; 403]) then
          if status =? 401 then
            raise (ValueError
                     (who +:+ " API key is invalid or expired. "
                      +:+ "Check your key and try again."))
          else
            raise (ValueError
                     (who +:+ " API error (" +:+ str_of_Z status +:+ "): "
                      +:+ safe_body))
        else if bool_decide (status ∈ [429; 500; 502; 503; 504]) then
          let last_error :=
            who +:+ " returned " +:+ str_of_Z status +:+ ": " +:+ safe_body in
          let delay := backoff attempt in
          log WARNING "Attempt %d/%d failed (%d), retrying in %.1fs..."
            [PInt (Z.of_nat attempt + 1); PInt (Z.of_nat _MAX_RETRIES);
             PInt status; PFloat (float_of_Z delay)] ;;;
          sleep delay ;;;
          ret (Retry last_error)
        else
          raise (ValueError
                   ("Unexpected " +:+ who +:+ " response ("
                    +:+ str_of_Z status +:+ "): " +:+ safe_body))
  | ClientError text =>
      let last_error := "Network error: " +:+ text in
      let delay := backoff attempt in
      log WARNING "Attempt %d/%d network error, retrying in %.1fs: %s"
        [PInt (Z.of_nat attempt + 1); PInt (Z.of_nat _MAX_RETRIES);
         PFloat (float_of_Z delay); PStr last_error] ;;;
      sleep delay ;;;
      ret (Retry last_error)
  | Raises e => raise e
  end.

(** The loop, and the [raise] after it. [last_error] starts as [None]. *)
Fixpoint retry_loop
    (who : string) (accept_statuses : list Z)
    (method url : string) (headers : gmap string string)
    (payload : option pyval) (api_key : string)
    (attempts : list nat) (last_error : option string) : M pyval :=
  match attempts with
  | [] =>
      raise (ValueError
               (who +:+ ": failed after " +:+ str_of_nat _MAX_RETRIES
                +:+ " attempts. Last error: "
                +:+ match last_error with Some e => e | None => "None" end))
  | attempt :: rest =>
      r <- one_attempt who accept_statuses method url headers payload
             api_key attempt ;;
      match r with
      | Returned data => ret data
      | Retry e =>
          retry_loop who accept_statuses method url headers payload
            api_key rest (Some e)
      end
  end.

Definition _request_with_retry
    (who : string) (accept_statuses : list Z)
    (method url : string) (headers : gmap string string)
    (payload : option pyval) (api_key : string) : M pyval :=
  retry_loop who accept_statuses method url headers payload api_key
    (seq 0 _MAX_RETRIES) None.

Definition pinecone_request_with_retry := _request_with_retry "Pinecone" [200].
Definition qdrant_request_with_retry
    (method url : string) (headers : gmap string string)
    (payload : option pyval) (api_key : string)
    (accept_statuses : list Z) : M pyval :=
  _request_with_retry "Qdrant" accept_statuses method url headers payload
    api_key.

(** ** Pinecone *)

Definition _resolve_index_host (api_key index_name : string) : M pyval :=
  let url := _CONTROL_PLANE_URL +:+ "/indexes/" +:+ index_name in
  let headers : gmap string string :=
    {[ "Api-Key" := api_key; "X-Pinecone-Api-Version" := "2024-07" ]} in
  data <- pinecone_request_with_retry "GET" url headers None api_key ;;
  host <- json_get data "host" PNone ;;
  if negb (truthy host) then
    raise (ValueError
             ("Could not resolve host for Pinecone index '" +:+ index_name
              +:+ "'. Verify the index exists in your Pinecone project."))
  else
    log INFO "Resolved Pinecone index '%s' -> host '%s'"
      [PStr index_name; host] ;;;
    ret host.

(** [for i, item in enumerate(items): records.append(build(item, i, id_field))] *)
Fixpoint build_all
    (build : gmap string pyval -> nat -> string -> M pyval)
    (i : nat) (items : list (gmap string pyval)) (id_field : string) :
  M (list pyval) :=
  match items with
  | [] => ret []
  | item :: rest =>
      v <- build item i id_field ;;
      vs <- build_all build (S i) rest id_field ;;
      ret (v :: vs)
  end.

Definition pinecone_upsert_payload (namespace : string) (batch : list pyval) :
  pyval :=
  let payload : gmap string pyval := {[ "vectors" := PList batch ]} in
  PDict (if negb (str_is_empty namespace)
         then <["namespace" := PStr namespace]> payload else payload).

(** One pass through the batch loop of [write_to_pinecone]. *)
Definition pinecone_upsert_batch
    (base_url : string) (headers : gmap string string)
    (namespace api_key : string) (vectors : list pyval) (batch_size : Z)
    (batch_start : Z) (totals : pyval * Z) : M (pyval * Z) :=
  let '(total_upserted, total_batches) := totals in
  let n := Z.of_nat (length vectors) in
  let batch_end := Z.min (batch_start + batch_size) n in
  let batch := py_slice vectors batch_start batch_end in
  log INFO "Pinecone upsert batch %d-%d of %d vectors..."
    [PInt (batch_start + 1); PInt batch_end; PInt n] ;;;
  data <- pinecone_request_with_retry "POST" (base_url +:+ "/vectors/upsert")
            headers (Some (pinecone_upsert_payload namespace batch))
            api_key ;;
  count <- json_get data "upsertedCount" (PInt 0) ;;
  total_upserted <- lift (py_add total_upserted count) ;;
  ret (total_upserted, total_batches + 1).

(** Step 3 of [write_to_pinecone]: the batch loop. *)
Definition pinecone_upsert_batches
    (base_url : string) (headers : gmap string string)
    (namespace api_key : string) (vectors : list pyval) (batch_size : Z) :
  M (pyval * Z) :=
  starts <- py_range0 (Z.of_nat (length vectors)) batch_size ;;
  for_fold starts
    (pinecone_upsert_batch base_url headers namespace api_key vectors
       batch_size)
    (PInt 0, 0).

Definition write_to_pinecone
    (items : list (gmap string pyval))
    (api_key index_name namespace : string) (batch_size : Z)
    (id_field : string) : M pyval :=
  (* Step 1: Resolve the index host *)
  host <- _resolve_index_host api_key index_name ;;
  let base_url := "https://" +:+ py_str py_repr host in
  let headers : gmap string string :=
    {[ "Api-Key" := api_key; "Content-Type" := "application/json";
       "X-Pinecone-Api-Version" := "2024-07" ]} in
  (* Step 2: Build all vectors *)
  vectors <- build_all _build_pinecone_vector 0 items id_field ;;
  (* Step 3: Upsert in batches *)
  totals <- pinecone_upsert_batches base_url headers namespace api_key
              vectors batch_size ;;
  ret (PDict
         {[ "provider" := PStr "pinecone";
            "index_name" := PStr index_name;
            "namespace" :=
              PStr (if str_is_empty namespace then "(default)" else namespace);
            "total_upserted" := fst totals;
            "total_batches" := PInt (snd totals) ]}).

(** ** Qdrant *)

Definition _ensure_collection
    (base_url : string) (headers : gmap string string)
    (api_key collection_name : string) (vector_size : Z)
    (distance_metric : string) : M bool :=
  (* Check if collection exists *)
  let exists_url :=
    base_url +:+ "/collections/" +:+ collection_name +:+ "/exists" in
  found <-
    catch_ValueError
      (data <- qdrant_request_with_retry "GET" exists_url headers None
                 api_key [200] ;;
       res <- json_get data "result" (PDict ∅) ;;
       ex <- json_get res "exists" (PBool false) ;;
       if truthy ex then
         log INFO "Qdrant collection '%s' already exists."
           [PStr collection_name] ;;;
         ret true
       else ret false)
      (* If the exists endpoint fails, try creating anyway *)
      (ret false) ;;
  if found : bool then ret false
  else
    (* Create collection *)
    let create_url := base_url +:+ "/collections/" +:+ collection_name in
    let payload :=
      PDict {[ "vectors" :=
                 PDict {[ "size" := PInt vector_size;
                          "distance" := PStr distance_metric ]} ]} in
    log INFO "Creating Qdrant collection '%s' (size=%d, distance=%s)..."
      [PStr collection_name; PInt vector_size; PStr distance_metric] ;;;
    qdrant_request_with_retry "PUT" create_url headers (Some payload)
      api_key [200] ;;;
    log INFO "Qdrant collection '%s' created." [PStr collection_name] ;;;
    ret true.

(** One pass through the batch loop of [write_to_qdrant]. *)
Definition qdrant_upsert_batch
    (upsert_url : string) (headers : gmap string string)
    (api_key : string) (points : list pyval) (batch_size : Z)
    (batch_start : Z) (totals : Z * Z) : M (Z * Z) :=
  let '(total_upserted, total_batches) := totals in
  let n := Z.of_nat (length points) in
  let batch_end := Z.min (batch_start + batch_size) n in
  let batch := py_slice points batch_start batch_end in
  log INFO "Qdrant upsert batch %d-%d of %d points..."
    [PInt (batch_start + 1); PInt batch_end; PInt n] ;;;
  data <- qdrant_request_with_retry "PUT" upsert_url headers
            (Some (PDict {[ "points" := PList batch ]})) api_key [200] ;;
  status <- json_get data "status" (PStr "") ;;
  if py_eq_str status "ok" then
    ret (total_upserted + Z.of_nat (length batch), total_batches + 1)
  else
    log WARNING "Qdrant batch %d-%d returned status: %s"
      [PInt (batch_start + 1); PInt batch_end; status] ;;;
    ret (total_upserted, total_batches).

(** Step 3 of [write_to_qdrant]: the batch loop. *)
Definition qdrant_upsert_batches
    (upsert_url : string) (headers : gmap string string)
    (api_key : string) (points : list pyval) (batch_size : Z) :
  M (Z * Z) :=
  starts <- py_range0 (Z.of_nat (length points)) batch_size ;;
  for_fold starts
    (qdrant_upsert_batch upsert_url headers api_key points batch_size)
    (0, 0).

Definition write_to_qdrant
    (items : list (gmap string pyval))
    (api_key cluster_url collection_name distance_metric : string)
    (batch_size : Z) (id_field : string) : M pyval :=
  let headers : gmap string string :=
    {[ "api-key" := api_key; "Content-Type" := "application/json" ]} in
  (* Step 1: Build all points first to determine vector size *)
  points <- build_all _build_qdrant_point 0 items id_field ;;
  match points with
  | [] => raise (ValueError "No valid points to upsert.")
  | first :: _ =>
      (* Determine vector dimensions from first point *)
      vector <- json_get first "vector" (PList []) ;;
      vector_size <- lift (py_len vector) ;;
      if vector_size =? 0 then
        raise (ValueError
                 ("First embedding has zero dimensions. "
                  +:+ "Check that input items have valid 'embedding' arrays."))
      else
        (* Step 2: Ensure collection exists *)
        collection_created <-
          _ensure_collection cluster_url headers api_key collection_name
            vector_size distance_metric ;;
        (* Step 3: Upsert in batches *)
        let upsert_url :=
          cluster_url +:+ "/collections/" +:+ collection_name +:+ "/points" in
        totals <- qdrant_upsert_batches upsert_url headers api_key points
                    batch_size ;;
        ret (PDict
               {[ "provider" := PStr "qdrant";
                  "collection_name" := PStr collection_name;
                  "cluster_url" := PStr cluster_url;
                  "distance_metric" := PStr distance_metric;
                  "collection_created" := PBool collection_created;
                  "total_upserted" := PInt (fst totals);
                  "total_batches" := PInt (snd totals) ]})
  end.
End Writers.

(* ===================================================================== *)
(** * main.py: [_load_dataset] *)
(* ===================================================================== *)

(** The first comprehension keeps
    [isinstance(item, dict) and not item.get("_summary", False)]. *)
Definition embedding_item (item : pyval) : option (gmap string pyval) :=
  match item with
  | PDict d =>
      if negb (truthy (dict_get d "_summary" (PBool false))) then Some d
      else None
  | _ => None
  end.

(** [isinstance(emb, list) and len(emb) > 0] for
    [emb = item.get("embedding")] *)
Definition has_embedding (item : gmap string pyval) : bool :=
  let emb := dict_get item "embedding" PNone in
  is_list emb && (0 <? Z.of_nat (length (as_list emb))).

(** One pass of the loop that fills [valid_items] and counts [skipped]. *)
Definition keep_valid (acc : list (gmap string pyval) * Z)
    (item : gmap string pyval) : list (gmap string pyval) * Z :=
  let '(valid_items, skipped) := acc in
  if has_embedding item then (valid_items ++ [item], skipped)
  else (valid_items, skipped + 1).

(** [_load_dataset] from the line after its [try] block: [items] is what
    the actor runtime has read from the dataset. *)
Definition _load_dataset (dataset_id : string) (items : list pyval) :
  M (list (gmap string pyval)) :=
  if negb (truthy (PList items)) then
    raise (ValueError
             ("Dataset '" +:+ dataset_id
              +:+ "' is empty or contains no items."))
  else
    (* Filter out summary items from RAG Embedding Generator *)
    let embedding_items := omap embedding_item items in
    match embedding_items with
    | [] =>
        raise (ValueError
                 ("Dataset '" +:+ dataset_id
                  +:+ "' contains no embedding items "
                  +:+ "(only summary rows found)."))
    | _ :: _ =>
        (* Validate that items have embeddings *)
        let '(valid_items, skipped) :=
          fold_left keep_valid embedding_items ([], 0) in
        match valid_items with
        | [] =>
            raise (ValueError
                     ("No items with valid 'embedding' arrays found in "
                      +:+ "dataset '" +:+ dataset_id
                      +:+ "'. Ensure the dataset was produced by "
                      +:+ "RAG Embedding Generator or contains items with "
                      +:+ "'embedding' fields."))
        | _ :: _ =>
            (if 0 <? skipped then
               log WARNING
                 "Skipped %d items without valid embeddings out of %d total."
                 [PInt skipped; PInt (Z.of_nat (length embedding_items))]
             else ret tt) ;;;
            log INFO "Loaded %d embedding items from dataset '%s'."
              [PInt (Z.of_nat (length valid_items)); PStr dataset_id] ;;;
            ret valid_items
        end
    end.

Definition world0 : world := {| requests := 0; uuids := 0; trace := [] |}.

(** ** Names for what the statements below talk about *)

(** An outcome after which [_request_with_retry] tries again. *)
Definition retryable (accept_statuses : list Z) (o : http_outcome) : bool :=
  match o with
  | Response status _ _ =>
      negb (bool_decide (status ∈ accept_statuses))
      && bool_decide (status ∈ [429; 500; 502; 503; 504])
  | ClientError _ => true
  | Raises _ => false
  end.

(** What it then keeps as [last_error]. *)
Definition last_error_of (who api_key : string) (o : http_outcome) : string :=
  match o with
  | Response status body _ =>
      who +:+ " returned " +:+ str_of_Z status +:+ ": "
      +:+ _sanitize_error body api_key
  | ClientError text => "Network error: " +:+ text
  | Raises _ => ""
  end.

(** The warning it logs. *)
Definition retry_warning (who api_key : string) (attempt : nat)
    (o : http_outcome) : event :=
  match o with
  | Response status _ _ =>
      EvLog WARNING "Attempt %d/%d failed (%d), retrying in %.1fs..."
        [PInt (Z.of_nat attempt + 1); PInt (Z.of_nat _MAX_RETRIES);
         PInt status; PFloat (float_of_Z (backoff attempt))]
  | _ =>
      EvLog WARNING "Attempt %d/%d network error, retrying in %.1fs: %s"
        [PInt (Z.of_nat attempt + 1); PInt (Z.of_nat _MAX_RETRIES);
         PFloat (float_of_Z (backoff attempt));
         PStr (last_error_of who api_key o)]
  end.

(** The slices that the batch loops of the two writers cut and send, in
    order: [records[batch_start:batch_end]] for the values of
    [range(0, len(records), batch_size)]. *)
Definition batches_of (records : list pyval) (batch_size : Z) :
  list (list pyval) :=
  let n := Z.of_nat (length records) in
  map (fun batch_start =>
         py_slice records batch_start (Z.min (batch_start + batch_size) n))
    (range_from (length records) 0 n batch_size).

(** [ceil(n / b)] for a positive [b] *)
Definition ceil_div (n b : Z) : Z := (n + b - 1) / b.

(** An answer to an upsert that lets the Pinecone loop go on: accepted,
    a JSON object, and a count that is an integer (or absent). *)
Definition pinecone_upsert_ok (o : http_outcome) : bool :=
  match o with
  | Response status _ (PDict d) =>
      (status =? 200)
      && match dict_get d "upsertedCount" (PInt 0) with
         | PInt _ => true
         | _ => false
         end
  | _ => false
  end.

Definition reported_count (o : http_outcome) : Z :=
  match o with
  | Response _ _ (PDict d) =>
      match dict_get d "upsertedCount" (PInt 0) with
      | PInt c => c
      | _ => 0
      end
  | _ => 0
  end.

(** The counts reported by the answers to [len] attempts from the
    [r]-th on, added up. *)
Definition reported_total (server : nat -> http_outcome) (r len : nat) : Z :=
  foldr (fun k acc => reported_count (server k) + acc) 0 (seq r len).

(** An answer that lets the Qdrant loop go on: accepted and a JSON
    object, whatever its [status]. *)
Definition qdrant_upsert_answered (o : http_outcome) : bool :=
  match o with
  | Response status _ (PDict _) => status =? 200
  | _ => false
  end.

(** The answer's [status] field equals ["ok"]. *)
Definition status_is_ok (o : http_outcome) : bool :=
  match o with
  | Response _ _ (PDict d) => py_eq_str (dict_get d "status" (PStr "")) "ok"
  | _ => false
  end.

(** The batches whose answer, the [r]-th attempt for the first batch and
    so on, has status ["ok"]. *)
Definition batches_acknowledged
    (server : nat -> http_outcome) (r : nat) (batches : list (list pyval)) :
  list (list pyval) :=
  map fst
    (List.filter (fun p => status_is_ok (snd p))
       (zip batches (map server (seq r (length batches))))).

Definition total_records (batches : list (list pyval)) : Z :=
  Z.of_nat (length (concat batches)).

(** The warnings of a trace, as their format strings. *)
Definition warnings_of (tr : list event) : list string :=
  omap (fun e => match e with
                 | EvLog WARNING f _ => Some f
                 | _ => None
                 end) tr.

(** The state after the events [evs], [n] of them HTTP attempts. *)
Definition advance (w : world) (n : nat) (evs : list event) : world :=
  {| requests := requests w + n; uuids := uuids w; trace := trace w ++ evs |}.

(** The sleeps of a trace, in order. *)
Definition sleeps_of (tr : list event) : list Z :=
  omap (fun e => match e with EvSleep d => Some d | _ => None end) tr.

(** The HTTP attempts of a trace, in order: method, URL and body. *)
Definition requests_of (tr : list event) : list (string * string * option pyval) :=
  omap (fun e => match e with
                 | EvRequest m u _ p => Some (m, u, p)
                 | _ => None
                 end) tr.

(** The keys that the payload builders pass over: the reserved ones and
    the id field. *)
Definition is_skipped (id_field key : string) : bool :=
  bool_decide (key ∈ skip_fields) || String.eqb key id_field.

(** The provider [validate_input] works with: trimmed, lower case,
    ["pinecone"] when absent or not a string. *)
Definition selected_provider (actor_input : gmap string pyval) : string :=
  py_lower (py_strip (as_str (dict_get actor_input "provider" (PStr "pinecone"))
                        "pinecone")).

(** The local variables [has_dataset] and [has_vectors]. *)
Definition has_dataset (actor_input : gmap string pyval) : bool :=
  let dataset_id := dict_get actor_input "dataset_id" PNone in
  is_str dataset_id && negb (str_is_empty (py_strip (as_str dataset_id ""))).

Definition has_vectors (actor_input : gmap string pyval) : bool :=
  let vectors := dict_get actor_input "vectors" PNone in
  is_list vectors && truthy vectors.

(** The cluster URL as the validator tests and stores it. *)
Definition normalized_environment (actor_input : gmap string pyval) : string :=
  py_rstrip_slash (py_strip (as_str (dict_get actor_input "environment" PNone) "")).

(** The shape the specification asks of a Qdrant URL, read as a pattern
    for the whole string: [https://], host labels, [.cloud.qdrant.io] and
    an optional [:port], with nothing before or after. *)
Definition is_qdrant_cloud_url (url : string) : bool :=
  re_fullmatch _QDRANT_URL_PATTERN url.

Definition str_is_valid (r : validation) : bool :=
  match r with Valid _ => true | _ => false end.

(** Every character of the string is in the class. *)
Fixpoint str_forallb (p : ascii -> bool) (s : string) : bool :=
  match s with
  | EmptyString => true
  | String c s' => p c && str_forallb p s'
  end.

(** A string of at most [1 + n] characters: one of the class [first],
    then characters of the class [rest]. *)
Definition identifier_like (first rest : ascii -> bool) (n : nat)
    (s : string) : bool :=
  match s with
  | EmptyString => false
  | String c s' =>
      first c && str_forallb rest s' && (String.length s' <=? n)%nat
  end.

(** The raw text fields as [validate_input] reads them: the default when
    the key is absent or its value is not a string, then [strip()]. *)
Definition stripped_field (actor_input : gmap string pyval)
    (key dflt : string) : string :=
  py_strip (as_str (dict_get actor_input key (PStr dflt)) dflt).

(** The key is absent, or its value is not a string. *)
Definition not_a_string (actor_input : gmap string pyval) (key : string) :
  bool :=
  match actor_input !! key with Some (PStr _) => false | _ => true end.

(** What the loop over [vectors] asks of an element: an object whose
    [embedding] is a non-empty list. *)
Definition vector_ok (v : pyval) : bool :=
  match v with
  | PDict d =>
      match d !! "embedding" with
      | Some emb => is_list emb && truthy emb
      | None => false
      end
  | _ => false
  end.

(** The index that a vector error names. *)
Definition vector_error_index (e : verror) : option nat :=
  match e with
  | VectorNotObject i | VectorMissingEmbedding i | VectorBadEmbedding i =>
      Some i
  | _ => None
  end.

(** The item has an identifier of its own: a non-empty string at
    [id_field]. *)
Definition has_usable_id (item : gmap string pyval) (id_field : string) :
  bool :=
  let vec_id := dict_get item id_field (PStr "") in
  truthy vec_id && is_str vec_id.

(** An outcome that [_request_with_retry] returns from. *)
Definition accepted (accept_statuses : list Z) (o : http_outcome) : bool :=
  match o with
  | Response status _ _ => bool_decide (status ∈ accept_statuses)
  | _ => false
  end.

(** The message of the [ValueError] raised for a status that is neither
    accepted nor retried. *)
Definition status_error_message (who api_key : string) (status : Z)
    (body : string) : string :=
  if status =? 401 then
    who +:+ " API key is invalid or expired. "
    +:+ "Check your key and try again."
  else if bool_decide (status ∈ [400; 403]) then
    who +:+ " API error (" +:+ str_of_Z status +:+ "): "
    +:+ _sanitize_error body api_key
  else
    "Unexpected " +:+ who +:+ " response (" +:+ str_of_Z status +:+ "): "
    +:+ _sanitize_error body api_key.

(** An answer to the existence check after which [_ensure_collection]
    goes on to create the collection: the collection is reported absent,
    or the check ends in a [ValueError] at once. *)
Definition exists_check_negative (o : http_outcome) : bool :=
  match o with
  | Response status _ json =>
      if status =? 200 then
        match json with
        | PDict d =>
            match dict_get d "result" (PDict ∅) with
            | PDict r => negb (truthy (dict_get r "exists" (PBool false)))
            | _ => false
            end
        | _ => false
        end
      else negb (bool_decide (status ∈ [429; 500; 502; 503; 504]))
  | _ => false
  end.

(** An answer to the existence check that reports the collection present. *)
Definition exists_check_positive (o : http_outcome) : bool :=
  match o with
  | Response status _ (PDict d) =>
      (status =? 200)
      && match dict_get d "result" (PDict ∅) with
         | PDict r => truthy (dict_get r "exists" (PBool false))
         | _ => false
         end
  | _ => false
  end.

(** The number of items that need a generated identifier. *)
Definition ids_to_draw (items : list (gmap string pyval)) (id_field : string) :
  nat :=
  length (List.filter (fun item => negb (has_usable_id item id_field)) items).

(** The state after one more event, which is not an HTTP attempt. *)
Definition logged (w : world) (e : event) : world :=
  {| requests := requests w; uuids := uuids w; trace := trace w ++ [e] |}.

(** The computation makes at least [n] HTTP attempts, however it ends. *)
Definition makes_attempts {A} (n : nat) (m : M A) : Prop :=
  forall w, (requests w + n <= requests (snd (m w)))%nat.

(** What a run from [w] to [w'] has added to the trace. *)
Definition events_since (w w' : world) : list event :=
  drop (length (trace w)) (trace w').

(** ** Sample inputs *)

(** The float [0.5]. *)
Definition half : spec_float := S754_finite false 1 (-1).

Definition one_vector : pyval :=
  PList [PDict {[ "embedding" := PList [PFloat half; PFloat half] ]}].

(** A Pinecone run fed from a dataset. *)
Definition input_dataset : gmap string pyval :=
  {[ "api_key" := PStr "pc-key"; "index_name" := PStr "docs";
     "dataset_id" := PStr "ds1" ]}.

(** A Pinecone run fed with inline vectors. *)
Definition input_vectors : gmap string pyval :=
  {[ "api_key" := PStr "pc-key"; "index_name" := PStr "docs";
     "vectors" := one_vector ]}.

(** Both sources at once, and none. *)
Definition input_both : gmap string pyval :=
  <[ "vectors" := one_vector ]> input_dataset.
Definition input_neither : gmap string pyval :=
  {[ "api_key" := PStr "pc-key"; "index_name" := PStr "docs" ]}.

(** Qdrant runs with several cluster URLs. *)
Definition input_qdrant (url : string) : gmap string pyval :=
  {[ "provider" := PStr "qdrant"; "api_key" := PStr "qd-key";
     "index_name" := PStr "docs"; "environment" := PStr url;
     "dataset_id" := PStr "ds1" ]}.

Definition url_good : string := "https://abc.us-east.cloud.qdrant.io:6333".
Definition url_evil : string := "https://evil.com".
(** ["https://abc.cloud.qdrant.io\n"] and the same followed by a slash *)
Definition url_newline : string := "https://abc.cloud.qdrant.io" +:+ String LF "".
Definition url_newline_slash : string := url_newline +:+ "/".

(** Strings with a control character (0x00, 0x01) in the middle. *)
Definition provider_nul : string := "pine" +:+ String "000" "cone".
Definition key_soh : string := "pc-" +:+ String "001" "key".

(** A key that begins like the marker, and a message that quotes it. *)
Definition key_redacted : string := "REDACTED-key-01".
Definition message_with_key : string := "401 for key REDACTED-key-01".

(** An item with an explicit id, an internal field, and metadata of every
    JSON kind; [note] is a JSON [null]. *)
Definition item_mixed : gmap string pyval :=
  {[ "chunk_id" := PStr "doc-1"; "embedding" := PList [PFloat half];
     "index" := PInt 0; "text" := PStr "hello"; "page" := PInt 3;
     "score" := PFloat half; "draft" := PBool false;
     "tags" := PList [PStr "a"; PStr "b"];
     "sizes" := PList [PInt 1; PInt 2];
     "source" := PDict {[ "url" := PStr "http://x" ]};
     "note" := PNone ]}.

(** Servers for the retry loop: one that fails in the network with a text
    that quotes the key, one that answers 503 with a body that quotes it,
    one that answers 401. *)
Definition sample_key : string := "pc-key-12345".
Definition server_network_error (k : nat) : http_outcome :=
  ClientError "Cannot connect to host (key pc-key-12345)".
Definition server_503 (k : nat) : http_outcome :=
  Response 503 "busy, key pc-key-12345" PNone.
Definition server_401 (k : nat) : http_outcome :=
  Response 401 "unauthorized" PNone.

(** 250 records, as in the end-to-end scenario of the specification, and
    servers that answer every upsert with 200. *)
Definition records250 : list pyval :=
  map (fun k => PDict {[ "id" := PStr (str_of_nat k) ]}) (seq 0 250).
Definition server_upserted (k : nat) : http_outcome :=
  Response 200 "" (PDict {[ "upsertedCount" := PInt 100 ]}).
(** The first attempt is answered 503, the others 200. *)
Definition server_busy_once (k : nat) : http_outcome :=
  match k with
  | O => Response 503 "busy" PNone
  | _ => Response 200 "" (PDict {[ "upsertedCount" := PInt 100 ]})
  end.

(** Three items, the second without an identifier of its own; a supply of
    identifiers; a Pinecone server that names a host and then reports two
    vectors per upsert; a Qdrant server that knows the collection, takes
    the first batch and only acknowledges the second. *)
Definition items3 : list (gmap string pyval) :=
  [ {[ "chunk_id" := PStr "a"; "embedding" := PList [PFloat half; PFloat half];
       "text" := PStr "x" ]};
    {[ "embedding" := PList [PFloat half; PFloat half] ]};
    {[ "chunk_id" := PStr "c";
       "embedding" := PList [PFloat half; PFloat half] ]} ].
Definition uuid_of (k : nat) : string := "uuid-" +:+ str_of_nat k.
Definition server_pinecone_run (k : nat) : http_outcome :=
  match k with
  | O => Response 200 "" (PDict {[ "host" := PStr "idx.pinecone.io" ]})
  | _ => Response 200 "" (PDict {[ "upsertedCount" := PInt 2 ]})
  end.
Definition server_qdrant_run (k : nat) : http_outcome :=
  match k with
  | O => Response 200 ""
           (PDict {[ "result" := PDict {[ "exists" := PBool true ]} ]})
  | 2%nat => Response 200 "" (PDict {[ "status" := PStr "acknowledged" ]})
  | _ => Response 200 "" (PDict {[ "status" := PStr "ok" ]})
  end.

(* ===================================================================== *)
(** * Properties of the validator *)
(* ===================================================================== *)

Lemma str_app_nil_l (s : string) : "" +:+ s = s.
Proof. reflexivity. Qed.

Lemma str_app_cons (c : ascii) (s t : string) :
  String c s +:+ t = String c (s +:+ t).
Proof. reflexivity. Qed.

Lemma dict_get_insert_ne (m : gmap string pyval) (k k' : string) (x d : pyval) :
  k <> k' -> dict_get (<[k := x]> m) k' d = dict_get m k' d.
Proof. intros Hne. unfold dict_get. by rewrite lookup_insert_ne. Qed.

Lemma dict_get_insert_eq (m : gmap string pyval) (k : string) (x d : pyval) :
  dict_get (<[k := x]> m) k d = x.
Proof. unfold dict_get. by rewrite lookup_insert_eq. Qed.

Lemma dict_get_lookup (m : gmap string pyval) (k : string) (x d : pyval) :
  m !! k = Some x -> dict_get m k d = x.
Proof. intros H. unfold dict_get. by rewrite H. Qed.

Lemma dict_get_delete_ne (m : gmap string pyval) (k k' : string) (d : pyval) :
  k <> k' -> dict_get (delete k m) k' d = dict_get m k' d.
Proof. intros Hne. unfold dict_get. by rewrite lookup_delete_ne. Qed.

Lemma dict_get_delete_eq (m : gmap string pyval) (k : string) (d : pyval) :
  dict_get (delete k m) k d = d.
Proof. unfold dict_get. by rewrite lookup_delete_eq. Qed.

(** The anchor [$] of [re_match] against a match of the whole string. *)
Lemma re_match_fullmatch (r : regex) (s : string) :
  re_match r s = true <->
  re_fullmatch r s = true
  \/ exists t, s = t +:+ String LF "" /\ re_fullmatch r t = true.
Proof.
  revert r. induction s as [|c s IH]; intros r; cbn [re_match re_fullmatch].
  - split; [auto|]. intros [H|(t & Ht & _)]; [done|]. by destruct t.
  - rewrite orb_true_iff, IH, !andb_true_iff. split.
    + intros [[[Hn Hc] Hs]|[H|(t & -> & Ht)]].
      * right. exists "". destruct s; [|done].
        apply Ascii.eqb_eq in Hc as ->. done.
      * by left.
      * right. by exists (String c t).
    + intros [H|(t & Ht & Hm)]; [by right; left|].
      destruct t as [|c' t];
        rewrite ?str_app_nil_l, ?str_app_cons in Ht; simplify_eq.
      * left. cbn in Hm. by rewrite Hm, Ascii.eqb_refl.
      * right. right. by exists t.
Qed.

(** The checks of [validate_input], read off the hypotheses that say how
    a run ended: one check at a time, the branches that end otherwise
    closed at once. *)
Ltac run_checks :=
  repeat match goal with
  | H : ?lhs = Valid _ |- _ =>
      match lhs with
      | context [match ?x with _ => _ end] =>
          destruct x eqn:?; try discriminate H
      end
  | H : ?lhs = inr _ |- _ =>
      match lhs with
      | context [match ?x with _ => _ end] =>
          destruct x eqn:?; try discriminate H
      end
  | H : inr _ = inr _ |- _ => injection H as <-
  | H : Valid _ = Valid _ |- _ => injection H as <-
  end.

(** The same on the goal, for runs that must end in an error. *)
Ltac fail_checks :=
  repeat match goal with
  | |- context [match ?x with _ => _ end] =>
      destruct x eqn:?; try (eexists; reflexivity)
  end.

(** C4. Whenever [validate_input] succeeds, exactly one of [dataset_id] and
    [vectors] of the result is set: either the dataset id with no vectors,
    or no dataset id with a non-empty list of vectors. *)
Theorem validate_input_exactly_one_source
    (m : gmap string pyval) (v : ValidatedInput) :
  validate_input m = Valid v ->
  (exists d, dataset_id v = Some d /\ vectors v = None)
  \/ (exists l, dataset_id v = None /\ vectors v = Some l /\ l <> []).
Proof.
  unfold validate_input. cbv zeta.
  set (hd := is_str _ && negb (str_is_empty (py_strip (as_str (dict_get m "dataset_id" PNone) "")))).
  set (hv := is_list _ && truthy _).
  intros H.
  destruct hd eqn:Hd, hv eqn:Hv; cbn [negb andb orb] in H.
  all: run_checks; cbn [dataset_id vectors].
  all: try (left; eexists; split; reflexivity).
  all: right; eexists; split; [reflexivity|split; [reflexivity|]].
  all: destruct (dict_get m "vectors" PNone) as [| | | | |l|];
    try discriminate Hv.
  all: destruct l; [discriminate Hv|done].
Qed.

Lemma validate_input_exactly_one_source_witness :
  (exists d, dataset_id
      {| api_key := "pc-key"; provider := "pinecone"; index_name := "docs";
         environment := None; namespace := ""; distance_metric := "Cosine";
         dataset_id := Some "ds1"; vectors := None; batch_size := 100;
         id_field := "chunk_id" |} = Some d
    /\ vectors
      {| api_key := "pc-key"; provider := "pinecone"; index_name := "docs";
         environment := None; namespace := ""; distance_metric := "Cosine";
         dataset_id := Some "ds1"; vectors := None; batch_size := 100;
         id_field := "chunk_id" |} = None)
  \/ (exists l, dataset_id
      {| api_key := "pc-key"; provider := "pinecone"; index_name := "docs";
         environment := None; namespace := ""; distance_metric := "Cosine";
         dataset_id := Some "ds1"; vectors := None; batch_size := 100;
         id_field := "chunk_id" |} = None
    /\ vectors
      {| api_key := "pc-key"; provider := "pinecone"; index_name := "docs";
         environment := None; namespace := ""; distance_metric := "Cosine";
         dataset_id := Some "ds1"; vectors := None; batch_size := 100;
         id_field := "chunk_id" |} = Some l /\ l <> []).
Proof.
  apply (validate_input_exactly_one_source input_dataset).
  vm_compute. reflexivity.
Defined.

(** C3, as stated, fails: an input with a non-empty [dataset_id] string
    and a non-empty [vectors] list is accepted; the vectors are dropped. *)
Lemma both_sources_accepted :
  input_both !! "dataset_id" = Some (PStr "ds1")
  /\ input_both !! "vectors" = Some one_vector
  /\ validate_input input_both =
     Valid {| api_key := "pc-key"; provider := "pinecone"; index_name := "docs";
              environment := None; namespace := ""; distance_metric := "Cosine";
              dataset_id := Some "ds1"; vectors := None; batch_size := 100;
              id_field := "chunk_id" |}.
Proof. repeat split; vm_compute; reflexivity. Qed.

(** C3, amended. [validate_input] returns an error whenever the input has
    neither a [dataset_id] string that is non-empty after trimming nor a
    non-empty [vectors] list. When the dataset id is there, the vectors are
    ignored: the outcome is that of the same input without [vectors], and a
    success carries the trimmed id and no vectors. *)
Theorem validate_input_source_rule (m : gmap string pyval) :
  (has_dataset m = false -> has_vectors m = false ->
   exists e, validate_input m = Invalid e)
  /\ (has_dataset m = true ->
      validate_input m = validate_input (delete "vectors" m)
      /\ forall v, validate_input m = Valid v ->
           dataset_id v =
             Some (py_strip (as_str (dict_get m "dataset_id" PNone) ""))
           /\ vectors v = None).
Proof.
  unfold has_dataset, has_vectors. cbv zeta. split.
  - intros Hd Hv. unfold validate_input. cbv zeta. rewrite Hd, Hv.
    cbn [negb andb orb]. fail_checks.
  - intros Hd. split.
    + unfold validate_input. cbv zeta.
      rewrite dict_get_delete_eq. rewrite !dict_get_delete_ne by done.
      rewrite Hd. cbn [negb andb orb is_list]. rewrite !andb_false_r.
      reflexivity.
    + intros v. unfold validate_input. cbv zeta. rewrite Hd.
      cbn [negb andb orb]. rewrite !andb_false_r.
      intros H. run_checks; cbn [dataset_id vectors]; done.
Qed.

Lemma validate_input_source_rule_witness :
  (exists e, validate_input input_neither = Invalid e)
  /\ validate_input input_both = validate_input (delete "vectors" input_both).
Proof.
  split.
  - apply (proj1 (validate_input_source_rule input_neither));
      vm_compute; reflexivity.
  - apply (proj2 (validate_input_source_rule input_both)).
    vm_compute; reflexivity.
Defined.

(** C10, as stated, fails in its namespace half: the namespace is
    trimmed before it is tested. The namespaces [" a"] and ["   "] are
    not empty and do not match the namespace pattern, yet a Qdrant input
    that holds them is accepted, with the namespace ["a"] and the empty
    namespace. *)
Lemma untrimmed_namespace_accepted :
  re_match _NAMESPACE_PATTERN " a" = false
  /\ re_match _NAMESPACE_PATTERN "   " = false
  /\ validate_input (<["namespace" := PStr " a"]> (input_qdrant url_good))
     = Valid {| api_key := "qd-key"; provider := "qdrant";
                index_name := "docs"; environment := Some url_good;
                namespace := "a"; distance_metric := "Cosine";
                dataset_id := Some "ds1"; vectors := None;
                batch_size := 100; id_field := "chunk_id" |}
  /\ validate_input (<["namespace" := PStr "   "]> (input_qdrant url_good))
     = Valid {| api_key := "qd-key"; provider := "qdrant";
                index_name := "docs"; environment := Some url_good;
                namespace := ""; distance_metric := "Cosine";
                dataset_id := Some "ds1"; vectors := None;
                batch_size := 100; id_field := "chunk_id" |}.
Proof. repeat split; vm_compute; reflexivity. Qed.

(** C10, amended. The metric and the namespace are checked whatever the
    provider. An input whose [distance_metric] is a string outside Cosine,
    Dot, Euclid is rejected, also for Pinecone: put into an input that
    Pinecone validation accepts, such a metric yields the distance-metric
    error. An input whose [namespace], after trimming, is non-empty and
    does not match the namespace pattern is rejected, also for Qdrant: put
    into an accepted Qdrant input, it yields the namespace error. *)
Theorem validate_input_checks_unused_fields (m : gmap string pyval) :
  (forall d,
      selected_provider m = "pinecone" ->
      m !! "distance_metric" = Some (PStr d) ->
      d ∉ VALID_DISTANCE_METRICS ->
      exists e, validate_input m = Invalid e)
  /\ (forall ns,
      selected_provider m = "qdrant" ->
      m !! "namespace" = Some (PStr ns) ->
      py_strip ns <> "" ->
      re_match _NAMESPACE_PATTERN (py_strip ns) = false ->
      exists e, validate_input m = Invalid e)
  /\ (forall v d,
      validate_input m = Valid v -> provider v = "pinecone" ->
      d ∉ VALID_DISTANCE_METRICS ->
      validate_input (<["distance_metric" := PStr d]> m)
      = Invalid (InvalidDistanceMetric d))
  /\ (forall v ns,
      validate_input m = Valid v -> provider v = "qdrant" ->
      py_strip ns <> "" ->
      re_match _NAMESPACE_PATTERN (py_strip ns) = false ->
      validate_input (<["namespace" := PStr ns]> m)
      = Invalid (InvalidNamespace (py_strip ns))).
Proof.
  split; [|split; [|split]].
  - intros d _ Hm Hd. unfold validate_input. cbv zeta.
    rewrite (dict_get_lookup _ _ _ (PStr "Cosine") Hm). cbn [as_str].
    rewrite (bool_decide_eq_false_2 _ Hd). cbn [negb].
    fail_checks.
  - intros ns _ Hm Hne Hre. unfold validate_input. cbv zeta.
    rewrite (dict_get_lookup _ _ _ (PStr "") Hm). cbn [as_str].
    rewrite Hre. destruct (py_strip ns) eqn:E; [done|].
    cbn [negb andb str_is_empty].
    fail_checks.
  - intros v d Hv _ Hd. revert Hv. unfold validate_input. cbv zeta.
    rewrite dict_get_insert_eq, !dict_get_insert_ne by done.
    cbn [as_str]. rewrite (bool_decide_eq_false_2 _ Hd). cbn [negb].
    intros Hv. run_checks; reflexivity.
  - intros v ns Hv _ Hne Hre. revert Hv. unfold validate_input. cbv zeta.
    rewrite dict_get_insert_eq, !dict_get_insert_ne by done.
    cbn [as_str]. rewrite Hre.
    destruct (py_strip ns) eqn:E; [done|]. cbn [negb andb str_is_empty].
    intros Hv. run_checks; reflexivity.
Qed.

Lemma validate_input_checks_unused_fields_witness :
  (exists e,
      validate_input (<["distance_metric" := PStr "Manhattan"]> input_dataset)
      = Invalid e)
  /\ (exists e,
      validate_input (<["namespace" := PStr "a b"]> (input_qdrant url_good))
      = Invalid e)
  /\ validate_input (<["distance_metric" := PStr "Manhattan"]> input_dataset)
     = Invalid (InvalidDistanceMetric "Manhattan")
  /\ validate_input (<["namespace" := PStr "a b"]> (input_qdrant url_good))
     = Invalid (InvalidNamespace (py_strip "a b")).
Proof.
  split; [|split; [|split]].
  - apply (proj1 (validate_input_checks_unused_fields
                    (<["distance_metric" := PStr "Manhattan"]> input_dataset))
             "Manhattan").
    + vm_compute; reflexivity.
    + vm_compute; reflexivity.
    + apply (bool_decide_eq_false_1 ("Manhattan" ∈ VALID_DISTANCE_METRICS)).
      reflexivity.
  - apply (proj1 (proj2 (validate_input_checks_unused_fields
                    (<["namespace" := PStr "a b"]> (input_qdrant url_good))))
             "a b").
    + vm_compute; reflexivity.
    + vm_compute; reflexivity.
    + discriminate.
    + vm_compute; reflexivity.
  - eapply (proj1 (proj2 (proj2 (validate_input_checks_unused_fields
                                   input_dataset)))).
    + vm_compute; reflexivity.
    + vm_compute; reflexivity.
    + apply (bool_decide_eq_false_1 ("Manhattan" ∈ VALID_DISTANCE_METRICS)).
      reflexivity.
  - eapply (proj2 (proj2 (proj2 (validate_input_checks_unused_fields
                                   (input_qdrant url_good))))).
    + vm_compute; reflexivity.
    + vm_compute; reflexivity.
    + discriminate.
    + vm_compute; reflexivity.
Defined.

(** C9, on the code. No control character is stripped by [validate_input]:
    a NUL inside the provider name comes back inside the error message,
    and a control character inside the API key comes back inside the
    validated input, although [sanitize_text] would remove both. *)
Theorem control_characters_survive_validation (py_repr : pyval -> string) :
  validate_input {[ "provider" := PStr provider_nul ]}
  = Invalid (InvalidProvider provider_nul)
  /\ str_existsb _CONTROL_CHARS
       (error_message py_repr (InvalidProvider provider_nul)) = true
  /\ validate_input (<["api_key" := PStr key_soh]> input_dataset)
     = Valid {| api_key := key_soh; provider := "pinecone";
                index_name := "docs"; environment := None; namespace := "";
                distance_metric := "Cosine"; dataset_id := Some "ds1";
                vectors := None; batch_size := 100; id_field := "chunk_id" |}
  /\ str_existsb _CONTROL_CHARS key_soh = true
  /\ sanitize_text provider_nul = "pinecone"
  /\ sanitize_text key_soh = "pc-key".
Proof. repeat split; vm_compute; reflexivity. Qed.

(** C1, on the code. The two URLs of the specification behave as it says,
    but a URL that ends in a newline, reached by writing a slash after the
    newline, passes as well: [$] also matches before a final newline. The
    stored cluster URL is then not of the shape
    [https://host.cloud.qdrant.io[:port]]. *)
Theorem qdrant_url_with_newline_accepted :
  validate_input (input_qdrant url_evil) = Invalid (InvalidQdrantUrl url_evil)
  /\ str_is_valid (validate_input (input_qdrant url_good)) = true
  /\ validate_input (input_qdrant url_newline_slash)
     = Valid {| api_key := "qd-key"; provider := "qdrant";
                index_name := "docs"; environment := Some url_newline;
                namespace := ""; distance_metric := "Cosine";
                dataset_id := Some "ds1"; vectors := None;
                batch_size := 100; id_field := "chunk_id" |}
  /\ normalized_environment (input_qdrant url_newline_slash) = url_newline
  /\ is_qdrant_cloud_url url_newline = false.
Proof. repeat split; vm_compute; reflexivity. Qed.

(* ===================================================================== *)
(** * Redaction of the API key *)
(* ===================================================================== *)

Lemma starts_with_refl (s : string) : starts_with s s = true.
Proof. induction s; cbn; [done|]. by rewrite Ascii.eqb_refl. Qed.

Lemma starts_with_nil_r (p : string) :
  starts_with p "" = true -> p = "".
Proof. by destruct p. Qed.

Lemma agree_sym (a b : string) : agree a b = agree b a.
Proof. unfold agree. apply orb_comm. Qed.

(** A prefix of [a ++ x] is a prefix of [a], or [a] is a prefix of it. *)
Lemma starts_with_app (q a x : string) :
  starts_with q (a +:+ x) = true -> agree q a = true.
Proof.
  unfold agree. revert a. induction q as [|d q IH]; intros a H; [done|].
  destruct a as [|c a]; [by destruct d|].
  rewrite str_app_cons in H. cbn in *.
  apply andb_true_iff in H as [Hd H]. apply IH in H.
  rewrite (Ascii.eqb_sym c d), Hd. done.
Qed.

Lemma contains_app (p a x : string) :
  str_contains p (a +:+ x) = true ->
  overlap a p = true \/ str_contains p x = true.
Proof.
  induction a as [|c a IH]; [by right|].
  rewrite str_app_cons. cbn [str_contains overlap].
  rewrite !orb_true_iff. intros [H|H].
  - left. left. rewrite agree_sym.
    apply (starts_with_app p (String c a) x). by rewrite str_app_cons.
  - destruct (IH H); auto.
Qed.

Lemma str_drop_length (k : nat) (s : string) :
  (String.length (str_drop k s) <= String.length s)%nat.
Proof.
  revert s. induction k as [|k IH]; intros [|c s]; cbn; try lia.
  specialize (IH s). lia.
Qed.

Lemma replace_go_skip (old new : string) (k : nat) (s : string) :
  replace_go old new k s = replace_go old new 0 (str_drop k s).
Proof.
  revert k. induction s as [|c s IH]; intros [|k]; try reflexivity.
  cbn [replace_go str_drop]. apply IH.
Qed.

(** The two equations of [replace]. *)
Lemma replace_go_hit (old new : string) (c : ascii) (s : string) :
  starts_with old (String c s) = true ->
  replace_go old new 0 (String c s)
  = new +:+ replace_go old new 0 (str_drop (String.length old - 1) s).
Proof. intros H. cbn [replace_go]. rewrite H. by rewrite replace_go_skip. Qed.

Lemma replace_go_miss (old new : string) (c : ascii) (s : string) :
  starts_with old (String c s) = false ->
  replace_go old new 0 (String c s) = String c (replace_go old new 0 s).
Proof. intros H. cbn [replace_go]. by rewrite H. Qed.

Lemma overlap_tail (d : ascii) (q m : string) :
  overlap (String d q) m = false -> overlap q m = false.
Proof. cbn. by intros [_ ?]%orb_false_iff. Qed.

(** What begins the replaced text and stays clear of the marker begins
    the original text. *)
Lemma starts_with_replace (p m q s : string) :
  overlap q m = false ->
  starts_with q (replace_go p m 0 s) = true -> starts_with q s = true.
Proof.
  revert q. induction s as [|c s IH]; intros q Hq H; [done|].
  destruct q as [|d q]; [done|].
  destruct (starts_with p (String c s)) eqn:Hp.
  - rewrite (replace_go_hit _ _ _ _ Hp) in H.
    apply starts_with_app in H. cbn in Hq. by rewrite H in Hq.
  - rewrite (replace_go_miss _ _ _ _ Hp) in H. cbn in *.
    apply andb_true_iff in H as [-> H]. cbn.
    apply IH; [|done]. by apply orb_false_iff in Hq as [_ ?].
Qed.

(** After [replace(p, m)] no occurrence of [p] is left, provided [p] is
    not empty and cannot be confused with [m]. *)
Lemma replace_removes (p m : string) :
  p <> "" -> overlap m p = false -> overlap p m = false ->
  forall s, str_contains p (replace_go p m 0 s) = false.
Proof.
  intros Hne Hmp Hpm s.
  remember (String.length s) as n eqn:Hn.
  revert s Hn. induction (lt_wf n) as [n _ IH]. intros s ->.
  destruct s as [|c s].
  - cbn. destruct p; [done|]. done.
  - destruct (starts_with p (String c s)) eqn:Hp.
    + rewrite (replace_go_hit _ _ _ _ Hp).
      apply not_true_is_false. intros [H|H]%contains_app.
      * by rewrite H in Hmp.
      * rewrite (IH (String.length (str_drop (String.length p - 1) s))) in H;
          [done| |done].
        pose proof (str_drop_length (String.length p - 1) s). cbn. lia.
    + rewrite (replace_go_miss _ _ _ _ Hp). cbn [str_contains].
      apply orb_false_iff. split.
      * apply not_true_is_false. intros H.
        assert (starts_with p (String c (replace_go p m 0 s)) = true) as H'
          by done.
        rewrite <- (replace_go_miss _ _ _ _ Hp) in H'.
        apply starts_with_replace in H'; [|done]. by rewrite H' in Hp.
      * apply (IH (String.length s)); [cbn; lia|done].
Qed.

Lemma marker_clash_nonempty (p : string) : marker_clash p = false -> p <> "".
Proof. intros H ->. done. Qed.

Lemma starts_with_take (n : nat) (k s : string) :
  starts_with k s = true -> starts_with (str_take n k) s = true.
Proof.
  revert k s. induction n as [|n IH]; intros [|a k] s H; try done.
  destruct s as [|b s]; [done|]. cbn in *.
  apply andb_true_iff in H as [-> H]. by apply IH.
Qed.

Lemma contains_take (n : nat) (k s : string) :
  str_contains k s = true -> str_contains (str_take n k) s = true.
Proof.
  induction s as [|c s IH]; cbn; rewrite !orb_true_iff.
  - intros [H|H]; [|done]. left. by apply starts_with_take.
  - intros [H|H]; [left; by apply starts_with_take|right; by apply IH].
Qed.

Lemma str_take_all (n : nat) (s : string) :
  (String.length s <= n)%nat -> str_take n s = s.
Proof.
  revert s. induction n as [|n IH]; intros [|c s]; cbn; try done; try lia.
  intros H. f_equal. apply IH. lia.
Qed.

Lemma str_replace_removes (p : string) (s : string) :
  marker_clash p = false ->
  str_contains p (str_replace p REDACTED s) = false.
Proof.
  intros H. pose proof (marker_clash_nonempty p H) as Hne.
  unfold str_replace. destruct p; [done|]. cbn [str_is_empty].
  apply orb_false_iff in H as [H1 H2]. by apply replace_removes.
Qed.

(** C2, as stated, fails: the key [REDACTED-key-01] is replaced by the
    marker, the word inside the marker is replaced once more, and the
    result still shows the key's first eight characters. *)
Lemma sanitize_error_marker_shows_prefix :
  _sanitize_error message_with_key key_redacted = "401 for key [[REDACTED]]"
  /\ str_take 8 key_redacted = "REDACTED"
  /\ str_contains (str_take 8 key_redacted)
       (_sanitize_error message_with_key key_redacted) = true.
Proof. repeat split; vm_compute; reflexivity. Qed.

(** C2, amended. For every message and every API key whose first eight
    characters cannot be confused with the marker [[REDACTED]] (no
    non-empty tail of the one agrees with the head of the other, which
    also rules out the empty key), the output of [_sanitize_error]
    contains neither the key nor its first eight characters. *)
Theorem sanitize_error_removes_key (message api_key : string) :
  marker_clash (str_take 8 api_key) = false ->
  str_contains api_key (_sanitize_error message api_key) = false
  /\ str_contains (str_take 8 api_key) (_sanitize_error message api_key)
     = false.
Proof.
  intros Hc.
  assert (str_is_empty api_key = false) as Hne.
  { destruct api_key; [done|done]. }
  assert (str_contains (str_take 8 api_key) (_sanitize_error message api_key)
          = false) as Hp.
  { unfold _sanitize_error. cbv zeta. rewrite Hne. cbn [negb andb].
    destruct (8 <? String.length api_key)%nat eqn:Hlen.
    - cbn [andb]. case_match.
      + by apply str_replace_removes.
      + done.
    - cbn [andb]. apply Nat.ltb_ge in Hlen.
      rewrite (str_take_all 8 api_key Hlen) in *.
      case_match.
      + by apply str_replace_removes.
      + done. }
  split; [|done].
  apply not_true_is_false. intros H.
  apply (contains_take 8) in H. by rewrite H in Hp.
Qed.

Lemma sanitize_error_removes_key_witness :
  str_contains "pc-key-12345"
    (_sanitize_error "403 for pc-key-12345 (pc-key-1...)" "pc-key-12345")
  = false
  /\ str_contains (str_take 8 "pc-key-12345")
       (_sanitize_error "403 for pc-key-12345 (pc-key-1...)" "pc-key-12345")
     = false.
Proof.
  apply (sanitize_error_removes_key
           "403 for pc-key-12345 (pc-key-1...)" "pc-key-12345").
  vm_compute. reflexivity.
Defined.

(* ===================================================================== *)
(** * Payload builders *)
(* ===================================================================== *)

(** A loop over the items of a dict that copies the entries passing two
    tests into a fresh dict leaves exactly those entries. *)
Lemma copy_loop_lookup
    (skip : string -> bool) (keeps : pyval -> bool)
    (f : string -> pyval -> gmap string pyval -> gmap string pyval)
    (item : gmap string pyval) (k : string) :
  (forall key value acc,
      f key value acc
      = if skip key then acc
        else if keeps value then <[key := value]> acc else acc) ->
  map_fold f ∅ item !! k
  = if skip k then None
    else match item !! k with
         | Some v => if keeps v then Some v else None
         | None => None
         end.
Proof.
  intros Hf. revert k.
  apply (map_fold_weak_ind
           (fun r m => forall k,
                r !! k
                = if skip k then None
                  else match m !! k with
                       | Some v => if keeps v then Some v else None
                       | None => None
                       end)).
  - intros k. rewrite !lookup_empty. by destruct (skip k).
  - intros i x m r Hi IH k. rewrite Hf.
    destruct (decide (i = k)) as [->|Hne].
    + rewrite lookup_insert_eq. specialize (IH k). rewrite Hi in IH.
      destruct (skip k); [done|]. destruct (keeps x).
      * by rewrite lookup_insert_eq.
      * rewrite IH. done.
    + rewrite (lookup_insert_ne m) by done. rewrite <- IH.
      destruct (skip i); [done|]. destruct (keeps x); [|done].
      by rewrite lookup_insert_ne.
Qed.

(** C8, on the code. The Pinecone metadata holds exactly the item's
    entries outside the reserved keys and the id field whose value is a
    string, an int, a float, a bool or a list of strings, as the claim
    says. The Qdrant payload holds those whose value is a string, an int,
    a float, a bool, a list or a dict: a JSON [null] is serializable and is
    dropped all the same, as the entry [note] of the sample item shows. *)
Theorem payload_builders_keep
    (item : gmap string pyval) (id_field k : string) :
  pinecone_metadata item id_field !! k
  = (if is_skipped id_field k then None
     else match item !! k with
          | Some v => if is_scalar v || is_str_list v then Some v else None
          | None => None
          end)
  /\ qdrant_payload item id_field !! k
  = (if is_skipped id_field k then None
     else match item !! k with
          | Some v => if is_json_container_or_scalar v then Some v else None
          | None => None
          end)
  /\ item_mixed !! "note" = Some PNone
  /\ qdrant_payload item_mixed "chunk_id" !! "note" = None
  /\ qdrant_payload item_mixed "chunk_id" !! "source"
     = Some (PDict {[ "url" := PStr "http://x" ]}).
Proof.
  split; [|split].
  - unfold pinecone_metadata.
    apply (copy_loop_lookup
             (is_skipped id_field)
             (fun v => is_scalar v || is_str_list v)).
    intros key value acc. unfold is_skipped.
    destruct (bool_decide (key ∈ skip_fields)); [done|].
    destruct (String.eqb key id_field); [done|]. cbn [orb].
    destruct (is_scalar value); cbn [orb]; done.
  - unfold qdrant_payload.
    apply (copy_loop_lookup
             (is_skipped id_field)
             is_json_container_or_scalar).
    intros key value acc. unfold is_skipped.
    destruct (bool_decide (key ∈ skip_fields)); [done|].
    destruct (String.eqb key id_field); done.
  - repeat split; vm_compute; reflexivity.
Qed.

(* ===================================================================== *)
(** * The resilient HTTP client *)
(* ===================================================================== *)

Section Retry.
Variable server : nat -> http_outcome.
Variables (who : string) (accept_statuses : list Z).
Variables (method url : string) (headers : gmap string string).
Variables (payload : option pyval) (api_key : string).

Let attempt_ := one_attempt server who accept_statuses method url headers
                  payload api_key.
Let request_ := EvRequest method url headers payload.

Lemma advance_advance (w : world) (n n' : nat) (evs evs' : list event) :
  advance (advance w n evs) n' evs' = advance w (n + n') (evs ++ evs').
Proof.
  unfold advance. cbn. f_equal; [lia|]. by rewrite <- app_assoc.
Qed.

(** A retryable outcome: one request, one warning, one sleep. *)
Lemma one_attempt_retry (attempt : nat) (w : world) :
  retryable accept_statuses (server (requests w)) = true ->
  attempt_ attempt w
  = (Ok (Retry (last_error_of who api_key (server (requests w)))),
     advance w 1
       [request_;
        retry_warning who api_key attempt (server (requests w));
        EvSleep (backoff attempt)]).
Proof.
  intros Hr. subst attempt_ request_. unfold one_attempt, bind, session_request.
  cbn [fst snd]. unfold advance.
  destruct (server (requests w)) as [status body json|text|e];
    cbn in Hr |- *; [| |done].
  - apply andb_true_iff in Hr as [Ha Hs].
    apply negb_true_iff in Ha. rewrite Ha.
    destruct (bool_decide (status ∈ [400; 401; 403])) eqn:Hc.
    + exfalso. apply bool_decide_eq_true in Hc, Hs.
      apply list_elem_of_In in Hc, Hs. cbn in Hc, Hs. lia.
    + rewrite Hs. unfold log, sleep, emit, bind, ret. cbn.
      rewrite <- !app_assoc. do 2 f_equal. lia.
  - unfold log, sleep, emit, bind, ret. cbn.
    rewrite <- !app_assoc. do 2 f_equal. lia.
Qed.

Let call_ := _request_with_retry server who accept_statuses method url
               headers payload api_key.

(** An accepted status: the parsed body is returned at once. *)
Lemma one_attempt_accepted (attempt : nat) (w : world)
    (status : Z) (body : string) (json : pyval) :
  server (requests w) = Response status body json ->
  status ∈ accept_statuses ->
  attempt_ attempt w = (Ok (Returned json), advance w 1 [request_]).
Proof.
  intros Hs Ha. subst attempt_ request_.
  unfold one_attempt, bind, session_request. cbn [fst snd]. rewrite Hs.
  rewrite (bool_decide_eq_true_2 _ Ha). unfold ret, advance. cbn.
  do 2 f_equal. lia.
Qed.

(** Every pass through the loop makes exactly one HTTP attempt and draws
    no UUID. *)
Lemma one_attempt_counts (attempt : nat) (w : world) :
  requests (snd (attempt_ attempt w)) = S (requests w)
  /\ uuids (snd (attempt_ attempt w)) = uuids w.
Proof.
  subst attempt_. unfold one_attempt, bind, session_request. cbn [fst snd].
  destruct (server (requests w)) as [status body json|text|e]; cbn.
  - repeat (case_match; cbn); done.
  - done.
  - done.
Qed.

Lemma retry_loop_counts (attempts : list nat) (last : option string)
    (w : world) :
  let w' := snd (retry_loop server who accept_statuses method url headers
                   payload api_key attempts last w) in
  (requests w <= requests w' <= requests w + length attempts)%nat
  /\ (attempts <> [] -> (requests w < requests w')%nat)
  /\ uuids w' = uuids w.
Proof.
  revert last w. induction attempts as [|a rest IH]; intros last w; cbn.
  - repeat split; [lia|lia|done].
  - unfold bind. fold attempt_.
    pose proof (one_attempt_counts a w) as [Hr Hu].
    destruct (attempt_ a w) as [[[data|e]|e] w1]; cbn in *.
    + repeat split; [lia|lia|intros _; lia|done].
    + specialize (IH (Some e) w1). cbn in IH.
      destruct IH as ([H1 H2] & _ & H3).
      repeat split; [lia|lia|intros _; lia|congruence].
    + repeat split; [lia|lia|intros _; lia|done].
Qed.

(** Whatever the server does, one call makes at least one and at most
    three HTTP attempts. *)
Lemma request_with_retry_bounded (w : world) :
  (requests w + 1 <= requests (snd (call_ w)) <= requests w + 3)%nat.
Proof.
  subst call_. unfold _request_with_retry.
  pose proof (retry_loop_counts (seq 0 _MAX_RETRIES) None w) as H.
  cbn zeta in H. destruct H as ([H1 H2] & H3 & _).
  specialize (H3 ltac:(done)). rewrite length_seq in H2.
  unfold _MAX_RETRIES in *. lia.
Qed.

(** Three retryable outcomes in a row: three attempts, sleeps of 1, 2
    and 4 seconds after them, and the terminal error with the last
    error kept. *)
Lemma request_with_retry_exhausted (w : world) :
  retryable accept_statuses (server (requests w)) = true ->
  retryable accept_statuses (server (requests w + 1)) = true ->
  retryable accept_statuses (server (requests w + 2)) = true ->
  call_ w
  = (Raise (ValueError
              (who +:+ ": failed after 3 attempts. Last error: "
               +:+ last_error_of who api_key (server (requests w + 2)))),
     advance w 3
       [request_; retry_warning who api_key 0 (server (requests w));
        EvSleep 1;
        request_; retry_warning who api_key 1 (server (requests w + 1));
        EvSleep 2;
        request_; retry_warning who api_key 2 (server (requests w + 2));
        EvSleep 4]).
Proof.
  intros H0 H1 H2. subst call_. unfold _request_with_retry.
  cbn [seq _MAX_RETRIES retry_loop]. unfold bind at 1. fold attempt_.
  rewrite (one_attempt_retry 0 w H0).
  unfold bind at 1. fold attempt_.
  rewrite (one_attempt_retry 1); cbn [advance requests];
    [|done].
  unfold bind at 1. fold attempt_.
  rewrite (one_attempt_retry 2); cbn [advance requests];
    rewrite <- ?Nat.add_assoc; cbn [Nat.add]; [|done].
  unfold raise. f_equal.
  unfold advance. cbn. f_equal; [lia|]. by rewrite <- !app_assoc.
Qed.

(** A 401: one attempt, no sleep, the invalid-key error. *)
Lemma request_with_retry_401 (w : world) (body : string) (json : pyval) :
  server (requests w) = Response 401 body json ->
  401 ∉ accept_statuses ->
  call_ w
  = (Raise (ValueError
              (who +:+ " API key is invalid or expired. "
               +:+ "Check your key and try again.")),
     advance w 1 [request_]).
Proof.
  intros Hs Ha. subst call_ request_. unfold _request_with_retry.
  cbn [seq _MAX_RETRIES retry_loop]. unfold bind at 1.
  unfold one_attempt, bind, session_request. cbn [fst snd]. rewrite Hs.
  rewrite (bool_decide_eq_false_2 _ Ha). cbn.
  unfold raise, advance. cbn. do 2 f_equal. lia.
Qed.

(** A 400 or a 403: one attempt, no sleep, an error that quotes the
    redacted body. *)
Lemma request_with_retry_client_error (w : world)
    (status : Z) (body : string) (json : pyval) :
  server (requests w) = Response status body json ->
  status = 400 \/ status = 403 ->
  status ∉ accept_statuses ->
  call_ w
  = (Raise (ValueError
              (who +:+ " API error (" +:+ str_of_Z status +:+ "): "
               +:+ _sanitize_error body api_key)),
     advance w 1 [request_]).
Proof.
  intros Hs Hst Ha. subst call_ request_. unfold _request_with_retry.
  cbn [seq _MAX_RETRIES retry_loop]. unfold bind at 1.
  unfold one_attempt, bind, session_request. cbn [fst snd]. rewrite Hs.
  rewrite (bool_decide_eq_false_2 _ Ha).
  destruct Hst as [-> | ->]; cbn;
    unfold raise, advance; cbn; do 2 f_equal; lia.
Qed.

(** Any other status, a 404 for one, is not retried either. *)
Lemma request_with_retry_unexpected (w : world)
    (status : Z) (body : string) (json : pyval) :
  server (requests w) = Response status body json ->
  status ∉ accept_statuses ->
  status ∉ [400; 401; 403] ->
  status ∉ [429; 500; 502; 503; 504] ->
  call_ w
  = (Raise (ValueError
              ("Unexpected " +:+ who +:+ " response (" +:+ str_of_Z status
               +:+ "): " +:+ _sanitize_error body api_key)),
     advance w 1 [request_]).
Proof.
  intros Hs Ha Hc Hr. subst call_ request_. unfold _request_with_retry.
  cbn [seq _MAX_RETRIES retry_loop]. unfold bind at 1.
  unfold one_attempt, bind, session_request. cbn [fst snd]. rewrite Hs.
  rewrite (bool_decide_eq_false_2 _ Ha), (bool_decide_eq_false_2 _ Hc),
    (bool_decide_eq_false_2 _ Hr).
  unfold raise, advance; cbn; do 2 f_equal; lia.
Qed.

(** An accepted answer to the first attempt is returned as it is. *)
Lemma request_with_retry_first_try (w : world)
    (status : Z) (body : string) (json : pyval) :
  server (requests w) = Response status body json ->
  status ∈ accept_statuses ->
  call_ w = (Ok json, advance w 1 [request_]).
Proof.
  intros Hs Ha. subst call_. unfold _request_with_retry.
  cbn [seq _MAX_RETRIES retry_loop]. unfold bind at 1. fold attempt_.
  by rewrite (one_attempt_accepted 0 w status body json Hs Ha).
Qed.

(** A retryable outcome followed by an accepted answer: two attempts,
    one second of sleep between them, and the answer. *)
Lemma request_with_retry_recovers (w : world)
    (status : Z) (body : string) (json : pyval) :
  retryable accept_statuses (server (requests w)) = true ->
  server (requests w + 1) = Response status body json ->
  status ∈ accept_statuses ->
  call_ w
  = (Ok json,
     advance w 2
       [request_; retry_warning who api_key 0 (server (requests w));
        EvSleep 1; request_]).
Proof.
  intros H0 Hs Ha. subst call_. unfold _request_with_retry.
  cbn [seq _MAX_RETRIES retry_loop]. unfold bind at 1. fold attempt_.
  rewrite (one_attempt_retry 0 w H0).
  unfold bind at 1. fold attempt_.
  rewrite (one_attempt_accepted 1 _ status body json);
    cbn [advance requests]; [|done|done].
  unfold advance. cbn. do 2 f_equal; [lia|]. by rewrite <- !app_assoc.
Qed.
End Retry.

(* ===================================================================== *)
(** * Batching *)
(* ===================================================================== *)

Section Batches.
Variable records : list pyval.
Variable batch_size : Z.
Hypothesis batch_size_pos : 1 <= batch_size.

Let n := Z.of_nat (length records).

Lemma py_slice_length (a : Z) :
  0 <= a <= n ->
  Z.of_nat (length (py_slice records a (Z.min (a + batch_size) n)))
  = Z.min (a + batch_size) n - a.
Proof.
  intros Ha. unfold py_slice. rewrite length_take, length_drop. subst n. lia.
Qed.

(** The sizes of the slices from [i] on: full batches, then the rest. *)
Lemma sizes_from (fuel : nat) (i : Z) :
  0 <= i <= n -> n - i <= Z.of_nat fuel ->
  map (fun s => Z.of_nat (length (py_slice records s
                                    (Z.min (s + batch_size) n))))
    (range_from fuel i n batch_size)
  = replicate (Z.to_nat ((n - i) / batch_size)) batch_size
    ++ (if (n - i) mod batch_size =? 0 then []
        else [(n - i) mod batch_size]).
Proof.
  revert i. induction fuel as [|fuel IH]; intros i Hi Hf.
  - assert (i = n) as -> by lia. rewrite Z.sub_diag. cbn.
    rewrite Z.div_0_l, Z.mod_0_l by lia. done.
  - cbn [range_from]. destruct (i <? n) eqn:Hlt.
    + apply Z.ltb_lt in Hlt. cbn [map]. rewrite py_slice_length by lia.
      destruct (Z_le_gt_dec (i + batch_size) n) as [Hle|Hgt].
      * rewrite IH by lia. rewrite Z.min_l by lia.
        replace (n - i) with ((n - (i + batch_size)) + 1 * batch_size) by lia.
        rewrite Z.div_add, Z.mod_add by lia.
        rewrite Z2Nat.inj_add; [| apply Z.div_pos; lia | lia].
        rewrite Nat.add_comm. change (Z.to_nat 1) with 1%nat.
        cbn [Nat.add replicate app]. f_equal. lia.
      * rewrite Z.min_r by lia.
        assert (range_from fuel (i + batch_size) n batch_size = []) as ->.
        { destruct fuel; [done|]. cbn.
          destruct (i + batch_size <? n) eqn:E; [|done].
          apply Z.ltb_lt in E. lia. }
        rewrite Z.div_small, Z.mod_small by lia. cbn.
        destruct (n - i =? 0) eqn:E; [apply Z.eqb_eq in E; lia|done].
    + apply Z.ltb_ge in Hlt. assert (i = n) as -> by lia.
      rewrite Z.sub_diag. cbn.
      rewrite Z.div_0_l, Z.mod_0_l by lia. done.
Qed.

(** Put end to end, the slices from [i] on give the records from [i] on. *)
Lemma concat_from (fuel : nat) (i : Z) :
  0 <= i <= n -> n - i <= Z.of_nat fuel ->
  concat (map (fun s => py_slice records s (Z.min (s + batch_size) n))
            (range_from fuel i n batch_size))
  = drop (Z.to_nat i) records.
Proof.
  revert i. induction fuel as [|fuel IH]; intros i Hi Hf.
  - cbn. rewrite drop_ge; [done|]. subst n. lia.
  - cbn [range_from]. destruct (i <? n) eqn:Hlt.
    + apply Z.ltb_lt in Hlt. cbn [map concat].
      destruct (Z_le_gt_dec (i + batch_size) n) as [Hle|Hgt].
      * rewrite IH by lia. rewrite Z.min_l by lia. unfold py_slice.
        replace (i + batch_size - i) with batch_size by lia.
        rewrite Z2Nat.inj_add by lia.
        rewrite <- drop_drop. apply take_drop.
      * rewrite Z.min_r by lia.
        assert (range_from fuel (i + batch_size) n batch_size = []) as ->.
        { destruct fuel; [done|]. cbn.
          destruct (i + batch_size <? n) eqn:E; [|done].
          apply Z.ltb_lt in E. lia. }
        cbn. rewrite app_nil_r. unfold py_slice.
        apply take_ge. rewrite length_drop. subst n. lia.
    + apply Z.ltb_ge in Hlt. cbn. rewrite drop_ge; [done|]. subst n. lia.
Qed.

Lemma batches_of_sizes :
  map (fun b => Z.of_nat (length b)) (batches_of records batch_size)
  = replicate (Z.to_nat (n / batch_size)) batch_size
    ++ (if n mod batch_size =? 0 then [] else [n mod batch_size]).
Proof.
  unfold batches_of. cbv zeta. fold n. rewrite map_map.
  rewrite (sizes_from (length records) 0) by (subst n; lia).
  by rewrite Z.sub_0_r.
Qed.

Lemma batches_of_concat : concat (batches_of records batch_size) = records.
Proof.
  unfold batches_of. cbv zeta. fold n.
  by rewrite (concat_from (length records) 0) by (subst n; lia).
Qed.

(** There are [ceil(n / batch_size)] slices. *)
Lemma batches_of_length :
  Z.of_nat (length (batches_of records batch_size)) = ceil_div n batch_size.
Proof.
  rewrite <- (length_map (fun b => Z.of_nat (length b))).
  rewrite batches_of_sizes, length_app, length_replicate, Nat2Z.inj_add.
  unfold ceil_div.
  assert (0 <= n) as Hn by (subst n; lia). clearbody n.
  pose proof (Z.div_mod n batch_size ltac:(lia)) as Hdm.
  pose proof (Z.mod_pos_bound n batch_size ltac:(lia)) as Hm.
  assert (0 <= n / batch_size) as Hq by (apply Z.div_pos; lia).
  rewrite Z2Nat.id by done.
  set (q := n / batch_size) in *. set (r := n mod batch_size) in *.
  clearbody q r.
  destruct (r =? 0) eqn:E.
  - apply Z.eqb_eq in E. cbn [length].
    replace (n + batch_size - 1) with (batch_size - 1 + q * batch_size)
      by lia.
    rewrite Z.div_add by lia. rewrite Z.div_small by lia. lia.
  - apply Z.eqb_neq in E. cbn [length].
    replace (n + batch_size - 1) with ((r - 1) + (1 + q) * batch_size)
      by lia.
    rewrite Z.div_add by lia. rewrite Z.div_small by lia. lia.
Qed.
End Batches.

(* ===================================================================== *)
(** * The batch loops of the writers *)
(* ===================================================================== *)

Lemma requests_of_app (tr tr' : list event) :
  requests_of (tr ++ tr') = requests_of tr ++ requests_of tr'.
Proof. apply omap_app. Qed.

Lemma warnings_of_app (tr tr' : list event) :
  warnings_of (tr ++ tr') = warnings_of tr ++ warnings_of tr'.
Proof. apply omap_app. Qed.

Lemma pinecone_upsert_ok_inv (o : http_outcome) :
  pinecone_upsert_ok o = true ->
  exists body d c,
    o = Response 200 body (PDict d)
    /\ dict_get d "upsertedCount" (PInt 0) = PInt c.
Proof.
  destruct o as [status body [| | | | | |d]| |]; try done. cbn.
  intros [->%Z.eqb_eq H]%andb_true_iff.
  destruct (dict_get d "upsertedCount" (PInt 0)) eqn:E; try done.
  by exists body, d, z.
Qed.

Lemma qdrant_upsert_answered_inv (o : http_outcome) :
  qdrant_upsert_answered o = true ->
  exists body d, o = Response 200 body (PDict d).
Proof.
  destruct o as [status body [| | | | | |d]| |]; try done. cbn.
  intros ->%Z.eqb_eq. by exists body, d.
Qed.

Section PineconeLoop.
Variable server : nat -> http_outcome.
Variables (base_url : string) (headers : gmap string string).
Variables (namespace api_key : string).
Variables (vectors : list pyval) (batch_size : Z).

Let n := Z.of_nat (length vectors).
Let slice (batch_start : Z) :=
  py_slice vectors batch_start (Z.min (batch_start + batch_size) n).
Let sent (batch : list pyval) : string * string * option pyval :=
  ("POST", base_url +:+ "/vectors/upsert",
   Some (pinecone_upsert_payload namespace batch)).
Let body_ := pinecone_upsert_batch server base_url headers namespace api_key
               vectors batch_size.

(** One pass with a good answer: one request, the count added. *)
Lemma pinecone_upsert_batch_ok
    (batch_start total_upserted total_batches : Z) (w : world) :
  pinecone_upsert_ok (server (requests w)) = true ->
  exists w',
    body_ batch_start (PInt total_upserted, total_batches) w
    = (Ok (PInt (total_upserted + reported_count (server (requests w))),
           total_batches + 1), w')
    /\ requests w' = S (requests w)
    /\ requests_of (trace w')
       = requests_of (trace w) ++ [sent (slice batch_start)].
Proof.
  intros Hok. destruct (pinecone_upsert_ok_inv _ Hok) as (body & d & c & Hs & Hc).
  subst body_. unfold pinecone_upsert_batch. cbv zeta.
  unfold bind at 1. unfold log, emit. cbn [fst snd].
  unfold bind at 1. unfold pinecone_request_with_retry.
  erewrite request_with_retry_first_try;
    [|cbn [requests]; exact Hs|by apply list_elem_of_here].
  unfold json_get, bind, ret, lift. rewrite Hs. cbn [reported_count].
  rewrite Hc. cbn [py_add int_like].
  eexists. split; [reflexivity|]. cbn [advance requests trace]. split; [lia|].
  rewrite !requests_of_app. cbn. by rewrite app_nil_r.
Qed.

End PineconeLoop.

Section QdrantLoop.
Variable server : nat -> http_outcome.
Variables (upsert_url : string) (headers : gmap string string).
Variable api_key : string.
Variables (points : list pyval) (batch_size : Z).

Let n := Z.of_nat (length points).
Let slice (batch_start : Z) :=
  py_slice points batch_start (Z.min (batch_start + batch_size) n).
Let sent (batch : list pyval) : string * string * option pyval :=
  ("PUT", upsert_url, Some (PDict {[ "points" := PList batch ]})).
Let body_ := qdrant_upsert_batch server upsert_url headers api_key points
               batch_size.

(** One pass with an answer: one request; the batch is counted when the
    status is ["ok"], and a warning is logged when it is not. *)
Lemma qdrant_upsert_batch_answered
    (batch_start total_upserted total_batches : Z) (w : world) :
  qdrant_upsert_answered (server (requests w)) = true ->
  exists w',
    body_ batch_start (total_upserted, total_batches) w
    = (Ok (if status_is_ok (server (requests w))
           then (total_upserted + Z.of_nat (length (slice batch_start)),
                 total_batches + 1)
           else (total_upserted, total_batches)), w')
    /\ requests w' = S (requests w)
    /\ requests_of (trace w')
       = requests_of (trace w) ++ [sent (slice batch_start)]
    /\ warnings_of (trace w')
       = warnings_of (trace w)
         ++ (if status_is_ok (server (requests w)) then []
             else ["Qdrant batch %d-%d returned status: %s"]).
Proof.
  intros Hok. destruct (qdrant_upsert_answered_inv _ Hok) as (body & d & Hs).
  subst body_. unfold qdrant_upsert_batch. cbv zeta.
  unfold bind at 1. unfold log, emit. cbn [fst snd].
  unfold bind at 1. unfold qdrant_request_with_retry.
  erewrite request_with_retry_first_try;
    [|cbn [requests]; exact Hs|by apply list_elem_of_here].
  unfold json_get, bind, ret. rewrite Hs. cbn [status_is_ok].
  destruct (py_eq_str (dict_get d "status" (PStr "")) "ok").
  - eexists. split; [reflexivity|]. cbn [advance requests trace].
    split; [lia|]. rewrite !requests_of_app, !warnings_of_app. cbn.
    by rewrite !app_nil_r.
  - unfold emit. eexists. split; [reflexivity|]. cbn [advance requests trace].
    split; [lia|]. rewrite !requests_of_app, !warnings_of_app. cbn.
    by rewrite !app_nil_r.
Qed.

Lemma batches_acknowledged_cons (r : nat) (b : list pyval)
    (bs : list (list pyval)) :
  batches_acknowledged server r (b :: bs)
  = if status_is_ok (server r)
    then b :: batches_acknowledged server (S r) bs
    else batches_acknowledged server (S r) bs.
Proof.
  unfold batches_acknowledged. cbn. by destruct (status_is_ok (server r)).
Qed.

End QdrantLoop.

(* ===================================================================== *)
(** * The claims about the HTTP client and the batch loops *)
(* ===================================================================== *)

(** C5, on the code. Three network errors in a row give three attempts,
    sleeps of 1, 2 and 4 seconds and the terminal error, but the text of
    the network error goes into it as it is: an API key quoted there is
    still readable, where the same key in a 503 body is redacted. A 401
    gives one attempt and the invalid-key error. *)
Theorem retry_keeps_network_error_unredacted :
  let run := pinecone_request_with_retry server_network_error
               "POST" "https://h/vectors/upsert" ∅ None sample_key world0 in
  let run503 := pinecone_request_with_retry server_503
               "POST" "https://h/vectors/upsert" ∅ None sample_key world0 in
  let run401 := pinecone_request_with_retry server_401
               "POST" "https://h/vectors/upsert" ∅ None sample_key world0 in
  fst run
  = Raise (ValueError
             ("Pinecone: failed after 3 attempts. Last error: "
              +:+ "Network error: Cannot connect to host (key pc-key-12345)"))
  /\ str_contains sample_key
       ("Pinecone: failed after 3 attempts. Last error: "
        +:+ "Network error: Cannot connect to host (key pc-key-12345)") = true
  /\ requests (snd run) = 3%nat
  /\ sleeps_of (trace (snd run)) = [1; 2; 4]
  /\ fst run503
     = Raise (ValueError
                ("Pinecone: failed after 3 attempts. Last error: "
                 +:+ "Pinecone returned 503: busy, key [REDACTED]"))
  /\ requests (snd run503) = 3%nat
  /\ sleeps_of (trace (snd run503)) = [1; 2; 4]
  /\ fst run401
     = Raise (ValueError
                ("Pinecone API key is invalid or expired. "
                 +:+ "Check your key and try again."))
  /\ requests (snd run401) = 1%nat
  /\ sleeps_of (trace (snd run401)) = [].
Proof. cbv zeta. repeat split; vm_compute; reflexivity. Qed.

(** C6, as stated, fails: with 250 records in batches of 100 a loop that
    is answered 401 stops after one HTTP call, and one whose first
    attempt is answered 503 finishes after four. *)
Lemma upsert_calls_are_not_the_batch_count :
  let run401 := pinecone_upsert_batches server_401 "https://h" ∅ ""
                  sample_key records250 100 world0 in
  let run503 := pinecone_upsert_batches server_busy_once "https://h" ∅ ""
                  sample_key records250 100 world0 in
  length records250 = 250%nat
  /\ ceil_div 250 100 = 3
  /\ fst run401
     = Raise (ValueError
                ("Pinecone API key is invalid or expired. "
                 +:+ "Check your key and try again."))
  /\ length (requests_of (trace (snd run401))) = 1%nat
  /\ fst run503 = Ok (PInt 300, 3)
  /\ length (requests_of (trace (snd run503))) = 4%nat.
Proof. cbv zeta. repeat split; vm_compute; reflexivity. Qed.


(* ===================================================================== *)
(** * The validator, read backwards *)
(* ===================================================================== *)

(** What a successful validation tells about the input, one line per
    check, in the order of the source. *)
Lemma validate_input_inv (m : gmap string pyval) (v : ValidatedInput) :
  validate_input m = Valid v ->
  let P := selected_provider m in
  let vs := as_list (dict_get m "vectors" PNone) in
  let f := stripped_field m "id_field" "chunk_id" in
  (provider v = P
   /\ bool_decide (P ∈ VALID_PROVIDERS) = true)
  /\ (api_key v = stripped_field m "api_key" ""
      /\ str_is_empty (api_key v) = false)
  /\ (index_name v = stripped_field m "index_name" ""
      /\ str_is_empty (index_name v) = false
      /\ re_match _INDEX_NAME_PATTERN (index_name v) = true)
  /\ (environment v
      = (if String.eqb P "qdrant" then Some (normalized_environment m)
         else None)
      /\ (String.eqb P "qdrant" = true ->
          truthy (dict_get m "environment" PNone) = true
          /\ is_str (dict_get m "environment" PNone) = true
          /\ re_match _QDRANT_URL_PATTERN (normalized_environment m) = true))
  /\ (namespace v = stripped_field m "namespace" ""
      /\ str_is_empty (namespace v)
         || re_match _NAMESPACE_PATTERN (namespace v) = true)
  /\ (distance_metric v
      = as_str (dict_get m "distance_metric" (PStr "Cosine")) "Cosine"
      /\ bool_decide (distance_metric v ∈ VALID_DISTANCE_METRICS) = true)
  /\ (has_dataset m || has_vectors m = true
      /\ dataset_id v
         = (if has_dataset m
            then Some (py_strip (as_str (dict_get m "dataset_id" PNone) ""))
            else None)
      /\ (has_dataset m = true ->
          re_match _DATASET_ID_PATTERN
            (py_strip (as_str (dict_get m "dataset_id" PNone) "")) = true))
  /\ (vectors v = (if has_dataset m then None else Some vs)
      /\ (has_dataset m = false ->
          (MAX_VECTORS_COUNT <? Z.of_nat (length vs)) = false
          /\ check_vectors 0 vs = None))
  /\ (py_int (dict_get m "batch_size" (PInt 100)) = IntOk (batch_size v)
      /\ (batch_size v <? 1)
         || ((if String.eqb P "pinecone" then MAX_BATCH_SIZE_PINECONE
              else MAX_BATCH_SIZE_QDRANT) <? batch_size v) = false)
  /\ (id_field v = (if str_is_empty f then "chunk_id" else f)
      /\ re_match _FIELD_NAME_PATTERN (id_field v) = true).
Proof.
  unfold validate_input. cbv zeta.
  unfold selected_provider, stripped_field, normalized_environment,
    has_dataset, has_vectors.
  remember re_match as rm eqn:Erm.
  intros H. run_checks.
  all: cbn [provider api_key index_name environment namespace distance_metric
            dataset_id vectors batch_size id_field].
  all: cbn [negb andb orb] in *.
  all: repeat match goal with
       | H : negb _ = false |- _ => apply negb_false_iff in H
       | H : negb _ = true |- _ => apply negb_true_iff in H
       | H : _ || _ = false |- _ => apply orb_false_iff in H as [? ?]
       | H : _ && _ = true |- _ => apply andb_true_iff in H as [? ?]
       end.
  all: try match goal with
       | Ha : ?a = true, Hb : ?b = true, Hc : ?a && ?b && true = false |- _ =>
           rewrite Ha, Hb in Hc; discriminate Hc
       | Hc : false = true |- _ => discriminate Hc
       | Hc : true = false |- _ => discriminate Hc
       end.
  all: repeat split; intros; try reflexivity; try assumption.
  all: try match goal with
       | Hc : false = true |- _ => discriminate Hc
       | Hc : true = false |- _ => discriminate Hc
       | Ha : ?a = true, Hb : ?b = true |- ?a && ?b = true =>
           rewrite Ha, Hb; reflexivity
       | Ha : ?a = false, Hb : ?b = false |- ?a || ?b = false =>
           rewrite Ha, Hb; reflexivity
       | Hn : negb ?a && negb ?b = false |- ?a || ?b = true =>
           destruct a, b; first [reflexivity | discriminate Hn]
       end.
Qed.

(** ** The patterns, read as sets of strings *)

Lemma re_fullmatch_RNone (s : string) : re_fullmatch RNone s = false.
Proof. by induction s. Qed.

Lemma cat_REps_l (r : regex) : cat REps r = r.
Proof. by destruct r. Qed.

Lemma alt_RNone_r (r : regex) : alt r RNone = r.
Proof. by destruct r. Qed.

(** [[g]{0,n}]: at most [n] characters, all of the class. *)
Lemma re_fullmatch_RUpTo (g : ascii -> bool) (n : nat) (s : string) :
  re_fullmatch (RUpTo n (RClass g)) s
  = str_forallb g s && (String.length s <=? n)%nat.
Proof.
  revert s. induction n as [|n IH]; intros [|c s]; try reflexivity.
  - cbn. rewrite re_fullmatch_RNone. by rewrite andb_false_r.
  - cbn [re_fullmatch RUpTo ROpt deriv nullable andb str_forallb
         String.length].
    rewrite alt_RNone_r. destruct (g c); cbn [andb].
    + rewrite cat_REps_l. rewrite IH. reflexivity.
    + apply re_fullmatch_RNone.
Qed.

(** [[f][g]{0,n}]: the shape of the names the validator lets through. *)
Lemma re_fullmatch_identifier (f g : ascii -> bool) (n : nat) (s : string) :
  re_fullmatch (RCat (RClass f) (RUpTo n (RClass g))) s
  = identifier_like f g n s.
Proof.
  destruct s as [|c s]; [reflexivity|].
  cbn [re_fullmatch deriv nullable identifier_like].
  destruct (f c); cbn [andb].
  - rewrite cat_REps_l. apply re_fullmatch_RUpTo.
  - apply re_fullmatch_RNone.
Qed.

(** What [rstrip] leaves does not end in a character it strips. *)
Lemma rstrip_by_last (p : ascii -> bool) (s t : string) (c : ascii) :
  rstrip_by p s = t +:+ String c "" -> p c = false.
Proof.
  revert t. induction s as [|a s IH]; intros t; cbn [rstrip_by].
  - by destruct t.
  - destruct (rstrip_by p s) as [|b r] eqn:E.
    + destruct (p a) eqn:Ha.
      * by destruct t.
      * destruct t as [|a' [|? ?]]; rewrite ?str_app_nil_l, ?str_app_cons;
          intros; simplify_eq; done.
    + destruct t as [|a' t]; rewrite ?str_app_nil_l, ?str_app_cons;
        intros; simplify_eq. by eapply IH.
Qed.

(** On a stripped string the anchor [$] has no second reading: a final
    newline would have been stripped. *)
Lemma re_match_stripped (r : regex) (s : string) :
  re_match r (py_strip s) = re_fullmatch r (py_strip s).
Proof.
  destruct (re_fullmatch r (py_strip s)) eqn:E.
  - apply re_match_fullmatch. by left.
  - destruct (re_match r (py_strip s)) eqn:E'; [|done].
    apply re_match_fullmatch in E' as [H|(t & Ht & _)]; [congruence|].
    apply rstrip_by_last in Ht. done.
Qed.

Lemma check_vectors_None (i : nat) (vs : list pyval) :
  check_vectors i vs = None <-> forallb vector_ok vs = true.
Proof.
  revert i. induction vs as [|x vs IH]; intros i; [done|].
  cbn [check_vectors forallb]. rewrite andb_true_iff, <- (IH (S i)).
  destruct x as [| | | | | |d]; cbn [vector_ok]; try (split; [done|by intros [? _]]).
  destruct (d !! "embedding") as [emb|]; [|split; [done|by intros [? _]]].
  destruct (is_list emb), (truthy emb); cbn; split; try done; try tauto;
    by intros [? _].
Qed.

(* ===================================================================== *)
(** * More about the validator *)
(* ===================================================================== *)

(** The names that a successful validation hands on are identifiers: the
    index or collection name is a letter or digit followed by at most 63
    letters, digits, hyphens and underscores; the id field is a letter or
    underscore followed by at most 63 letters, digits, underscores and
    dots; the namespace has at most 64 letters, digits, dots, hyphens and
    underscores; a dataset id is a letter or digit followed by at most 63
    letters, digits, hyphens, underscores and tildes. No white space, no
    slash and no newline gets through: these fields are stripped before
    the pattern is tried, so the anchor [$] cannot stop before a final
    newline. *)
Theorem validated_names_are_identifiers
    (m : gmap string pyval) (v : ValidatedInput) :
  validate_input m = Valid v ->
  identifier_like is_alnum index_name_char 63 (index_name v) = true
  /\ identifier_like field_first_char field_char 63 (id_field v) = true
  /\ str_forallb host_char (namespace v) = true
  /\ (String.length (namespace v) <= 64)%nat
  /\ (forall d, dataset_id v = Some d ->
                identifier_like is_alnum dataset_id_char 63 d = true).
Proof.
  intros H. apply validate_input_inv in H. cbv zeta in H.
  destruct H as (_ & _ & (Hi & _ & Hir) & _ & (Hn & Hnr) & _
                 & (_ & Hd & Hdr) & _ & _ & (Hf & Hfr)).
  split; [|split; [|split; [|split]]].
  - rewrite Hi in *. unfold stripped_field in *.
    rewrite re_match_stripped in Hir.
    by rewrite <- re_fullmatch_identifier.
  - rewrite Hf in *.
    destruct (str_is_empty (stripped_field m "id_field" "chunk_id"));
      [reflexivity|].
    unfold stripped_field in *. rewrite re_match_stripped in Hfr.
    by rewrite <- re_fullmatch_identifier.
  - rewrite Hn in *. unfold stripped_field in *.
    destruct (str_is_empty (py_strip
                (as_str (dict_get m "namespace" (PStr "")) ""))) eqn:Hne.
    + by destruct (py_strip (as_str (dict_get m "namespace" (PStr "")) "")).
    + cbn [orb] in Hnr.
      rewrite re_match_stripped in Hnr. unfold _NAMESPACE_PATTERN in Hnr.
      rewrite re_fullmatch_RUpTo in Hnr.
      by apply andb_true_iff in Hnr as [? _].
  - rewrite Hn in *. unfold stripped_field in *.
    destruct (str_is_empty (py_strip
                (as_str (dict_get m "namespace" (PStr "")) ""))) eqn:Hne.
    + destruct (py_strip (as_str (dict_get m "namespace" (PStr "")) ""));
        [cbn; lia|done].
    + cbn [orb] in Hnr.
      rewrite re_match_stripped in Hnr. unfold _NAMESPACE_PATTERN in Hnr.
      rewrite re_fullmatch_RUpTo in Hnr.
      apply andb_true_iff in Hnr as [_ Hl]. by apply Nat.leb_le in Hl.
  - intros d Hvd. rewrite Hd in Hvd. destruct (has_dataset m); [|done].
    injection Hvd as <-. specialize (Hdr eq_refl).
    rewrite re_match_stripped in Hdr.
    by rewrite <- re_fullmatch_identifier.
Qed.

Lemma validated_names_are_identifiers_witness :
  identifier_like is_alnum index_name_char 63 "docs" = true
  /\ identifier_like field_first_char field_char 63 "chunk_id" = true.
Proof.
  assert (validate_input input_dataset
          = Valid {| api_key := "pc-key"; provider := "pinecone";
                     index_name := "docs"; environment := None;
                     namespace := ""; distance_metric := "Cosine";
                     dataset_id := Some "ds1"; vectors := None;
                     batch_size := 100; id_field := "chunk_id" |}) as Hv
    by (vm_compute; reflexivity).
  destruct (validated_names_are_identifiers _ _ Hv) as (H1 & H2 & _).
  exact (conj H1 H2).
Defined.

(** The batch size that comes out of a successful validation is what
    [int()] makes of the raw value (100 when there is none), it is at
    least 1, and it is at most 1000 for Pinecone and at most 500 for
    Qdrant. *)
Theorem validated_batch_size_in_range
    (m : gmap string pyval) (v : ValidatedInput) :
  validate_input m = Valid v ->
  py_int (dict_get m "batch_size" (PInt 100)) = IntOk (batch_size v)
  /\ 1 <= batch_size v
  /\ batch_size v
     <= (if String.eqb (provider v) "pinecone"
         then MAX_BATCH_SIZE_PINECONE else MAX_BATCH_SIZE_QDRANT)
  /\ batch_size v <= 1000.
Proof.
  intros H. apply validate_input_inv in H. cbv zeta in H.
  destruct H as ((Hp & _) & _ & _ & _ & _ & _ & _ & _ & (Hi & Hb) & _).
  rewrite Hp. apply orb_false_iff in Hb as [Hlo Hhi].
  unfold MAX_BATCH_SIZE_PINECONE, MAX_BATCH_SIZE_QDRANT in *.
  destruct (String.eqb (selected_provider m) "pinecone"); repeat split;
    try done; lia.
Qed.

Lemma validated_batch_size_in_range_witness :
  py_int (dict_get (<["batch_size" := PStr " 2_50 "]> (input_qdrant url_good))
            "batch_size" (PInt 100)) = IntOk 250
  /\ 1 <= 250 <= 500.
Proof.
  assert (validate_input
            (<["batch_size" := PStr " 2_50 "]> (input_qdrant url_good))
          = Valid {| api_key := "qd-key"; provider := "qdrant";
                     index_name := "docs"; environment := Some url_good;
                     namespace := ""; distance_metric := "Cosine";
                     dataset_id := Some "ds1"; vectors := None;
                     batch_size := 250; id_field := "chunk_id" |}) as Hv
    by (vm_compute; reflexivity).
  destruct (validated_batch_size_in_range _ _ Hv) as (H1 & H2 & H3 & _).
  split; [exact H1|]. split; [exact H2|exact H3].
Defined.

(** A successful validation leaves a provider from the whitelist, a
    non-empty API key and a distance metric from its whitelist. For
    Pinecone the cluster URL of the result is unset, whatever the input
    held; for Qdrant the input held a non-empty string there, and the
    result holds it stripped of surrounding white space and of trailing
    slashes. *)
Theorem validated_provider_fields
    (m : gmap string pyval) (v : ValidatedInput) :
  validate_input m = Valid v ->
  api_key v <> ""
  /\ distance_metric v ∈ VALID_DISTANCE_METRICS
  /\ ((provider v = "pinecone" /\ environment v = None)
      \/ (provider v = "qdrant"
          /\ exists url,
               m !! "environment" = Some (PStr url) /\ url <> ""
               /\ environment v = Some (py_rstrip_slash (py_strip url)))).
Proof.
  intros H. apply validate_input_inv in H. cbv zeta in H.
  destruct H as ((Hp & Hpv) & (_ & Hk) & _ & (He & Her) & _ & (_ & Hd)
                 & _).
  split; [by destruct (api_key v)|].
  split; [by apply bool_decide_eq_true in Hd|].
  rewrite Hp, He. apply bool_decide_eq_true in Hpv.
  unfold VALID_PROVIDERS in Hpv.
  apply elem_of_union in Hpv as [Hpv|Hpv]; apply elem_of_singleton in Hpv;
    rewrite Hpv in *.
  - left. done.
  - right. split; [done|]. destruct (Her eq_refl) as (Ht & Hs & _).
    unfold normalized_environment, dict_get in *.
    destruct (m !! "environment") as [[| | | |url| |]|]; try done.
    exists url. split; [done|]. split; [by destruct url|done].
Qed.

Lemma validated_provider_fields_witness :
  exists url,
    input_qdrant (url_good +:+ "/ ") !! "environment" = Some (PStr url)
    /\ Some url_good = Some (py_rstrip_slash (py_strip url)).
Proof.
  assert (validate_input (input_qdrant (url_good +:+ "/ "))
          = Valid {| api_key := "qd-key"; provider := "qdrant";
                     index_name := "docs"; environment := Some url_good;
                     namespace := ""; distance_metric := "Cosine";
                     dataset_id := Some "ds1"; vectors := None;
                     batch_size := 100; id_field := "chunk_id" |}) as Hv
    by (vm_compute; reflexivity).
  destruct (validated_provider_fields _ _ Hv)
    as (_ & _ & [[Hp _]|(_ & url & Hu & _ & He)]); [discriminate Hp|].
  exists url. split; [exact Hu|exact He].
Defined.

(** Inline vectors that pass validation are what the writers expect:
    the input held them as a list, the list is not empty and has at most
    50,000 elements, every element is an object whose [embedding] is a
    non-empty list, and no dataset id is set beside them. *)
Theorem validated_vectors_are_embeddings
    (m : gmap string pyval) (v : ValidatedInput) (vs : list pyval) :
  validate_input m = Valid v ->
  vectors v = Some vs ->
  m !! "vectors" = Some (PList vs)
  /\ vs <> []
  /\ Z.of_nat (length vs) <= MAX_VECTORS_COUNT
  /\ Forall (fun x => vector_ok x = true) vs
  /\ dataset_id v = None.
Proof.
  intros H Hvs. apply validate_input_inv in H. cbv zeta in H.
  destruct H as (_ & _ & _ & _ & _ & _ & (Hsrc & Hd & _) & (Hv & Hvr) & _).
  rewrite Hv in Hvs. rewrite Hd.
  destruct (has_dataset m); [done|]. injection Hvs as <-.
  destruct (Hvr eq_refl) as [Hlen Hchk]. cbn [orb] in Hsrc.
  unfold has_vectors, dict_get in *.
  destruct (m !! "vectors") as [[| | | | |l|]|]; try done.
  cbn [default as_list] in *.
  split; [done|]. split; [by destruct l|]. split; [lia|]. split; [|done].
  apply check_vectors_None in Hchk. rewrite forallb_forall in Hchk.
  apply Forall_forall. intros x Hx. apply Hchk. by apply list_elem_of_In.
Qed.

Lemma validated_vectors_are_embeddings_witness :
  input_vectors !! "vectors" = Some one_vector
  /\ Forall (fun x => vector_ok x = true)
       [PDict {[ "embedding" := PList [PFloat half; PFloat half] ]}].
Proof.
  assert (validate_input input_vectors
          = Valid {| api_key := "pc-key"; provider := "pinecone";
                     index_name := "docs"; environment := None;
                     namespace := ""; distance_metric := "Cosine";
                     dataset_id := None;
                     vectors :=
                       Some [PDict {[ "embedding" :=
                                        PList [PFloat half; PFloat half] ]}];
                     batch_size := 100; id_field := "chunk_id" |}) as Hv
    by (vm_compute; reflexivity).
  destruct (validated_vectors_are_embeddings _ _ _ Hv eq_refl)
    as (H1 & _ & _ & H2 & _).
  split; [exact H1|exact H2].
Defined.

Lemma check_vectors_from (i : nat) (vs : list pyval) :
  match check_vectors i vs with
  | None => forallb vector_ok vs = true
  | Some e =>
      exists k x,
        vector_error_index e = Some (i + k)%nat
        /\ vs !! k = Some x
        /\ vector_ok x = false
        /\ forallb vector_ok (take k vs) = true
  end.
Proof.
  revert i. induction vs as [|x vs IH]; intros i; [done|].
  cbn [check_vectors].
  assert (forall e, vector_error_index e = Some i -> vector_ok x = false ->
            exists k y, vector_error_index e = Some (i + k)%nat
              /\ (x :: vs) !! k = Some y /\ vector_ok y = false
              /\ forallb vector_ok (take k (x :: vs)) = true) as Hhere.
  { intros e He Hx. exists 0%nat, x. rewrite Nat.add_0_r. done. }
  destruct x as [| | | | | |d]; try (by apply Hhere).
  destruct (d !! "embedding") as [emb|] eqn:E;
    [|apply Hhere; [done|]; cbn; by rewrite E].
  destruct (negb (is_list emb) || negb (truthy emb)) eqn:Hb.
  - apply Hhere; [done|]. cbn. rewrite E.
    by destruct (is_list emb), (truthy emb).
  - assert (vector_ok (PDict d) = true) as Hok.
    { cbn. rewrite E. by destruct (is_list emb), (truthy emb). }
    specialize (IH (S i)). destruct (check_vectors (S i) vs) as [e|].
    + destruct IH as (k & y & He & Hy & Hbad & Hgood).
      exists (S k), y. split; [by rewrite Nat.add_succ_r|].
      split; [done|]. split; [done|].
      cbn [take forallb]. by rewrite Hok, Hgood.
    + cbn [forallb]. by rewrite Hok, IH.
Qed.

(** The loop over [vectors] stops at the first element that is not an
    object with a non-empty list [embedding], and the error names the
    position of that element, counted from 0; it finds nothing to report
    exactly when every element is such an object. *)
Theorem check_vectors_first_failure (vs : list pyval) :
  match check_vectors 0 vs with
  | None => forallb vector_ok vs = true
  | Some e =>
      exists k x,
        vector_error_index e = Some k
        /\ vs !! k = Some x
        /\ vector_ok x = false
        /\ forallb vector_ok (take k vs) = true
  end.
Proof. apply (check_vectors_from 0 vs). Qed.

Lemma as_str_not_a_string (m : gmap string pyval) (key dflt : string) :
  not_a_string m key = true ->
  as_str (dict_get m key (PStr dflt)) dflt = dflt.
Proof.
  unfold not_a_string, dict_get.
  by destruct (m !! key) as [[| | | | | |]|].
Qed.

(** The optional fields fall back to their defaults, and so does a field
    whose value is not a string: a successful validation of an input
    whose [provider] is absent, or is a number, say, has chosen Pinecone;
    likewise the namespace is empty, the metric is Cosine and the id
    field is [chunk_id]; an absent [batch_size] is 100. *)
Theorem validate_input_defaults
    (m : gmap string pyval) (v : ValidatedInput) :
  validate_input m = Valid v ->
  (not_a_string m "provider" = true -> provider v = "pinecone")
  /\ (not_a_string m "namespace" = true -> namespace v = "")
  /\ (not_a_string m "distance_metric" = true -> distance_metric v = "Cosine")
  /\ (not_a_string m "id_field" = true -> id_field v = "chunk_id")
  /\ (m !! "batch_size" = None -> batch_size v = 100).
Proof.
  intros H. apply validate_input_inv in H. cbv zeta in H.
  destruct H as ((Hp & _) & _ & _ & _ & (Hn & _) & (Hd & _) & _ & _
                 & (Hb & _) & (Hf & _)).
  repeat split; intros Hm.
  - rewrite Hp. unfold selected_provider.
    by rewrite (as_str_not_a_string _ _ _ Hm).
  - rewrite Hn. unfold stripped_field.
    by rewrite (as_str_not_a_string _ _ _ Hm).
  - rewrite Hd. by rewrite (as_str_not_a_string _ _ _ Hm).
  - rewrite Hf. unfold stripped_field.
    by rewrite (as_str_not_a_string _ _ _ Hm).
  - unfold dict_get in Hb. rewrite Hm in Hb. cbn in Hb. congruence.
Qed.

Lemma validate_input_defaults_witness :
  provider
    {| api_key := "pc-key"; provider := "pinecone"; index_name := "docs";
       environment := None; namespace := ""; distance_metric := "Cosine";
       dataset_id := Some "ds1"; vectors := None; batch_size := 100;
       id_field := "chunk_id" |} = "pinecone"
  /\ batch_size
    {| api_key := "pc-key"; provider := "pinecone"; index_name := "docs";
       environment := None; namespace := ""; distance_metric := "Cosine";
       dataset_id := Some "ds1"; vectors := None; batch_size := 100;
       id_field := "chunk_id" |} = 100.
Proof.
  assert (validate_input (<["provider" := PInt 7]> input_dataset)
          = Valid {| api_key := "pc-key"; provider := "pinecone";
                     index_name := "docs"; environment := None;
                     namespace := ""; distance_metric := "Cosine";
                     dataset_id := Some "ds1"; vectors := None;
                     batch_size := 100; id_field := "chunk_id" |}) as Hv
    by (vm_compute; reflexivity).
  destruct (validate_input_defaults _ _ Hv) as (H1 & _ & _ & _ & H5).
  split; [apply H1|apply H5]; vm_compute; reflexivity.
Defined.

(** An input without a usable API key (the key is absent, is not a
    string, or is blank) is rejected, with the API-key error unless the
    provider was already refused; the same holds for the index name, one
    check later. *)
Theorem validate_input_requires_key_and_name (m : gmap string pyval) :
  (stripped_field m "api_key" "" = "" ->
   validate_input m = Invalid (InvalidProvider (selected_provider m))
   \/ validate_input m = Invalid ApiKeyRequired)
  /\ (stripped_field m "index_name" "" = "" ->
      validate_input m = Invalid (InvalidProvider (selected_provider m))
      \/ validate_input m = Invalid ApiKeyRequired
      \/ validate_input m = Invalid IndexNameRequired).
Proof.
  unfold validate_input, stripped_field, selected_provider. cbv zeta.
  split; intros H.
  - destruct (negb (bool_decide _)); [by left|]. rewrite H. by right.
  - destruct (negb (bool_decide _)); [by left|].
    destruct (str_is_empty (py_strip
                (as_str (dict_get m "api_key" (PStr "")) "")));
      [by right; left|].
    rewrite H. by right; right.
Qed.

Lemma validate_input_requires_key_and_name_witness :
  validate_input (<["api_key" := PInt 5]> input_dataset)
  = Invalid ApiKeyRequired
  /\ validate_input (<["index_name" := PStr "  "]> input_dataset)
     = Invalid IndexNameRequired.
Proof.
  split.
  - destruct (proj1 (validate_input_requires_key_and_name
                       (<["api_key" := PInt 5]> input_dataset)))
      as [H|H]; [vm_compute; reflexivity| |exact H].
    vm_compute in H. discriminate H.
  - destruct (proj2 (validate_input_requires_key_and_name
                       (<["index_name" := PStr "  "]> input_dataset)))
      as [H|[H|H]]; [vm_compute; reflexivity| | |exact H];
      vm_compute in H; discriminate H.
Defined.

(** A batch size that [int()] cannot convert. Put into an input that
    validation accepts, an infinite float makes [validate_input] raise
    [OverflowError], which its [except (TypeError, ValueError)] does not
    catch, instead of returning an error message; a NaN and a [null] are
    reported as not being integers. *)
Theorem validate_input_batch_size_not_finite
    (m : gmap string pyval) (v : ValidatedInput) (sign : bool) :
  validate_input m = Valid v ->
  validate_input (<["batch_size" := PFloat (S754_infinity sign)]> m)
  = Uncaught "OverflowError"
  /\ validate_input (<["batch_size" := PFloat S754_nan]> m)
     = Invalid (BatchSizeNotInteger (PFloat S754_nan))
  /\ validate_input (<["batch_size" := PNone]> m)
     = Invalid (BatchSizeNotInteger PNone).
Proof.
  intros Hv. revert Hv. unfold validate_input. cbv zeta.
  rewrite !dict_get_insert_eq, !dict_get_insert_ne by done.
  remember re_match as rm eqn:Erm.
  intros Hv. run_checks; repeat split; reflexivity.
Qed.

Lemma validate_input_batch_size_not_finite_witness :
  validate_input (<["batch_size" := PFloat (S754_infinity false)]>
                    input_dataset)
  = Uncaught "OverflowError".
Proof.
  assert (validate_input input_dataset
          = Valid {| api_key := "pc-key"; provider := "pinecone";
                     index_name := "docs"; environment := None;
                     namespace := ""; distance_metric := "Cosine";
                     dataset_id := Some "ds1"; vectors := None;
                     batch_size := 100; id_field := "chunk_id" |}) as Hv
    by (vm_compute; reflexivity).
  exact (proj1 (validate_input_batch_size_not_finite _ _ false Hv)).
Defined.

(* ===================================================================== *)
(** * More about the two sanitizers *)
(* ===================================================================== *)

Lemma str_filter_existsb (p : ascii -> bool) (s : string) :
  str_existsb p (str_filter (fun c => negb (p c)) s) = false.
Proof.
  induction s as [|c s IH]; [done|]. cbn.
  destruct (p c) eqn:E; cbn; [done|]. by rewrite E.
Qed.

Lemma str_filter_length (p : ascii -> bool) (s : string) :
  (String.length (str_filter p s) <= String.length s)%nat.
Proof. induction s as [|c s IH]; cbn; [lia|]. destruct (p c); cbn; lia. Qed.

Lemma str_filter_id (p : ascii -> bool) (s : string) :
  str_filter (fun c => negb (p c)) s = s <-> str_existsb p s = false.
Proof.
  induction s as [|c s IH]; [done|]. cbn. destruct (p c) eqn:E; cbn.
  - split; [|done]. intros H.
    pose proof (str_filter_length (fun c => negb (p c)) s) as Hl.
    rewrite H in Hl. cbn in Hl. lia.
  - rewrite <- IH. split; [by intros [= ->]|by intros ->].
Qed.

(** [sanitize_text] returns its argument without the characters
    0x00-0x08, 0x0b, 0x0c, 0x0e-0x1f and 0x7f: none of them is left, a
    second pass changes nothing, a text without them comes back as it is
    and only such a text does, and the result is never longer. *)
Theorem sanitize_text_removes_control_chars (text : string) :
  str_existsb _CONTROL_CHARS (sanitize_text text) = false
  /\ sanitize_text (sanitize_text text) = sanitize_text text
  /\ (sanitize_text text = text <-> str_existsb _CONTROL_CHARS text = false)
  /\ (String.length (sanitize_text text) <= String.length text)%nat.
Proof.
  unfold sanitize_text. split; [apply str_filter_existsb|].
  split; [apply str_filter_id, str_filter_existsb|].
  split; [apply str_filter_id|apply str_filter_length].
Qed.

(** A message that does not show the first eight characters of the key
    (the whole key when it is shorter) passes through [_sanitize_error]
    unchanged; so does every message when the key is empty. *)
Theorem sanitize_error_keeps_clean_messages (message api_key : string) :
  api_key = "" \/ str_contains (str_take 8 api_key) message = false ->
  _sanitize_error message api_key = message.
Proof.
  intros [->|H]; [done|]. unfold _sanitize_error.
  destruct (str_contains api_key message) eqn:E.
  - apply (contains_take 8) in E. congruence.
  - rewrite andb_false_r. cbv zeta. by rewrite H, andb_false_r.
Qed.

Lemma sanitize_error_keeps_clean_messages_witness :
  _sanitize_error "connection reset by peer" sample_key
  = "connection reset by peer".
Proof.
  apply sanitize_error_keeps_clean_messages. right. vm_compute; reflexivity.
Defined.

(* ===================================================================== *)
(** * More about the resilient HTTP client *)
(* ===================================================================== *)

Lemma sleeps_of_app (tr tr' : list event) :
  sleeps_of (tr ++ tr') = sleeps_of tr ++ sleeps_of tr'.
Proof. apply omap_app. Qed.

Lemma events_since_advance (w : world) (n : nat) (evs : list event) :
  events_since w (advance w n evs) = evs.
Proof. unfold events_since, advance. cbn. by rewrite drop_app_length. Qed.

Lemma events_since_app (w w' : world) (evs : list event) :
  trace w' = trace w ++ evs -> events_since w w' = evs.
Proof. intros H. unfold events_since. by rewrite H, drop_app_length. Qed.

Section RetryTrace.
Variable server : nat -> http_outcome.
Variables (who : string) (accept_statuses : list Z).
Variables (method url : string) (headers : gmap string string).
Variables (payload : option pyval) (api_key : string).

(** One pass adds one request, and nothing else that is a request. *)
Lemma one_attempt_trace (attempt : nat) (w : world) :
  let w' := snd (one_attempt server who accept_statuses method url headers
                   payload api_key attempt w) in
  exists evs,
    trace w' = trace w ++ evs
    /\ requests_of evs = [(method, url, payload)].
Proof.
  cbv zeta.
  unfold one_attempt, bind, session_request, ret, raise, log, sleep, emit.
  cbn [fst snd].
  destruct (server (requests w)) as [status body json|text|e].
  - destruct (bool_decide (status ∈ accept_statuses));
      [|destruct (bool_decide (status ∈ [400; 401; 403]));
        [destruct (status =? 401)
        |destruct (bool_decide (status ∈ [429; 500; 502; 503; 504]))]];
      cbn; rewrite <- ?app_assoc; eexists; (split; [reflexivity|reflexivity]).
  - cbn; rewrite <- ?app_assoc; eexists; (split; [reflexivity|reflexivity]).
  - cbn. eexists; (split; [reflexivity|reflexivity]).
Qed.

Lemma retry_loop_trace (attempts : list nat) (last : option string)
    (w : world) :
  let w' := snd (retry_loop server who accept_statuses method url headers
                   payload api_key attempts last w) in
  exists evs,
    trace w' = trace w ++ evs
    /\ requests_of evs
       = replicate (requests w' - requests w) (method, url, payload).
Proof.
  revert last w. induction attempts as [|a rest IH]; intros last w; cbn.
  - exists []. rewrite app_nil_r, Nat.sub_diag. done.
  - unfold bind.
    pose proof (one_attempt_trace a w) as (evs & Htr & Hreq).
    pose proof (one_attempt_counts server who accept_statuses method url
                  headers payload api_key a w) as [Hr _].
    cbv zeta in Htr.
    destruct (one_attempt server who accept_statuses method url headers
                payload api_key a w) as [[[data|e]|e] w1]; cbn in *.
    + exists evs. rewrite Hr. replace (S (requests w) - requests w)%nat
        with 1%nat by lia. done.
    + destruct (IH (Some e) w1) as (evs' & Htr' & Hreq').
      pose proof (retry_loop_counts server who accept_statuses method url
                    headers payload api_key rest (Some e) w1) as Hc.
      cbv zeta in Hc. destruct Hc as ([Hlo _] & _).
      exists (evs ++ evs'). rewrite Htr', Htr, <- app_assoc.
      split; [done|]. rewrite requests_of_app, Hreq, Hreq'.
      rewrite Hr in *.
      replace (requests _ - requests w)%nat
        with (S (requests
                   (snd (retry_loop server who accept_statuses method url
                           headers payload api_key rest (Some e) w1))
                 - S (requests w)))%nat by lia.
      done.
    + exists evs. rewrite Hr. replace (S (requests w) - requests w)%nat
        with 1%nat by lia. done.
Qed.
End RetryTrace.

(** The state that one call leaves, whatever the server answers. *)
Lemma request_with_retry_run
    (server : nat -> http_outcome) (who : string) (accept_statuses : list Z)
    (method url : string) (headers : gmap string string)
    (payload : option pyval) (api_key : string) (w : world) :
  let w' := snd (_request_with_retry server who accept_statuses method url
                   headers payload api_key w) in
  (requests w + 1 <= requests w' <= requests w + 3)%nat
  /\ uuids w' = uuids w
  /\ exists evs,
       trace w' = trace w ++ evs
       /\ requests_of evs
          = replicate (requests w' - requests w) (method, url, payload).
Proof.
  cbv zeta. split; [apply request_with_retry_bounded|].
  split; [|apply retry_loop_trace].
  unfold _request_with_retry.
  pose proof (retry_loop_counts server who accept_statuses method url
                headers payload api_key (seq 0 _MAX_RETRIES) None w) as H.
  cbv zeta in H. by destruct H as (_ & _ & H).
Qed.

(** A status that is neither accepted nor retried: one attempt, then the
    error. *)
Lemma request_with_retry_fatal_status
    (server : nat -> http_outcome) (who : string) (accept_statuses : list Z)
    (method url : string) (headers : gmap string string)
    (payload : option pyval) (api_key : string) (w : world)
    (status : Z) (body : string) (json : pyval) :
  server (requests w) = Response status body json ->
  status ∉ accept_statuses ->
  status ∉ [429; 500; 502; 503; 504] ->
  _request_with_retry server who accept_statuses method url headers
    payload api_key w
  = (Raise (ValueError (status_error_message who api_key status body)),
     advance w 1 [EvRequest method url headers payload]).
Proof.
  intros Hs Ha Hr. unfold status_error_message.
  destruct (status =? 401) eqn:E401.
  - apply Z.eqb_eq in E401 as ->.
    by apply (request_with_retry_401 _ _ _ _ _ _ _ _ _ body json).
  - destruct (bool_decide (status ∈ [400; 403])) eqn:E4.
    + apply bool_decide_eq_true in E4. apply list_elem_of_In in E4.
      apply (request_with_retry_client_error _ _ _ _ _ _ _ _ _ status
               body json); [done| |done].
      cbn in E4. lia.
    + apply bool_decide_eq_false in E4.
      apply (request_with_retry_unexpected _ _ _ _ _ _ _ _ _ status
               body json); [done|done| |done].
      intros Hin. apply E4. apply list_elem_of_In in Hin.
      apply list_elem_of_In. cbn in *. lia.
Qed.

(** Whatever the server answers, one call of [_request_with_retry] makes
    at least one and at most three HTTP attempts, every one of them the
    request it was asked to make (same method, URL and body); it draws no
    UUID and only adds to the trace. *)
Theorem request_with_retry_attempts
    (server : nat -> http_outcome) (who : string) (accept_statuses : list Z)
    (method url : string) (headers : gmap string string)
    (payload : option pyval) (api_key : string) (w : world) :
  let w' := snd (_request_with_retry server who accept_statuses method url
                   headers payload api_key w) in
  (requests w + 1 <= requests w' <= requests w + 3)%nat
  /\ uuids w' = uuids w
  /\ exists evs,
       trace w' = trace w ++ evs
       /\ requests_of evs
          = replicate (requests w' - requests w) (method, url, payload).
Proof.
  cbv zeta. split; [apply request_with_retry_bounded|].
  split.
  - unfold _request_with_retry.
    pose proof (retry_loop_counts server who accept_statuses method url
                  headers payload api_key (seq 0 _MAX_RETRIES) None w) as H.
    cbv zeta in H. by destruct H as (_ & _ & H).
  - apply retry_loop_trace.
Qed.

Lemma retry_warning_is_warning (who api_key : string) (attempt : nat)
    (o : http_outcome) :
  exists args,
    retry_warning who api_key attempt o
    = EvLog WARNING
        (match o with
         | Response _ _ _ => "Attempt %d/%d failed (%d), retrying in %.1fs..."
         | _ => "Attempt %d/%d network error, retrying in %.1fs: %s"
         end) args.
Proof. destruct o; eexists; reflexivity. Qed.

(** Three outcomes in a row that are retried (a status 429, 500, 502, 503
    or 504, or a network error): the call makes exactly three attempts,
    logs a warning and sleeps 1, 2 and 4 seconds after them (also after
    the last one), and raises the terminal error with the error of the
    third attempt in it. *)
Theorem request_with_retry_gives_up
    (server : nat -> http_outcome) (who : string) (accept_statuses : list Z)
    (method url : string) (headers : gmap string string)
    (payload : option pyval) (api_key : string) (w : world) :
  (forall k, (k < 3)%nat ->
             retryable accept_statuses (server (requests w + k)%nat) = true) ->
  let r := _request_with_retry server who accept_statuses method url
             headers payload api_key w in
  fst r
  = Raise (ValueError
             (who +:+ ": failed after 3 attempts. Last error: "
              +:+ last_error_of who api_key (server (requests w + 2)%nat)))
  /\ requests (snd r) = (requests w + 3)%nat
  /\ sleeps_of (events_since w (snd r)) = [1; 2; 4]
  /\ length (warnings_of (events_since w (snd r))) = 3%nat.
Proof.
  intros H. cbv zeta.
  pose proof (H 0%nat ltac:(lia)) as H0. rewrite Nat.add_0_r in H0.
  rewrite (request_with_retry_exhausted server who accept_statuses method
             url headers payload api_key w H0
             (H 1%nat ltac:(lia)) (H 2%nat ltac:(lia))).
  cbn [fst snd]. rewrite events_since_advance.
  split; [done|]. split; [done|].
  destruct (retry_warning_is_warning who api_key 0 (server (requests w)))
    as [a0 ->].
  destruct (retry_warning_is_warning who api_key 1
              (server (requests w + 1)%nat)) as [a1 ->].
  destruct (retry_warning_is_warning who api_key 2
              (server (requests w + 2)%nat)) as [a2 ->].
  done.
Qed.

Lemma request_with_retry_gives_up_witness :
  fst (pinecone_request_with_retry server_503 "POST"
         "https://h/vectors/upsert" ∅ None sample_key world0)
  = Raise (ValueError
             ("Pinecone" +:+ ": failed after 3 attempts. Last error: "
              +:+ last_error_of "Pinecone" sample_key
                    (server_503 (requests world0 + 2)%nat))).
Proof.
  apply (request_with_retry_gives_up server_503 "Pinecone" [200] "POST"
           "https://h/vectors/upsert" ∅ None sample_key world0).
  intros k _. vm_compute. reflexivity.
Defined.

(** An outcome that is neither accepted nor retried ends the call at
    once: one attempt, no warning, no sleep. A status outside the
    accepted and the retried ones raises a [ValueError], for 401 the
    invalid-key message, for 400 and 403 and for every other status a
    message that quotes the body after redaction; an exception that is
    not an [aiohttp.ClientError], a time-out for one, leaves the call as
    it is. *)
Theorem request_with_retry_fatal
    (server : nat -> http_outcome) (who : string) (accept_statuses : list Z)
    (method url : string) (headers : gmap string string)
    (payload : option pyval) (api_key : string) (w : world) :
  (forall status body json,
      server (requests w) = Response status body json ->
      status ∉ accept_statuses ->
      status ∉ [429; 500; 502; 503; 504] ->
      _request_with_retry server who accept_statuses method url headers
        payload api_key w
      = (Raise (ValueError (status_error_message who api_key status body)),
         advance w 1 [EvRequest method url headers payload]))
  /\ (forall e,
      server (requests w) = Raises e ->
      _request_with_retry server who accept_statuses method url headers
        payload api_key w
      = (Raise e, advance w 1 [EvRequest method url headers payload])).
Proof.
  split.
  - intros status body json Hs Ha Hr. unfold status_error_message.
    destruct (status =? 401) eqn:E401.
    + apply Z.eqb_eq in E401 as ->.
      by apply (request_with_retry_401 _ _ _ _ _ _ _ _ _ body json).
    + destruct (bool_decide (status ∈ [400; 403])) eqn:E4.
      * apply bool_decide_eq_true in E4. apply list_elem_of_In in E4.
        apply (request_with_retry_client_error _ _ _ _ _ _ _ _ _ status
                 body json); [done| |done].
        cbn in E4. lia.
      * apply bool_decide_eq_false in E4.
        apply (request_with_retry_unexpected _ _ _ _ _ _ _ _ _ status
                 body json); [done|done| |done].
        intros Hin. apply E4. apply list_elem_of_In in Hin.
        apply list_elem_of_In. cbn in *. lia.
  - intros e Hs. unfold _request_with_retry.
    cbn [seq _MAX_RETRIES retry_loop]. unfold bind at 1.
    unfold one_attempt, bind, session_request. cbn [fst snd]. rewrite Hs.
    unfold raise, advance. cbn. do 2 f_equal. lia.
Qed.

Lemma request_with_retry_fatal_witness :
  pinecone_request_with_retry server_401 "GET" "https://h" ∅ None sample_key
    world0
  = (Raise (ValueError (status_error_message "Pinecone" sample_key 401
                          "unauthorized")),
     advance world0 1 [EvRequest "GET" "https://h" ∅ None])
  /\ qdrant_request_with_retry
       (fun _ => Raises (OtherException "TimeoutError"))
       "GET" "https://h" ∅ None sample_key [200] world0
     = (Raise (OtherException "TimeoutError"),
        advance world0 1 [EvRequest "GET" "https://h" ∅ None]).
Proof.
  split.
  - apply (proj1 (request_with_retry_fatal server_401 "Pinecone" [200] "GET"
                    "https://h" ∅ None sample_key world0)
             401 "unauthorized" PNone).
    + reflexivity.
    + intros H. apply list_elem_of_In in H. cbn in H. lia.
    + intros H. apply list_elem_of_In in H. cbn in H. lia.
  - apply (proj2 (request_with_retry_fatal
                    (fun _ => Raises (OtherException "TimeoutError"))
                    "Qdrant" [200] "GET" "https://h" ∅ None sample_key
                    world0)).
    reflexivity.
Defined.

(** After [k] retried outcomes, [k] being 0, 1 or 2, an accepted answer
    is returned as it is: the call has made [k + 1] attempts, has logged
    [k] warnings and has slept 1 and then 2 seconds between them. *)
Theorem request_with_retry_recovers_after
    (server : nat -> http_outcome) (who : string) (accept_statuses : list Z)
    (method url : string) (headers : gmap string string)
    (payload : option pyval) (api_key : string) (w : world)
    (k : nat) (status : Z) (body : string) (json : pyval) :
  (k < 3)%nat ->
  (forall j, (j < k)%nat ->
             retryable accept_statuses (server (requests w + j)%nat) = true) ->
  server (requests w + k)%nat = Response status body json ->
  status ∈ accept_statuses ->
  let r := _request_with_retry server who accept_statuses method url
             headers payload api_key w in
  fst r = Ok json
  /\ requests (snd r) = (requests w + k + 1)%nat
  /\ sleeps_of (events_since w (snd r)) = map backoff (seq 0 k)
  /\ length (warnings_of (events_since w (snd r))) = k.
Proof.
  intros Hk Hretry Hs Ha. cbv zeta.
  destruct k as [|[|[|k]]]; [| | |lia].
  - rewrite Nat.add_0_r in Hs.
    rewrite (request_with_retry_first_try server who accept_statuses method
               url headers payload api_key w status body json Hs Ha).
    cbn [fst snd]. rewrite events_since_advance.
    repeat split; try done. cbn. lia.
  - pose proof (Hretry 0%nat ltac:(lia)) as H0. rewrite Nat.add_0_r in H0.
    rewrite (request_with_retry_recovers server who accept_statuses method
               url headers payload api_key w status body json H0 Hs Ha).
    cbn [fst snd]. rewrite events_since_advance.
    destruct (retry_warning_is_warning who api_key 0 (server (requests w)))
      as [a0 ->].
    repeat split; try done. cbn. lia.
  - pose proof (Hretry 0%nat ltac:(lia)) as H0. rewrite Nat.add_0_r in H0.
    pose proof (Hretry 1%nat ltac:(lia)) as H1.
    assert (_request_with_retry server who accept_statuses method url
              headers payload api_key w
            = (Ok json,
               advance w 3
                 [EvRequest method url headers payload;
                  retry_warning who api_key 0 (server (requests w));
                  EvSleep 1;
                  EvRequest method url headers payload;
                  retry_warning who api_key 1 (server (requests w + 1)%nat);
                  EvSleep 2;
                  EvRequest method url headers payload])) as ->.
    { unfold _request_with_retry.
      cbn [seq _MAX_RETRIES retry_loop]. unfold bind at 1.
      rewrite (one_attempt_retry server who accept_statuses method url
                 headers payload api_key 0 w H0).
      unfold bind at 1.
      rewrite (one_attempt_retry server who accept_statuses method url
                 headers payload api_key 1); cbn [advance requests];
        [|done].
      unfold bind at 1.
      rewrite (one_attempt_accepted server who accept_statuses method url
                 headers payload api_key 2 _ status body json);
        cbn [advance requests]; rewrite <- ?Nat.add_assoc; [|done|done].
      unfold ret, advance. cbn. do 2 f_equal; [lia|].
      by rewrite <- !app_assoc. }
    cbn [fst snd]. rewrite events_since_advance.
    destruct (retry_warning_is_warning who api_key 0 (server (requests w)))
      as [a0 ->].
    destruct (retry_warning_is_warning who api_key 1
                (server (requests w + 1)%nat)) as [a1 ->].
    repeat split; try done. cbn. lia.
Qed.

Lemma request_with_retry_recovers_after_witness :
  fst (pinecone_request_with_retry server_busy_once "POST" "https://h" ∅ None
         sample_key world0)
  = Ok (PDict {[ "upsertedCount" := PInt 100 ]})
  /\ sleeps_of
       (events_since world0
          (snd (pinecone_request_with_retry server_busy_once "POST"
                  "https://h" ∅ None sample_key world0)))
     = map backoff (seq 0 1).
Proof.
  destruct (request_with_retry_recovers_after server_busy_once "Pinecone"
              [200] "POST" "https://h" ∅ None sample_key world0 1 200 ""
              (PDict {[ "upsertedCount" := PInt 100 ]}))
    as (H1 & _ & H3 & _).
  - lia.
  - intros [|j] Hj; [vm_compute; reflexivity|lia].
  - reflexivity.
  - apply list_elem_of_here.
  - split; [exact H1|exact H3].
Defined.

(* ===================================================================== *)
(** * The record builders *)
(* ===================================================================== *)

(** The identifier of a record: the item's own, or the next UUID. *)
Lemma record_id_run (uuid4 : nat -> string) (item : gmap string pyval)
    (id_field : string) (w : world) :
  record_id uuid4 item id_field w
  = if has_usable_id item id_field
    then (Ok (as_str (dict_get item id_field (PStr "")) ""), w)
    else (Ok (uuid4 (uuids w)),
          {| requests := requests w; uuids := S (uuids w);
             trace := trace w |}).
Proof.
  unfold record_id, has_usable_id, fresh_uuid, ret.
  by destruct (truthy _), (is_str _).
Qed.

Section BuildAll.
Variable uuid4 : nat -> string.
Variable id_field : string.
Variable build : gmap string pyval -> nat -> string -> M pyval.
Variable mk : gmap string pyval -> string -> pyval.
Hypothesis build_run :
  forall item i w,
    build item i id_field w
    = (vec_id <- record_id uuid4 item id_field ;; ret (mk item vec_id)) w.

Lemma build_all_run (items : list (gmap string pyval)) :
  forall (i0 : nat) (w : world),
    exists recs w',
      build_all build i0 items id_field w = (Ok recs, w')
      /\ length recs = length items
      /\ requests w' = requests w
      /\ trace w' = trace w
      /\ uuids w' = (uuids w + ids_to_draw items id_field)%nat
      /\ forall i item,
           items !! i = Some item ->
           exists vec_id,
             recs !! i = Some (mk item vec_id)
             /\ (has_usable_id item id_field = true ->
                 dict_get item id_field (PStr "") = PStr vec_id)
             /\ (has_usable_id item id_field = false ->
                 vec_id
                 = uuid4 (uuids w + ids_to_draw (take i items) id_field)%nat).
Proof.
  induction items as [|item items IH]; intros i0 w.
  - exists [], w. cbn. unfold ret, ids_to_draw. cbn.
    rewrite Nat.add_0_r. repeat split; try done.
  - cbn [build_all]. unfold bind at 1. rewrite build_run.
    unfold bind at 1. rewrite record_id_run.
    unfold ids_to_draw in *. cbn [List.filter].
    destruct (has_usable_id item id_field) eqn:Hid; cbn [negb].
    + unfold ret at 1. destruct (IH (S i0) w) as (recs & w' & Hrun & Hlen
        & Hreq & Htr & Hu & Hrec).
      exists (mk item (as_str (dict_get item id_field (PStr "")) "") :: recs),
        w'.
      unfold bind. rewrite Hrun. unfold ret.
      split; [done|]. split; [cbn; by rewrite Hlen|].
      split; [done|]. split; [done|]. split; [done|].
      intros [|i] it Hit; cbn in Hit.
      * injection Hit as <-. eexists. split; [reflexivity|].
        split; [|congruence]. intros _.
        unfold has_usable_id in Hid. cbv zeta in Hid.
        destruct (dict_get item id_field (PStr "")); try done;
          by rewrite andb_false_r in Hid.
      * destruct (Hrec i it Hit) as (vid & H1 & H2 & H3).
        exists vid. split; [done|]. split; [done|].
        cbn [take List.filter]. rewrite Hid. cbn [negb]. done.
    + unfold ret at 1.
      destruct (IH (S i0) {| requests := requests w; uuids := S (uuids w);
                             trace := trace w |})
        as (recs & w' & Hrun & Hlen & Hreq & Htr & Hu & Hrec).
      exists (mk item (uuid4 (uuids w)) :: recs), w'.
      unfold bind. rewrite Hrun. unfold ret. cbn [uuids requests trace] in *.
      split; [done|]. split; [cbn; by rewrite Hlen|].
      split; [done|]. split; [done|]. split; [cbn [length]; lia|].
      intros [|i] it Hit; cbn in Hit.
      * injection Hit as <-. eexists. split; [reflexivity|].
        split; [congruence|]. intros _. cbn. by rewrite Nat.add_0_r.
      * destruct (Hrec i it Hit) as (vid & H1 & H2 & H3).
        exists vid. split; [done|]. split; [done|].
        cbn [take List.filter]. rewrite Hid. cbn [negb length].
        intros Hn. rewrite (H3 Hn). f_equal. lia.
Qed.
(** The records depend on the state only through the UUIDs drawn so
    far. *)
Lemma build_all_fst (items : list (gmap string pyval)) :
  forall (i0 : nat) (w w1 : world),
    uuids w1 = uuids w ->
    fst (build_all build i0 items id_field w1)
    = fst (build_all build i0 items id_field w).
Proof.
  induction items as [|item items IH]; intros i0 w w1 Hu; [done|].
  cbn [build_all]. unfold bind at 1 3. rewrite !build_run.
  unfold bind at 1 3. rewrite !record_id_run.
  destruct (has_usable_id item id_field); unfold ret at 1 3.
  - unfold bind. specialize (IH (S i0) w w1 Hu).
    destruct (build_all build (S i0) items id_field w1) as [[r1|e1] w1'],
      (build_all build (S i0) items id_field w) as [[r|e] w'];
      cbn in *; congruence.
  - unfold bind. rewrite Hu.
    specialize (IH (S i0)
                  {| requests := requests w; uuids := S (uuids w);
                     trace := trace w |}
                  {| requests := requests w1; uuids := S (uuids w);
                     trace := trace w1 |} eq_refl).
    destruct (build_all build (S i0) items id_field
                {| requests := requests w1; uuids := S (uuids w);
                   trace := trace w1 |}) as [[r1|e1] w1'],
      (build_all build (S i0) items id_field
         {| requests := requests w; uuids := S (uuids w);
            trace := trace w |}) as [[r|e] w'];
      cbn in *; congruence.
Qed.
End BuildAll.

(** Building the records never fails, whatever the items hold, and does
    not touch the network or the log: both builders return one record
    per item, in the order of the items, and draw one UUID for each item
    that has no non-empty string at the id field. The record of an item
    carries its embedding (an empty list when it has none), the metadata
    or payload that the builder selects, and as its id the item's own id
    when it has one, else the next UUID drawn. *)
Theorem builders_make_one_record_per_item
    (uuid4 : nat -> string) (items : list (gmap string pyval))
    (id_field : string) (w : world) :
  (exists vectors w',
      build_all (_build_pinecone_vector uuid4) 0 items id_field w
      = (Ok vectors, w')
      /\ length vectors = length items
      /\ requests w' = requests w
      /\ trace w' = trace w
      /\ uuids w' = (uuids w + ids_to_draw items id_field)%nat
      /\ forall i item,
           items !! i = Some item ->
           exists vec_id,
             vectors !! i
             = Some (PDict {[ "id" := PStr vec_id;
                              "values" := dict_get item "embedding" (PList []);
                              "metadata" :=
                                PDict (pinecone_metadata item id_field) ]})
             /\ (has_usable_id item id_field = true ->
                 dict_get item id_field (PStr "") = PStr vec_id)
             /\ (has_usable_id item id_field = false ->
                 vec_id
                 = uuid4 (uuids w + ids_to_draw (take i items) id_field)%nat))
  /\ (exists points w',
      build_all (_build_qdrant_point uuid4) 0 items id_field w
      = (Ok points, w')
      /\ length points = length items
      /\ requests w' = requests w
      /\ trace w' = trace w
      /\ uuids w' = (uuids w + ids_to_draw items id_field)%nat
      /\ forall i item,
           items !! i = Some item ->
           exists point_id,
             points !! i
             = Some (PDict {[ "id" := PStr point_id;
                              "vector" := dict_get item "embedding" (PList []);
                              "payload" :=
                                PDict (qdrant_payload item id_field) ]})
             /\ (has_usable_id item id_field = true ->
                 dict_get item id_field (PStr "") = PStr point_id)
             /\ (has_usable_id item id_field = false ->
                 point_id
                 = uuid4 (uuids w + ids_to_draw (take i items) id_field)%nat)).
Proof.
  split.
  - apply (build_all_run uuid4 id_field (_build_pinecone_vector uuid4)
             (fun item vec_id =>
                PDict {[ "id" := PStr vec_id;
                         "values" := dict_get item "embedding" (PList []);
                         "metadata" :=
                           PDict (pinecone_metadata item id_field) ]})).
    reflexivity.
  - apply (build_all_run uuid4 id_field (_build_qdrant_point uuid4)
             (fun item point_id =>
                PDict {[ "id" := PStr point_id;
                         "vector" := dict_get item "embedding" (PList []);
                         "payload" :=
                           PDict (qdrant_payload item id_field) ]})).
    reflexivity.
Qed.

(* ===================================================================== *)
(** * The Pinecone writer, end to end *)
(* ===================================================================== *)

Lemma resolve_index_host_run
    (server : nat -> http_outcome) (api_key index_name : string) (w : world)
    (body : string) (d : gmap string pyval) :
  server (requests w) = Response 200 body (PDict d) ->
  let host := dict_get d "host" PNone in
  let get :=
    EvRequest "GET" (_CONTROL_PLANE_URL +:+ "/indexes/" +:+ index_name)
      {[ "Api-Key" := api_key; "X-Pinecone-Api-Version" := "2024-07" ]}
      None in
  _resolve_index_host server api_key index_name w
  = if truthy host
    then (Ok host,
          advance w 1
            [get;
             EvLog INFO "Resolved Pinecone index '%s' -> host '%s'"
               [PStr index_name; host]])
    else (Raise (ValueError
                   ("Could not resolve host for Pinecone index '"
                    +:+ index_name
                    +:+ "'. Verify the index exists in your Pinecone project.")),
          advance w 1 [get]).
Proof.
  intros Hs. cbv zeta. unfold _resolve_index_host. cbv zeta.
  unfold bind at 1. unfold pinecone_request_with_retry.
  rewrite (request_with_retry_first_try server "Pinecone" [200] "GET" _ _
             None api_key w 200 body (PDict d) Hs (list_elem_of_here _ _)).
  unfold json_get, bind, ret. cbn [fst snd].
  destruct (truthy (dict_get d "host" PNone)); cbn [negb].
  - unfold log, emit, advance. cbn. by rewrite <- app_assoc.
  - reflexivity.
Qed.

(** When the control plane answers the first attempt with 200 and a JSON
    object, [_resolve_index_host] has made one GET to
    [https://api.pinecone.io/indexes/{index_name}] with the key in the
    [Api-Key] header, and returns the object's [host]; when the object
    has no [host], or an empty or null one, it raises the
    could-not-resolve error instead. *)
Theorem resolve_index_host_reads_host
    (server : nat -> http_outcome) (api_key index_name : string) (w : world)
    (body : string) (d : gmap string pyval) :
  server (requests w) = Response 200 body (PDict d) ->
  let host := dict_get d "host" PNone in
  let get :=
    EvRequest "GET" ("https://api.pinecone.io/indexes/" +:+ index_name)
      {[ "Api-Key" := api_key; "X-Pinecone-Api-Version" := "2024-07" ]}
      None in
  _resolve_index_host server api_key index_name w
  = if truthy host
    then (Ok host,
          advance w 1
            [get;
             EvLog INFO "Resolved Pinecone index '%s' -> host '%s'"
               [PStr index_name; host]])
    else (Raise (ValueError
                   ("Could not resolve host for Pinecone index '"
                    +:+ index_name
                    +:+ "'. Verify the index exists in your Pinecone project.")),
          advance w 1 [get]).
Proof. apply resolve_index_host_run. Qed.

Lemma resolve_index_host_reads_host_witness :
  fst (_resolve_index_host
         (fun _ => Response 200 "" (PDict {[ "host" := PStr "idx.pinecone.io" ]}))
         sample_key "docs" world0)
  = Ok (PStr "idx.pinecone.io")
  /\ fst (_resolve_index_host
            (fun _ => Response 200 "" (PDict {[ "name" := PStr "docs" ]}))
            sample_key "docs" world0)
     = Raise (ValueError
                ("Could not resolve host for Pinecone index '" +:+ "docs"
                 +:+ "'. Verify the index exists in your Pinecone project.")).
Proof.
  split.
  - rewrite (resolve_index_host_reads_host
               (fun _ => Response 200 ""
                           (PDict {[ "host" := PStr "idx.pinecone.io" ]}))
               sample_key "docs" world0 ""
               {[ "host" := PStr "idx.pinecone.io" ]} eq_refl).
    reflexivity.
  - rewrite (resolve_index_host_reads_host
               (fun _ => Response 200 "" (PDict {[ "name" := PStr "docs" ]}))
               sample_key "docs" world0 ""
               {[ "name" := PStr "docs" ]} eq_refl).
    reflexivity.
Defined.

(** Whatever the server answers, every HTTP request that
    [_resolve_index_host] makes is a GET, without a body, to the
    hard-coded control plane, [https://api.pinecone.io/indexes/] followed
    by the index name; there are at least one and at most three of them. *)
Theorem resolve_index_host_only_asks_control_plane
    (server : nat -> http_outcome) (api_key index_name : string) (w : world) :
  let w' := snd (_resolve_index_host server api_key index_name w) in
  (requests w + 1 <= requests w' <= requests w + 3)%nat
  /\ requests_of (events_since w w')
     = replicate (requests w' - requests w)
         ("GET", "https://api.pinecone.io/indexes/" +:+ index_name, None).
Proof.
  cbv zeta. unfold _resolve_index_host. cbv zeta.
  unfold pinecone_request_with_retry, bind.
  pose proof (request_with_retry_run server "Pinecone" [200] "GET"
                (_CONTROL_PLANE_URL +:+ "/indexes/" +:+ index_name)
                {[ "Api-Key" := api_key;
                   "X-Pinecone-Api-Version" := "2024-07" ]}
                None api_key w) as H.
  cbv zeta in H. destruct H as (Hb & _ & evs & Htr & Hreq).
  destruct (_request_with_retry server "Pinecone" [200] "GET" _ _ None
              api_key w) as [[data|e] w1]; cbn [fst snd] in *.
  - unfold json_get.
    destruct data as [| | | | | |d];
      try (unfold raise; cbn [snd]; split; [done|];
           by rewrite (events_since_app _ _ _ Htr)).
    unfold ret, raise, log, emit.
    destruct (truthy (dict_get d "host" PNone)); cbn [negb].
    + cbn [snd requests trace]. split; [done|].
      erewrite events_since_app; [|cbn; rewrite Htr, <- app_assoc; done].
      rewrite requests_of_app. cbn. by rewrite app_nil_r.
    + unfold raise. cbn [snd]. split; [done|].
      by rewrite (events_since_app _ _ _ Htr).
  - split; [done|]. by rewrite (events_since_app _ _ _ Htr).
Qed.

Lemma world_eta (w : world) :
  {| requests := requests w; uuids := uuids w; trace := trace w |} = w.
Proof. by destruct w. Qed.

Section PineconeFrom.
Variable server : nat -> http_outcome.
Variables (base_url : string) (headers : gmap string string).
Variables (namespace api_key : string).
Variables (vectors : list pyval) (batch_size : Z).

(** The batch loop when the answers are good from the current attempt
    on, whatever was answered before. *)
Lemma pinecone_loop_ok_from (starts : list Z) :
  forall (total_upserted total_batches : Z) (w : world),
    (forall k, (requests w <= k)%nat -> pinecone_upsert_ok (server k) = true) ->
    exists w',
      for_fold starts
        (pinecone_upsert_batch server base_url headers namespace api_key
           vectors batch_size)
        (PInt total_upserted, total_batches) w
      = (Ok (PInt (total_upserted
                   + reported_total server (requests w) (length starts)),
             total_batches + Z.of_nat (length starts)), w')
      /\ requests w' = (requests w + length starts)%nat
      /\ uuids w' = uuids w
      /\ requests_of (trace w')
         = requests_of (trace w)
           ++ map (fun s =>
                     ("POST", base_url +:+ "/vectors/upsert",
                      Some (pinecone_upsert_payload namespace
                              (py_slice vectors s
                                 (Z.min (s + batch_size)
                                    (Z.of_nat (length vectors)))))))
                starts.
Proof.
  induction starts as [|s starts IH]; intros tu tb w Hok.
  - exists w. cbn. unfold ret. rewrite !Z.add_0_r, Nat.add_0_r, app_nil_r.
    done.
  - destruct (pinecone_upsert_batch_ok server base_url headers namespace
                api_key vectors batch_size s tu tb w (Hok _ (le_n _)))
      as (w1 & Hrun & Hreq & Htr).
    assert (uuids w1 = uuids w) as Hu1.
    { pose proof (f_equal snd Hrun) as Hw. cbn [snd] in Hw. rewrite <- Hw.
      unfold pinecone_upsert_batch, bind, log, emit.
      cbn [fst snd].
      pose proof (request_with_retry_run server "Pinecone" [200] "POST"
                    (base_url +:+ "/vectors/upsert") headers
                    (Some (pinecone_upsert_payload namespace
                             (py_slice vectors s
                                (Z.min (s + batch_size)
                                   (Z.of_nat (length vectors))))))
                    api_key
                    {| requests := requests w; uuids := uuids w;
                       trace := trace w ++
                         [EvLog INFO "Pinecone upsert batch %d-%d of %d vectors..."
                            [PInt (s + 1);
                             PInt (Z.min (s + batch_size)
                                     (Z.of_nat (length vectors)));
                             PInt (Z.of_nat (length vectors))]] |}) as Ha.
      cbv zeta in Ha. destruct Ha as (_ & Hu & _). cbn [uuids] in Hu.
      unfold pinecone_request_with_retry.
      destruct (_request_with_retry _ _ _ _ _ _ _ _ _) as [[data|e] w2];
        cbn [snd] in *; [|done].
      unfold json_get, lift, ret, raise.
      destruct data; try done.
      destruct (py_add _ _); done. }
    destruct (IH (tu + reported_count (server (requests w))) (tb + 1) w1)
      as (w2 & Hrun2 & Hreq2 & Hu2 & Htr2).
    { intros k Hk. apply Hok. lia. }
    exists w2. cbn [for_fold]. unfold bind. rewrite Hrun, Hrun2.
    split; [|split; [|split]].
    + rewrite Hreq. unfold reported_total. cbn [length seq foldr].
      replace (tb + Z.of_nat (S (length starts)))
        with (tb + 1 + Z.of_nat (length starts)) by lia.
      by rewrite Z.add_assoc.
    + rewrite Hreq2, Hreq. cbn [length]. lia.
    + congruence.
    + rewrite Htr2, Htr. cbn [map]. by rewrite <- app_assoc.
Qed.

Lemma pinecone_upsert_batches_from (w : world) :
  1 <= batch_size ->
  (forall k, (requests w <= k)%nat -> pinecone_upsert_ok (server k) = true) ->
  let batches := batches_of vectors batch_size in
  exists w',
    pinecone_upsert_batches server base_url headers namespace api_key
      vectors batch_size w
    = (Ok (PInt (reported_total server (requests w) (length batches)),
           Z.of_nat (length batches)), w')
    /\ requests w' = (requests w + length batches)%nat
    /\ uuids w' = uuids w
    /\ requests_of (trace w')
       = requests_of (trace w)
         ++ map (fun b => ("POST", base_url +:+ "/vectors/upsert",
                           Some (pinecone_upsert_payload namespace b)))
              batches.
Proof.
  intros Hb Hok. cbv zeta.
  assert ((batch_size =? 0) = false) as Hz by lia.
  assert ((batch_size <? 0) = false) as Hneg by lia.
  unfold pinecone_upsert_batches, py_range0. rewrite Hz, Hneg, Nat2Z.id.
  unfold bind at 1. unfold ret at 1. cbv beta iota.
  destruct (pinecone_loop_ok_from
              (range_from (length vectors) 0 (Z.of_nat (length vectors))
                 batch_size) 0 0 w Hok)
    as (w' & Hrun & Hreq & Hu & Htr).
  exists w'. unfold batches_of. cbv zeta. rewrite length_map, map_map.
  rewrite Hrun, Hreq, Htr. done.
Qed.
End PineconeFrom.

(** A whole run of [write_to_pinecone] in which the control plane names
    a host and every upsert is answered 200 with a count: the run makes
    one GET to the control plane and then one POST per batch to
    [https://{host}/vectors/upsert], the batches being the slices of the
    built vectors in order, and returns a summary whose [total_batches]
    is [ceil(n / batch_size)] for [n] items, whose [total_upserted] is
    the sum of the counts that the server reported, and whose namespace
    reads ["(default)"] when none was given. *)
Theorem write_to_pinecone_reports_totals
    (uuid4 : nat -> string) (server : nat -> http_outcome)
    (py_repr : pyval -> string) (items : list (gmap string pyval))
    (api_key index_name namespace : string) (batch_size : Z)
    (id_field : string) (w : world)
    (body : string) (d : gmap string pyval) (host : string) :
  1 <= batch_size ->
  server (requests w) = Response 200 body (PDict d) ->
  d !! "host" = Some (PStr host) ->
  host <> "" ->
  (forall k, (requests w < k)%nat -> pinecone_upsert_ok (server k) = true) ->
  exists vectors w',
    fst (build_all (_build_pinecone_vector uuid4) 0 items id_field w)
    = Ok vectors
    /\ length vectors = length items
    /\ write_to_pinecone uuid4 server py_repr items api_key index_name
         namespace batch_size id_field w
       = (Ok (PDict
                {[ "provider" := PStr "pinecone";
                   "index_name" := PStr index_name;
                   "namespace" :=
                     PStr (if str_is_empty namespace then "(default)"
                           else namespace);
                   "total_upserted" :=
                     PInt (reported_total server (S (requests w))
                             (length (batches_of vectors batch_size)));
                   "total_batches" :=
                     PInt (ceil_div (Z.of_nat (length items)) batch_size) ]}),
          w')
    /\ requests w'
       = (requests w + 1 + length (batches_of vectors batch_size))%nat
    /\ requests_of (trace w')
       = requests_of (trace w)
         ++ ("GET", "https://api.pinecone.io/indexes/" +:+ index_name, None)
            :: map (fun b => ("POST", "https://" +:+ host +:+ "/vectors/upsert",
                              Some (pinecone_upsert_payload namespace b)))
                 (batches_of vectors batch_size).
Proof.
  intros Hb Hs Hd Hne Hok.
  set (w1 := advance w 1
         [EvRequest "GET" (_CONTROL_PLANE_URL +:+ "/indexes/" +:+ index_name)
            {[ "Api-Key" := api_key; "X-Pinecone-Api-Version" := "2024-07" ]}
            None;
          EvLog INFO "Resolved Pinecone index '%s' -> host '%s'"
            [PStr index_name; PStr host]]).
  destruct (build_all_run uuid4 id_field (_build_pinecone_vector uuid4)
              (fun item vec_id =>
                 PDict {[ "id" := PStr vec_id;
                          "values" := dict_get item "embedding" (PList []);
                          "metadata" :=
                            PDict (pinecone_metadata item id_field) ]})
              ltac:(reflexivity) items 0%nat w1)
    as (vectors & w2 & Hrun & Hlen & Hreq & Htr & Hu & _).
  assert (forall k, (requests w2 <= k)%nat ->
                    pinecone_upsert_ok (server k) = true) as Hok2.
  { intros k Hk. apply Hok. rewrite Hreq in Hk. cbn in Hk. lia. }
  destruct (pinecone_upsert_batches_from server ("https://" +:+ host)
              {[ "Api-Key" := api_key; "Content-Type" := "application/json";
                 "X-Pinecone-Api-Version" := "2024-07" ]}
              namespace api_key vectors batch_size w2 Hb Hok2)
    as (w3 & Hrun3 & Hreq3 & Hu3 & Htr3).
  exists vectors, w3.
  split.
  { rewrite <- (build_all_fst uuid4 id_field (_build_pinecone_vector uuid4)
                  (fun item vec_id =>
                     PDict {[ "id" := PStr vec_id;
                              "values" := dict_get item "embedding" (PList []);
                              "metadata" :=
                                PDict (pinecone_metadata item id_field) ]})
                  ltac:(reflexivity) items 0%nat w w1 eq_refl).
    by rewrite Hrun. }
  split; [done|]. split; [|split].
  - unfold write_to_pinecone. unfold bind at 1.
    rewrite (resolve_index_host_run server api_key index_name w body d Hs).
    rewrite (dict_get_lookup _ _ _ PNone Hd).
    assert (truthy (PStr host) = true) as -> by by destruct host.
    fold w1. unfold bind at 1. rewrite Hrun.
    unfold bind at 1. cbn [py_str]. rewrite Hrun3. unfold ret. cbn [fst snd].
    pose proof (batches_of_length vectors batch_size Hb) as Hbl.
    cbv zeta in Hbl. rewrite Hbl, Hlen, Hreq. cbn [w1 advance requests].
    replace (requests w + 1)%nat with (S (requests w)) by lia. done.
  - rewrite Hreq3, Hreq. cbn. lia.
  - rewrite Htr3, Htr. cbn [w1 advance trace].
    rewrite requests_of_app. cbn. by rewrite <- app_assoc.
Qed.

Lemma write_to_pinecone_reports_totals_witness :
  fst (write_to_pinecone uuid_of server_pinecone_run (fun _ => "") items3
         sample_key "docs" "" 2 "chunk_id" world0)
  = Ok (PDict {[ "provider" := PStr "pinecone";
                 "index_name" := PStr "docs";
                 "namespace" := PStr "(default)";
                 "total_upserted" := PInt 4;
                 "total_batches" := PInt 2 ]}).
Proof.
  destruct (write_to_pinecone_reports_totals uuid_of server_pinecone_run
              (fun _ => "") items3 sample_key "docs" "" 2 "chunk_id" world0
              "" {[ "host" := PStr "idx.pinecone.io" ]} "idx.pinecone.io")
    as (vectors & w' & Hf & _ & Hrun & _).
  - lia.
  - reflexivity.
  - vm_compute; reflexivity.
  - discriminate.
  - intros [|k] Hk; [cbn in Hk; lia|reflexivity].
  - rewrite Hrun. vm_compute in Hf. injection Hf as <-.
    vm_compute. reflexivity.
Defined.

(* ===================================================================== *)
(** * The Qdrant writer, end to end *)
(* ===================================================================== *)

Section EnsureCollection.
Variable server : nat -> http_outcome.
Variables (base_url : string) (headers : gmap string string).
Variables (api_key collection_name : string) (vector_size : Z).
Variable distance_metric : string.

Let exists_request :=
  EvRequest "GET"
    (base_url +:+ "/collections/" +:+ collection_name +:+ "/exists")
    headers None.
Let create_request :=
  EvRequest "PUT" (base_url +:+ "/collections/" +:+ collection_name) headers
    (Some (PDict {[ "vectors" :=
                      PDict {[ "size" := PInt vector_size;
                               "distance" := PStr distance_metric ]} ]})).

Lemma ensure_collection_present (w : world) :
  exists_check_positive (server (requests w)) = true ->
  _ensure_collection server base_url headers api_key collection_name
    vector_size distance_metric w
  = (Ok false,
     advance w 1
       [exists_request;
        EvLog INFO "Qdrant collection '%s' already exists."
          [PStr collection_name]]).
Proof.
  intros Hp. subst exists_request.
  destruct (server (requests w)) as [status body [| | | | | |d]| |] eqn:Hs;
    try done.
  cbn in Hp. apply andb_true_iff in Hp as [->%Z.eqb_eq Hr].
  unfold _ensure_collection. cbv zeta. unfold bind at 1.
  unfold catch_ValueError. unfold bind at 1.
  unfold qdrant_request_with_retry.
  rewrite (request_with_retry_first_try server "Qdrant" [200] "GET" _ _
             None api_key w 200 body (PDict d) Hs (list_elem_of_here _ _)).
  unfold json_get at 1. unfold bind at 1. unfold ret at 1.
  destruct (dict_get d "result" (PDict ∅)) as [| | | | | |r]; try done.
  unfold json_get, bind, ret. rewrite Hr.
  unfold log, emit, advance. cbn. by rewrite <- app_assoc.
Qed.

Lemma ensure_collection_absent (w : world) (body : string) (json : pyval) :
  exists_check_negative (server (requests w)) = true ->
  server (S (requests w)) = Response 200 body json ->
  _ensure_collection server base_url headers api_key collection_name
    vector_size distance_metric w
  = (Ok true,
     advance w 2
       [exists_request;
        EvLog INFO "Creating Qdrant collection '%s' (size=%d, distance=%s)..."
          [PStr collection_name; PInt vector_size; PStr distance_metric];
        create_request;
        EvLog INFO "Qdrant collection '%s' created." [PStr collection_name]]).
Proof.
  intros Hn Hc. subst exists_request create_request.
  assert (catch_ValueError
              (data <- qdrant_request_with_retry server "GET"
                         (base_url +:+ "/collections/" +:+ collection_name
                          +:+ "/exists") headers None api_key [200] ;;
               res <- json_get data "result" (PDict ∅) ;;
               ex <- json_get res "exists" (PBool false) ;;
               if truthy ex then
                 log INFO "Qdrant collection '%s' already exists."
                   [PStr collection_name] ;;;
                 ret true
               else ret false)
              (ret false) w
            = (Ok false,
               advance w 1
                 [EvRequest "GET"
                    (base_url +:+ "/collections/" +:+ collection_name
                     +:+ "/exists") headers None])) as Hcheck.
  { unfold catch_ValueError, qdrant_request_with_retry.
    unfold bind at 1.
    destruct (server (requests w)) as [status body0 json0| |] eqn:Hs;
      try done.
    cbn in Hn. destruct (status =? 200) eqn:E200.
    - apply Z.eqb_eq in E200 as ->.
      rewrite (request_with_retry_first_try server "Qdrant" [200] "GET" _ _
                 None api_key w 200 body0 json0 Hs (list_elem_of_here _ _)).
      destruct json0 as [| | | | | |d]; try done.
      unfold json_get at 1. unfold bind at 1. unfold ret at 1.
      destruct (dict_get d "result" (PDict ∅)) as [| | | | | |r]; try done.
      unfold json_get, bind, ret. apply negb_true_iff in Hn. by rewrite Hn.
    - apply Z.eqb_neq in E200. apply negb_true_iff in Hn.
      apply bool_decide_eq_false in Hn.
      rewrite (request_with_retry_fatal_status server "Qdrant" [200] "GET"
                 _ headers None api_key w status body0 json0 Hs);
        [done| |done].
      intros Hin. apply list_elem_of_In in Hin. cbn in Hin. lia. }
  unfold _ensure_collection. cbv zeta. unfold bind at 1. rewrite Hcheck.
  unfold bind at 1. unfold log at 1, emit. cbn [fst snd].
  unfold bind at 1. unfold qdrant_request_with_retry.
  erewrite request_with_retry_first_try;
    [|cbn [advance requests]; rewrite Nat.add_1_r; exact Hc
     |by apply list_elem_of_here].
  unfold bind, log, emit, ret, advance. cbn. do 2 f_equal; [lia|].
  by rewrite <- !app_assoc.
Qed.
End EnsureCollection.

(** When the existence check is answered 200 with
    [{"result": {"exists": true}}] (any true value), [_ensure_collection]
    returns [False] after that one GET: it sends no PUT, so an existing
    collection is never re-created, whatever its size or metric. *)
Theorem ensure_collection_keeps_existing
    (server : nat -> http_outcome) (base_url : string)
    (headers : gmap string string) (api_key collection_name : string)
    (vector_size : Z) (distance_metric : string) (w : world) :
  exists_check_positive (server (requests w)) = true ->
  _ensure_collection server base_url headers api_key collection_name
    vector_size distance_metric w
  = (Ok false,
     advance w 1
       [EvRequest "GET"
          (base_url +:+ "/collections/" +:+ collection_name +:+ "/exists")
          headers None;
        EvLog INFO "Qdrant collection '%s' already exists."
          [PStr collection_name]]).
Proof. apply ensure_collection_present. Qed.

Lemma ensure_collection_keeps_existing_witness :
  fst (_ensure_collection
         (fun _ => Response 200 ""
                     (PDict {[ "result" :=
                                 PDict {[ "exists" := PBool true ]} ]}))
         "https://c" ∅ sample_key "docs" 3 "Cosine" world0)
  = Ok false.
Proof.
  rewrite (ensure_collection_keeps_existing
             (fun _ => Response 200 ""
                         (PDict {[ "result" :=
                                     PDict {[ "exists" := PBool true ]} ]}))
             "https://c" ∅ sample_key "docs" 3 "Cosine" world0);
    [reflexivity|vm_compute; reflexivity].
Defined.

(** When the existence check reports the collection absent, or ends in
    an error status that is not retried (a 404, but also a 401 or 403:
    the [ValueError] is swallowed), [_ensure_collection] goes on to
    create the collection: one PUT to [{base_url}/collections/{name}]
    whose body gives the vector size and the distance metric; answered
    200, it makes the function return [True]. *)
Theorem ensure_collection_creates_missing
    (server : nat -> http_outcome) (base_url : string)
    (headers : gmap string string) (api_key collection_name : string)
    (vector_size : Z) (distance_metric : string) (w : world)
    (body : string) (json : pyval) :
  exists_check_negative (server (requests w)) = true ->
  server (S (requests w)) = Response 200 body json ->
  _ensure_collection server base_url headers api_key collection_name
    vector_size distance_metric w
  = (Ok true,
     advance w 2
       [EvRequest "GET"
          (base_url +:+ "/collections/" +:+ collection_name +:+ "/exists")
          headers None;
        EvLog INFO "Creating Qdrant collection '%s' (size=%d, distance=%s)..."
          [PStr collection_name; PInt vector_size; PStr distance_metric];
        EvRequest "PUT" (base_url +:+ "/collections/" +:+ collection_name)
          headers
          (Some (PDict {[ "vectors" :=
                            PDict {[ "size" := PInt vector_size;
                                     "distance" := PStr distance_metric ]} ]}));
        EvLog INFO "Qdrant collection '%s' created." [PStr collection_name]]).
Proof. apply ensure_collection_absent. Qed.

Lemma ensure_collection_creates_missing_witness :
  fst (_ensure_collection
         (fun k => match k with
                   | O => Response 404 "not found" PNone
                   | _ => Response 200 "" (PDict {[ "result" := PBool true ]})
                   end)
         "https://c" ∅ sample_key "docs" 3 "Cosine" world0)
  = Ok true.
Proof.
  rewrite (ensure_collection_creates_missing
             (fun k => match k with
                       | O => Response 404 "not found" PNone
                       | _ => Response 200 ""
                                (PDict {[ "result" := PBool true ]})
                       end)
             "https://c" ∅ sample_key "docs" 3 "Cosine" world0 ""
             (PDict {[ "result" := PBool true ]}));
    [reflexivity|vm_compute; reflexivity|reflexivity].
Defined.

Section QdrantFrom.
Variable server : nat -> http_outcome.
Variables (upsert_url : string) (headers : gmap string string).
Variable api_key : string.
Variables (points : list pyval) (batch_size : Z).

Lemma qdrant_loop_answered_from (starts : list Z) :
  forall (total_upserted total_batches : Z) (w : world),
    (forall k, (requests w <= k)%nat ->
               qdrant_upsert_answered (server k) = true) ->
    let slice s :=
      py_slice points s (Z.min (s + batch_size) (Z.of_nat (length points))) in
    let counted :=
      batches_acknowledged server (requests w) (map slice starts) in
    exists w',
      for_fold starts
        (qdrant_upsert_batch server upsert_url headers api_key points
           batch_size)
        (total_upserted, total_batches) w
      = (Ok (total_upserted + total_records counted,
             total_batches + Z.of_nat (length counted)), w')
      /\ requests w' = (requests w + length starts)%nat
      /\ requests_of (trace w')
         = requests_of (trace w)
           ++ map (fun s => ("PUT", upsert_url,
                             Some (PDict {[ "points" := PList (slice s) ]})))
                starts
      /\ (length (warnings_of (trace w')) + length counted
          = length (warnings_of (trace w)) + length starts)%nat.
Proof.
  induction starts as [|s starts IH]; intros tu tb w Hok; cbv zeta.
  - exists w. cbn. unfold ret, total_records. cbn.
    rewrite !Z.add_0_r, !Nat.add_0_r, app_nil_r. done.
  - destruct (qdrant_upsert_batch_answered server upsert_url headers api_key
                points batch_size s tu tb w (Hok _ (le_n _)))
      as (w1 & Hrun & Hreq & Htr & Hwarn).
    cbn [map]. rewrite batches_acknowledged_cons.
    assert (forall k, (requests w1 <= k)%nat ->
                      qdrant_upsert_answered (server k) = true) as Hok1.
    { intros k Hk. apply Hok. lia. }
    destruct (status_is_ok (server (requests w))).
    + destruct (IH (tu + Z.of_nat
                            (length (py_slice points s
                                       (Z.min (s + batch_size)
                                          (Z.of_nat (length points))))))
                  (tb + 1) w1 Hok1)
        as (w2 & Hrun2 & Hreq2 & Htr2 & Hwarn2).
      exists w2. cbn [for_fold]. unfold bind. rewrite Hrun, Hrun2.
      rewrite Hreq in *. rewrite app_nil_r in Hwarn.
      split; [|split; [|split]].
      * unfold total_records. cbn [concat length].
        rewrite length_app. do 3 f_equal; lia.
      * rewrite Hreq2. cbn [length]. lia.
      * rewrite Htr2, Htr. by rewrite <- app_assoc.
      * rewrite Hwarn in Hwarn2. cbn [length]. lia.
    + destruct (IH tu tb w1 Hok1) as (w2 & Hrun2 & Hreq2 & Htr2 & Hwarn2).
      exists w2. cbn [for_fold]. unfold bind. rewrite Hrun, Hrun2.
      rewrite Hreq in *.
      split; [|split; [|split]].
      * done.
      * rewrite Hreq2. cbn [length]. lia.
      * rewrite Htr2, Htr. by rewrite <- app_assoc.
      * rewrite Hwarn, length_app in Hwarn2. cbn [length] in *. lia.
Qed.

Lemma qdrant_upsert_batches_from (w : world) :
  1 <= batch_size ->
  (forall k, (requests w <= k)%nat ->
             qdrant_upsert_answered (server k) = true) ->
  let batches := batches_of points batch_size in
  let counted := batches_acknowledged server (requests w) batches in
  exists w',
    qdrant_upsert_batches server upsert_url headers api_key points
      batch_size w
    = (Ok (total_records counted, Z.of_nat (length counted)), w')
    /\ requests w' = (requests w + length batches)%nat
    /\ requests_of (trace w')
       = requests_of (trace w)
         ++ map (fun b => ("PUT", upsert_url,
                           Some (PDict {[ "points" := PList b ]}))) batches.
Proof.
  intros Hb Hok. cbv zeta.
  assert ((batch_size =? 0) = false) as Hz by lia.
  assert ((batch_size <? 0) = false) as Hneg by lia.
  unfold qdrant_upsert_batches, py_range0. rewrite Hz, Hneg, Nat2Z.id.
  unfold bind at 1. unfold ret at 1. cbv beta iota.
  destruct (qdrant_loop_answered_from
              (range_from (length points) 0 (Z.of_nat (length points))
                 batch_size) 0 0 w Hok)
    as (w' & Hrun & Hreq & Htr & _).
  exists w'. unfold batches_of. cbv zeta. rewrite length_map, map_map.
  rewrite Hrun, Hreq, Htr. done.
Qed.
End QdrantFrom.

(** [write_to_qdrant] looks at its items before it talks to the server.
    With no item it raises "No valid points to upsert." and has done
    nothing at all. When the first item has no [embedding], or an empty
    one, it raises the zero-dimensions error; when the first embedding is
    a value without a length, a number for one, [len] raises and the
    exception leaves the function. In both cases no HTTP request has been
    made and nothing has been logged. *)
Theorem write_to_qdrant_checks_first_embedding
    (uuid4 : nat -> string) (server : nat -> http_outcome)
    (api_key cluster_url collection_name distance_metric : string)
    (batch_size : Z) (id_field : string) (w : world) :
  write_to_qdrant uuid4 server [] api_key cluster_url collection_name
    distance_metric batch_size id_field w
  = (Raise (ValueError "No valid points to upsert."), w)
  /\ (forall item rest,
        let r := write_to_qdrant uuid4 server (item :: rest) api_key
                   cluster_url collection_name distance_metric batch_size
                   id_field w in
        match py_len (dict_get item "embedding" (PList [])) with
        | Ok n =>
            n = 0 ->
            fst r
            = Raise (ValueError
                       ("First embedding has zero dimensions. "
                        +:+ "Check that input items have valid 'embedding' arrays."))
            /\ requests (snd r) = requests w /\ trace (snd r) = trace w
        | Raise e =>
            fst r = Raise e
            /\ requests (snd r) = requests w /\ trace (snd r) = trace w
        end).
Proof.
  split; [reflexivity|]. intros item rest. cbv zeta.
  destruct (build_all_run uuid4 id_field (_build_qdrant_point uuid4)
              (fun item point_id =>
                 PDict {[ "id" := PStr point_id;
                          "vector" := dict_get item "embedding" (PList []);
                          "payload" := PDict (qdrant_payload item id_field) ]})
              ltac:(reflexivity) (item :: rest) 0%nat w)
    as (points & w1 & Hrun & Hlen & Hreq & Htr & _ & Hrec).
  destruct (Hrec 0%nat item eq_refl) as (pid & Hp & _).
  destruct points as [|first points]; [done|]. cbn in Hp.
  injection Hp as ->.
  destruct (py_len (dict_get item "embedding" (PList []))) as [n|e] eqn:E.
  - intros ->.
    assert (write_to_qdrant uuid4 server (item :: rest) api_key cluster_url
              collection_name distance_metric batch_size id_field w
            = (Raise (ValueError
                        ("First embedding has zero dimensions. "
                         +:+ "Check that input items have valid 'embedding' arrays.")),
               w1)) as ->; [|done].
    unfold write_to_qdrant. cbv zeta. unfold bind at 1. rewrite Hrun.
    unfold json_get, bind, ret, lift.
    rewrite dict_get_insert_ne, dict_get_insert_eq by done.
    by rewrite E.
  - assert (write_to_qdrant uuid4 server (item :: rest) api_key cluster_url
              collection_name distance_metric batch_size id_field w
            = (Raise e, w1)) as ->; [|done].
    unfold write_to_qdrant. cbv zeta. unfold bind at 1. rewrite Hrun.
    unfold json_get, bind, ret, lift.
    rewrite dict_get_insert_ne, dict_get_insert_eq by done.
    by rewrite E.
Qed.

Lemma write_to_qdrant_checks_first_embedding_witness :
  fst (write_to_qdrant (fun _ => "u") server_401
         [{[ "chunk_id" := PStr "a" ]}] sample_key "https://c" "docs"
         "Cosine" 100 "chunk_id" world0)
  = Raise (ValueError
             ("First embedding has zero dimensions. "
              +:+ "Check that input items have valid 'embedding' arrays.")).
Proof.
  pose proof (proj2 (write_to_qdrant_checks_first_embedding
                       (fun _ => "u") server_401 sample_key "https://c"
                       "docs" "Cosine" 100 "chunk_id" world0)
                {[ "chunk_id" := PStr "a" ]} []) as H.
  cbv zeta in H.
  change (py_len (dict_get {[ "chunk_id" := PStr "a" ]} "embedding"
                    (PList []))) with (@Ok Z 0) in H.
  exact (proj1 (H eq_refl)).
Defined.

(** A whole run of [write_to_qdrant] on items whose first embedding is a
    non-empty list, against a server that reports the collection present
    and answers every upsert 200 with a JSON object: the run makes one
    GET for the existence check and one PUT per batch to
    [{cluster_url}/collections/{name}/points], the batches being the
    slices of the built points in order, creates nothing, and returns a
    summary whose totals count the batches answered with status ["ok"]
    and their points. *)
Theorem write_to_qdrant_reports_totals
    (uuid4 : nat -> string) (server : nat -> http_outcome)
    (item : gmap string pyval) (rest : list (gmap string pyval))
    (api_key cluster_url collection_name distance_metric : string)
    (batch_size : Z) (id_field : string) (w : world)
    (x : pyval) (emb : list pyval) :
  1 <= batch_size ->
  item !! "embedding" = Some (PList (x :: emb)) ->
  exists_check_positive (server (requests w)) = true ->
  (forall k, (requests w < k)%nat ->
             qdrant_upsert_answered (server k) = true) ->
  exists points w',
    fst (build_all (_build_qdrant_point uuid4) 0 (item :: rest) id_field w)
    = Ok points
    /\ length points = S (length rest)
    /\ let batches := batches_of points batch_size in
       let counted := batches_acknowledged server (S (requests w)) batches in
       write_to_qdrant uuid4 server (item :: rest) api_key cluster_url
         collection_name distance_metric batch_size id_field w
       = (Ok (PDict
                {[ "provider" := PStr "qdrant";
                   "collection_name" := PStr collection_name;
                   "cluster_url" := PStr cluster_url;
                   "distance_metric" := PStr distance_metric;
                   "collection_created" := PBool false;
                   "total_upserted" := PInt (total_records counted);
                   "total_batches" := PInt (Z.of_nat (length counted)) ]}),
          w')
       /\ requests w' = (requests w + 1 + length batches)%nat
       /\ Z.of_nat (length batches)
          = ceil_div (Z.of_nat (S (length rest))) batch_size
       /\ requests_of (trace w')
          = requests_of (trace w)
            ++ ("GET",
                cluster_url +:+ "/collections/" +:+ collection_name
                +:+ "/exists", None)
               :: map (fun b =>
                         ("PUT",
                          cluster_url +:+ "/collections/" +:+ collection_name
                          +:+ "/points",
                          Some (PDict {[ "points" := PList b ]})))
                    batches.
Proof.
  intros Hb Hemb Hex Hok.
  destruct (build_all_run uuid4 id_field (_build_qdrant_point uuid4)
              (fun item point_id =>
                 PDict {[ "id" := PStr point_id;
                          "vector" := dict_get item "embedding" (PList []);
                          "payload" := PDict (qdrant_payload item id_field) ]})
              ltac:(reflexivity) (item :: rest) 0%nat w)
    as (points & w1 & Hrun & Hlen & Hreq & Htr & _ & Hrec).
  destruct (Hrec 0%nat item eq_refl) as (pid & Hp & _).
  destruct points as [|first points]; [done|]. cbn in Hp.
  injection Hp as ->.
  set (pts := PDict {[ "id" := PStr pid;
                       "vector" := dict_get item "embedding" (PList []);
                       "payload" := PDict (qdrant_payload item id_field) ]}
              :: points) in *.
  set (headers := ({[ "api-key" := api_key;
                      "Content-Type" := "application/json" ]}
                   : gmap string string)).
  assert (exists_check_positive (server (requests w1)) = true) as Hex1
    by by rewrite Hreq.
  pose proof (ensure_collection_present server cluster_url headers api_key
                collection_name (Z.of_nat (S (length emb))) distance_metric
                w1 Hex1) as Hens.
  set (w2 := advance w1 1
         [EvRequest "GET"
            (cluster_url +:+ "/collections/" +:+ collection_name
             +:+ "/exists") headers None;
          EvLog INFO "Qdrant collection '%s' already exists."
            [PStr collection_name]]) in *.
  assert (forall k, (requests w2 <= k)%nat ->
                    qdrant_upsert_answered (server k) = true) as Hok2.
  { intros k Hk. apply Hok. cbn in Hk. lia. }
  destruct (qdrant_upsert_batches_from server
              (cluster_url +:+ "/collections/" +:+ collection_name
               +:+ "/points") headers api_key pts batch_size w2 Hb Hok2)
    as (w3 & Hrun3 & Hreq3 & Htr3).
  exists pts, w3. split; [by rewrite Hrun|]. split; [done|]. cbv zeta.
  assert (requests w2 = S (requests w)) as Hr2 by (cbn; lia).
  rewrite Hr2 in *.
  split; [|split; [|split]].
  - unfold write_to_qdrant. cbv zeta. unfold bind at 1. rewrite Hrun.
    fold headers. subst pts. cbv iota beta.
    unfold json_get at 1. unfold bind at 1. unfold ret at 1.
    rewrite dict_get_insert_ne, dict_get_insert_eq by done.
    rewrite (dict_get_lookup _ _ _ (PList []) Hemb).
    unfold bind at 1. unfold lift at 1. cbn [py_len].
    assert ((Z.of_nat (length (x :: emb)) =? 0) = false) as ->
      by (apply Z.eqb_neq; cbn [length]; rewrite Nat2Z.inj_succ; lia).
    unfold bind at 1. cbn [length]. rewrite Hens.
    unfold bind at 1.
    rewrite (dict_get_lookup _ _ _ (PList []) Hemb) in Hrun3.
    rewrite Hrun3. reflexivity.
  - rewrite Hreq3. lia.
  - rewrite (batches_of_length pts batch_size Hb). by rewrite Hlen.
  - rewrite Htr3. cbn [w2 advance trace]. rewrite Htr.
    rewrite requests_of_app. cbn. by rewrite <- app_assoc.
Qed.

Lemma write_to_qdrant_reports_totals_witness :
  fst (write_to_qdrant uuid_of server_qdrant_run items3 sample_key
         "https://c" "docs" "Cosine" 2 "chunk_id" world0)
  = Ok (PDict {[ "provider" := PStr "qdrant";
                 "collection_name" := PStr "docs";
                 "cluster_url" := PStr "https://c";
                 "distance_metric" := PStr "Cosine";
                 "collection_created" := PBool false;
                 "total_upserted" := PInt 2;
                 "total_batches" := PInt 1 ]}).
Proof.
  destruct (write_to_qdrant_reports_totals uuid_of server_qdrant_run
              {[ "chunk_id" := PStr "a";
                 "embedding" := PList [PFloat half; PFloat half];
                 "text" := PStr "x" ]}
              [ {[ "embedding" := PList [PFloat half; PFloat half] ]};
                {[ "chunk_id" := PStr "c";
                   "embedding" := PList [PFloat half; PFloat half] ]} ]
              sample_key "https://c" "docs" "Cosine" 2 "chunk_id" world0
              (PFloat half) [PFloat half])
    as (points & w' & Hf & _ & Hrun & _).
  - lia.
  - vm_compute; reflexivity.
  - reflexivity.
  - intros [|[|[|k]]] Hk; [cbn in Hk; lia|reflexivity..].
  - cbv zeta in Hrun. unfold items3. rewrite Hrun.
    vm_compute in Hf. injection Hf as <-. vm_compute. reflexivity.
Defined.

(* ===================================================================== *)
(** * Loading a dataset, and what reaches the writers *)
(* ===================================================================== *)

Lemma keep_valid_fold (l acc : list (gmap string pyval)) (skipped : Z) :
  fold_left keep_valid l (acc, skipped)
  = (acc ++ List.filter has_embedding l,
     skipped
     + Z.of_nat (length l - length (List.filter has_embedding l))).
Proof.
  revert acc skipped. induction l as [|item l IH]; intros acc skipped.
  - cbn. by rewrite app_nil_r, Z.add_0_r.
  - cbn [fold_left keep_valid List.filter].
    pose proof (filter_length_le has_embedding l) as Hle.
    destruct (has_embedding item).
    + rewrite IH, <- app_assoc. cbn [app length]. f_equal.
    + rewrite IH. cbn [length]. f_equal.
      replace (S (length l) - length (List.filter has_embedding l))%nat
        with (S (length l - length (List.filter has_embedding l))) by lia.
      lia.
Qed.

Lemma load_dataset_run
    (dataset_id : string) (items : list pyval) (w : world) :
  let embedding_items := omap embedding_item items in
  let kept := List.filter has_embedding embedding_items in
  let r := _load_dataset dataset_id items w in
  match fst r with
  | Ok valid_items => valid_items = kept /\ kept <> []
  | Raise e => kept = [] /\ exists message, e = ValueError message
  end
  /\ requests (snd r) = requests w
  /\ uuids (snd r) = uuids w
  /\ warnings_of (events_since w (snd r))
     = if bool_decide (kept = [])
          || bool_decide (length kept = length embedding_items)
       then []
       else ["Skipped %d items without valid embeddings out of %d total."].
Proof.
  cbv zeta. unfold _load_dataset.
  destruct items as [|x items]; [cbn; unfold events_since; cbn;
    rewrite drop_all; repeat split; eauto|].
  cbn [truthy negb].
  destruct (omap embedding_item (x :: items)) as [|e es] eqn:E.
  { cbn. unfold events_since. cbn. rewrite drop_all. repeat split; eauto. }
  rewrite keep_valid_fold. cbn [app]. rewrite Z.add_0_l.
  pose proof (filter_length_le has_embedding (e :: es)) as Hle.
  destruct (List.filter has_embedding (e :: es)) as [|v vs] eqn:F.
  { cbn. unfold events_since. cbn. rewrite drop_all. repeat split; eauto. }
  rewrite bool_decide_eq_false_2 by done. cbn [orb].
  destruct (bool_decide (length (v :: vs) = length (e :: es))) eqn:Hall.
  - apply bool_decide_eq_true in Hall. rewrite Hall, Nat.sub_diag.
    change (0 <? Z.of_nat 0) with false. unfold bind, ret, log, emit.
    cbn [fst snd requests uuids trace]. unfold events_since. cbn [trace].
    rewrite drop_app_length. repeat split; done.
  - apply bool_decide_eq_false in Hall.
    assert ((0 <? Z.of_nat (length (e :: es) - length (v :: vs))) = true)
      as -> by (apply Z.ltb_lt; lia).
    unfold bind, ret, log, emit.
    cbn [fst snd requests uuids trace]. unfold events_since. cbn [trace].
    rewrite <- app_assoc, drop_app_length. repeat split; done.
Qed.

(** Once the dataset has been read, [_load_dataset] returns exactly the
    items that are objects, are not summary rows and have a non-empty
    list as [embedding], in the order of the dataset; it raises a
    [ValueError] exactly when there is no such item. It makes no HTTP
    request, and it logs one warning exactly when it returns items and
    has skipped an object for its embedding. *)
Theorem load_dataset_keeps_embedding_items
    (dataset_id : string) (items : list pyval) (w : world) :
  let embedding_items := omap embedding_item items in
  let kept := List.filter has_embedding embedding_items in
  let r := _load_dataset dataset_id items w in
  match fst r with
  | Ok valid_items => valid_items = kept /\ kept <> []
  | Raise e => kept = [] /\ exists message, e = ValueError message
  end
  /\ requests (snd r) = requests w
  /\ uuids (snd r) = uuids w
  /\ warnings_of (events_since w (snd r))
     = if bool_decide (kept = [])
          || bool_decide (length kept = length embedding_items)
       then []
       else ["Skipped %d items without valid embeddings out of %d total."].
Proof. apply load_dataset_run. Qed.

(** ** Counting attempts through the monad *)

Lemma makes_attempts_ret {A} (a : A) : makes_attempts 0 (ret a).
Proof. intros w. cbn. lia. Qed.

Lemma makes_attempts_raise {A} (e : exn) : makes_attempts 0 (@raise A e).
Proof. intros w. cbn. lia. Qed.

Lemma makes_attempts_lift {A} (r : result A) : makes_attempts 0 (lift r).
Proof. intros w. cbn. lia. Qed.

Lemma makes_attempts_log (level : log_level) (format : string)
    (args : list pyval) :
  makes_attempts 0 (log level format args).
Proof. intros w. cbn. lia. Qed.

Lemma makes_attempts_json_get (data : pyval) (key : string) (dflt : pyval) :
  makes_attempts 0 (json_get data key dflt).
Proof. intros w. destruct data; cbn; lia. Qed.

Lemma makes_attempts_bind {A B} (n n' : nat) (m : M A) (k : A -> M B) :
  makes_attempts n m ->
  (forall a, makes_attempts n' (k a)) ->
  makes_attempts n (bind m k).
Proof.
  intros Hm Hk w. unfold bind. specialize (Hm w).
  destruct (m w) as [[a|e] w1]; cbn in *; [|done].
  specialize (Hk a w1). lia.
Qed.

Lemma makes_attempts_catch {A} (n : nat) (m handler : M A) :
  makes_attempts n m ->
  makes_attempts 0 handler ->
  makes_attempts n (catch_ValueError m handler).
Proof.
  intros Hm Hh w. unfold catch_ValueError. specialize (Hm w).
  destruct (m w) as [[a|[msg|name]] w1]; cbn in *; try done.
  specialize (Hh w1). lia.
Qed.

Lemma makes_attempts_request
    (server : nat -> http_outcome) (who : string) (accept_statuses : list Z)
    (method url : string) (headers : gmap string string)
    (payload : option pyval) (api_key : string) :
  makes_attempts 1
    (_request_with_retry server who accept_statuses method url headers
       payload api_key).
Proof.
  intros w.
  pose proof (request_with_retry_bounded server who accept_statuses method
                url headers payload api_key w). lia.
Qed.

Lemma makes_attempts_weaken {A} (n : nat) (m : M A) :
  makes_attempts n m -> makes_attempts 0 m.
Proof. intros H w. specialize (H w). lia. Qed.

Lemma makes_attempts_for_fold {A S} (xs : list A) (body : A -> S -> M S)
    (s : S) :
  (forall x s, makes_attempts 0 (body x s)) ->
  makes_attempts 0 (for_fold xs body s).
Proof.
  intros Hb. revert s. induction xs as [|x xs IH]; intros s; cbn.
  - apply makes_attempts_ret.
  - apply (makes_attempts_bind 0 0); [apply Hb|apply IH].
Qed.

Lemma makes_attempts_ensure_collection
    (server : nat -> http_outcome) (base_url : string)
    (headers : gmap string string) (api_key collection_name : string)
    (vector_size : Z) (distance_metric : string) :
  makes_attempts 1
    (_ensure_collection server base_url headers api_key collection_name
       vector_size distance_metric).
Proof.
  unfold _ensure_collection. cbv zeta.
  apply (makes_attempts_bind 1 0).
  - apply makes_attempts_catch; [|apply makes_attempts_ret].
    apply (makes_attempts_bind 1 0); [apply makes_attempts_request|].
    intros data. apply (makes_attempts_bind 0 0);
      [apply makes_attempts_json_get|].
    intros res. apply (makes_attempts_bind 0 0);
      [apply makes_attempts_json_get|].
    intros ex. destruct (truthy ex); [|apply makes_attempts_ret].
    apply (makes_attempts_bind 0 0); [apply makes_attempts_log|].
    intros _. apply makes_attempts_ret.
  - intros [|]; [apply makes_attempts_ret|].
    apply (makes_attempts_bind 0 0); [apply makes_attempts_log|].
    intros _. apply (makes_attempts_bind 0 0).
    + apply (makes_attempts_weaken 1), makes_attempts_request.
    + intros _. apply (makes_attempts_bind 0 0); [apply makes_attempts_log|].
      intros _. apply makes_attempts_ret.
Qed.

Lemma makes_attempts_qdrant_batches
    (server : nat -> http_outcome) (upsert_url : string)
    (headers : gmap string string) (api_key : string)
    (points : list pyval) (batch_size : Z) :
  makes_attempts 0
    (qdrant_upsert_batches server upsert_url headers api_key points
       batch_size).
Proof.
  unfold qdrant_upsert_batches. apply (makes_attempts_bind 0 0).
  - unfold py_range0. destruct (batch_size =? 0);
      [apply makes_attempts_raise|].
    destruct (batch_size <? 0); apply makes_attempts_ret.
  - intros starts. apply makes_attempts_for_fold.
    intros s [tu tb]. unfold qdrant_upsert_batch. cbv zeta.
    apply (makes_attempts_bind 0 0); [apply makes_attempts_log|].
    intros _. apply (makes_attempts_bind 0 0).
    + apply (makes_attempts_weaken 1), makes_attempts_request.
    + intros data. apply (makes_attempts_bind 0 0);
        [apply makes_attempts_json_get|].
      intros status. destruct (py_eq_str status "ok");
        [apply makes_attempts_ret|].
      apply (makes_attempts_bind 0 0); [apply makes_attempts_log|].
      intros _. apply makes_attempts_ret.
Qed.

(** Items whose first embedding is a non-empty list get past the checks
    that [write_to_qdrant] makes before it talks to the server. *)
Lemma write_to_qdrant_reaches_server
    (uuid4 : nat -> string) (server : nat -> http_outcome)
    (item : gmap string pyval) (rest : list (gmap string pyval))
    (api_key cluster_url collection_name distance_metric : string)
    (batch_size : Z) (id_field : string) (w : world)
    (x : pyval) (emb : list pyval) :
  item !! "embedding" = Some (PList (x :: emb)) ->
  (requests w
   < requests (snd (write_to_qdrant uuid4 server (item :: rest) api_key
                      cluster_url collection_name distance_metric batch_size
                      id_field w)))%nat.
Proof.
  intros Hemb.
  destruct (build_all_run uuid4 id_field (_build_qdrant_point uuid4)
              (fun item point_id =>
                 PDict {[ "id" := PStr point_id;
                          "vector" := dict_get item "embedding" (PList []);
                          "payload" := PDict (qdrant_payload item id_field) ]})
              ltac:(reflexivity) (item :: rest) 0%nat w)
    as (points & w1 & Hrun & Hlen & Hreq & Htr & _ & Hrec).
  destruct (Hrec 0%nat item eq_refl) as (pid & Hp & _).
  destruct points as [|first points]; [done|]. cbn in Hp.
  injection Hp as ->.
  unfold write_to_qdrant. cbv zeta. unfold bind at 1. rewrite Hrun.
  unfold json_get at 1. unfold bind at 1. unfold ret at 1.
  rewrite dict_get_insert_ne, dict_get_insert_eq by done.
  rewrite (dict_get_lookup _ _ _ (PList []) Hemb).
  unfold bind at 1. unfold lift at 1. cbn [py_len].
  assert ((Z.of_nat (length (x :: emb)) =? 0) = false) as ->
    by (apply Z.eqb_neq; cbn [length]; rewrite Nat2Z.inj_succ; lia).
  match goal with
  | |- (_ < requests (snd (bind ?m ?k w1)))%nat =>
      assert (makes_attempts 1 (bind m k)) as Hgrow
  end.
  { apply (makes_attempts_bind 1 0);
      [apply makes_attempts_ensure_collection|].
    intros created. apply (makes_attempts_bind 0 0);
      [apply makes_attempts_qdrant_batches|].
    intros totals. apply makes_attempts_ret. }
  specialize (Hgrow w1). lia.
Qed.

Lemma has_embedding_lookup (item : gmap string pyval) :
  has_embedding item = true ->
  exists x emb, item !! "embedding" = Some (PList (x :: emb)).
Proof.
  unfold has_embedding, dict_get. cbv zeta.
  destruct (item !! "embedding") as [[| | | | |[|x emb]|]|]; try done.
  intros _. by exists x, emb.
Qed.

Lemma vector_ok_lookup (item : gmap string pyval) :
  vector_ok (PDict item) = true ->
  exists x emb, item !! "embedding" = Some (PList (x :: emb)).
Proof.
  cbn. destruct (item !! "embedding") as [[| | | | |[|x emb]|]|]; try done.
  intros _. by exists x, emb.
Qed.

(** Inline vectors that validation has accepted get past the checks that
    [write_to_qdrant] makes on its items: handed on as they are, with the
    validated settings, they make the writer reach the server (at least
    one HTTP attempt), whatever the server then answers. The errors "No
    valid points to upsert." and "First embedding has zero dimensions."
    cannot come from validated inline vectors. *)
Theorem validated_vectors_reach_qdrant
    (m : gmap string pyval) (v : ValidatedInput)
    (items : list (gmap string pyval))
    (uuid4 : nat -> string) (server : nat -> http_outcome)
    (cluster_url : string) (w : world) :
  validate_input m = Valid v ->
  vectors v = Some (map PDict items) ->
  (requests w
   < requests (snd (write_to_qdrant uuid4 server items (api_key v)
                      cluster_url (index_name v) (distance_metric v)
                      (batch_size v) (id_field v) w)))%nat.
Proof.
  intros H Hvs. apply validate_input_inv in H. cbv zeta in H.
  destruct H as (_ & _ & _ & _ & _ & _ & (Hsrc & _) & (Hv & Hvr) & _).
  rewrite Hv in Hvs. destruct (has_dataset m); [done|].
  injection Hvs as Hvs. destruct (Hvr eq_refl) as [_ Hchk].
  cbn [orb] in Hsrc. unfold has_vectors in Hsrc. rewrite Hvs in Hchk.
  destruct items as [|item rest].
  { destruct (dict_get m "vectors" PNone) as [| | | | |[|? ?]|]; done. }
  apply check_vectors_None in Hchk. cbn [map forallb] in Hchk.
  apply andb_true_iff in Hchk as [Hok _].
  destruct (vector_ok_lookup item Hok) as (x & emb & Hemb).
  by eapply write_to_qdrant_reaches_server.
Qed.

Lemma validated_vectors_reach_qdrant_witness :
  (0 < requests
         (snd (write_to_qdrant uuid_of server_401
                 [{[ "embedding" := PList [PFloat half; PFloat half] ]}]
                 "pc-key" "https://c" "docs" "Cosine" 100 "chunk_id"
                 world0)))%nat.
Proof.
  assert (validate_input input_vectors
          = Valid {| api_key := "pc-key"; provider := "pinecone";
                     index_name := "docs"; environment := None;
                     namespace := ""; distance_metric := "Cosine";
                     dataset_id := None;
                     vectors :=
                       Some [PDict {[ "embedding" :=
                                        PList [PFloat half; PFloat half] ]}];
                     batch_size := 100; id_field := "chunk_id" |}) as Hv
    by (vm_compute; reflexivity).
  exact (validated_vectors_reach_qdrant _ _
           [{[ "embedding" := PList [PFloat half; PFloat half] ]}]
           uuid_of server_401 "https://c" world0 Hv eq_refl).
Defined.

(** The items that [_load_dataset] returns get past the same checks:
    handed to [write_to_qdrant], they make it reach the server. *)
Theorem loaded_items_reach_qdrant
    (dataset_id : string) (raw : list pyval) (w0 : world)
    (items : list (gmap string pyval))
    (uuid4 : nat -> string) (server : nat -> http_outcome)
    (api_key cluster_url collection_name distance_metric : string)
    (batch_size : Z) (id_field : string) (w : world) :
  fst (_load_dataset dataset_id raw w0) = Ok items ->
  (requests w
   < requests (snd (write_to_qdrant uuid4 server items api_key cluster_url
                      collection_name distance_metric batch_size id_field
                      w)))%nat.
Proof.
  intros Hload.
  pose proof (load_dataset_run dataset_id raw w0) as H. cbv zeta in H.
  destruct H as (H & _). rewrite Hload in H. destruct H as [-> Hne].
  destruct (List.filter has_embedding (omap embedding_item raw))
    as [|item rest] eqn:F; [done|].
  assert (In item (List.filter has_embedding (omap embedding_item raw)))
    as Hin by (rewrite F; by left).
  apply filter_In in Hin as [_ Hemb].
  destruct (has_embedding_lookup item Hemb) as (x & emb & Hlk).
  by eapply write_to_qdrant_reaches_server.
Qed.

Lemma loaded_items_reach_qdrant_witness :
  (0 < requests
         (snd (write_to_qdrant uuid_of server_401
                 [{[ "embedding" := PList [PFloat half] ]}]
                 sample_key "https://c" "docs" "Cosine" 100 "chunk_id"
                 world0)))%nat.
Proof.
  assert (fst (_load_dataset "ds1"
                 [PDict {[ "_summary" := PBool true ]};
                  PDict {[ "embedding" := PList [PFloat half] ]};
                  PStr "junk"] world0)
          = Ok [{[ "embedding" := PList [PFloat half] ]}]) as Hload
    by (vm_compute; reflexivity).
  exact (loaded_items_reach_qdrant _ _ _ _ uuid_of server_401 sample_key
           "https://c" "docs" "Cosine" 100 "chunk_id" world0 Hload).
Defined.

(* ===================================================================== *)
(** * The batch loops under any server *)
(* ===================================================================== *)

(** A loop whose every pass makes between one and three attempts, all of
    them the request of that pass. *)
Section LoopShape.
Context {S : Type}.
Variable body : Z -> S -> M S.
Variable sent : Z -> string * string * option pyval.
Hypothesis body_shape :
  forall s totals w,
    exists c : nat,
      (1 <= c <= 3)%nat
      /\ requests (snd (body s totals w)) = (requests w + c)%nat
      /\ requests_of (trace (snd (body s totals w)))
         = requests_of (trace w) ++ replicate c (sent s).

Lemma for_fold_shape (starts : list Z) :
  forall (totals : S) (w : world),
    exists counts : list nat,
      Forall (fun c => (1 <= c <= 3)%nat) counts
      /\ (length counts <= length starts)%nat
      /\ requests (snd (for_fold starts body totals w))
         = (requests w + sum_list counts)%nat
      /\ requests_of (trace (snd (for_fold starts body totals w)))
         = requests_of (trace w)
           ++ concat (zip_with replicate counts (map sent starts))
      /\ (forall totals',
            fst (for_fold starts body totals w) = Ok totals' ->
            length counts = length starts).
Proof.
  induction starts as [|s starts IH]; intros totals w.
  - exists []. cbn. rewrite Nat.add_0_r, app_nil_r. by repeat split.
  - destruct (body_shape s totals w) as (c & Hc & Hreq & Htr).
    cbn [for_fold]. unfold bind.
    destruct (body s totals w) as [[totals1|e] w1]; cbn [fst snd] in *.
    + destruct (IH totals1 w1) as (counts & Hall & Hlen & Hreq' & Htr' & Hok).
      exists (c :: counts). split; [by constructor|].
      split; [cbn; lia|]. split; [rewrite Hreq', Hreq; cbn; lia|].
      split; [|intros t Ht; cbn; f_equal; by eapply Hok].
      rewrite Htr', Htr. cbn. by rewrite <- app_assoc.
    + exists [c]. split; [by constructor|].
      split; [cbn; lia|]. split; [rewrite Hreq; cbn; lia|].
      split; [|done].
      rewrite Htr. cbn. destruct starts; cbn; by rewrite app_nil_r.
Qed.
End LoopShape.

(** One call of the resilient client: the state it leaves. *)
Lemma request_with_retry_shape
    (server : nat -> http_outcome) (who : string) (accept_statuses : list Z)
    (method url : string) (headers : gmap string string)
    (payload : option pyval) (api_key : string) (w : world) :
  exists c : nat,
    (1 <= c <= 3)%nat
    /\ requests (snd (_request_with_retry server who accept_statuses method
                        url headers payload api_key w))
       = (requests w + c)%nat
    /\ requests_of
         (trace (snd (_request_with_retry server who accept_statuses method
                        url headers payload api_key w)))
       = requests_of (trace w) ++ replicate c (method, url, payload).
Proof.
  pose proof (request_with_retry_bounded server who accept_statuses method
                url headers payload api_key w) as Hb.
  pose proof (retry_loop_trace server who accept_statuses method url headers
                payload api_key (seq 0 _MAX_RETRIES) None w) as Ht.
  cbv zeta in Ht. destruct Ht as (evs & Htr & Hreq).
  fold (_request_with_retry server who accept_statuses method url headers
          payload api_key w) in Htr, Hreq.
  set (w' := snd (_request_with_retry server who accept_statuses method url
                    headers payload api_key w)) in *.
  exists (requests w' - requests w)%nat.
  split; [lia|]. split; [lia|].
  by rewrite Htr, requests_of_app, Hreq.
Qed.

Lemma pinecone_upsert_batch_shape
    (server : nat -> http_outcome) (base_url : string)
    (headers : gmap string string) (namespace api_key : string)
    (vectors : list pyval) (batch_size : Z)
    (s : Z) (totals : pyval * Z) (w : world) :
  let r := pinecone_upsert_batch server base_url headers namespace api_key
             vectors batch_size s totals w in
  exists c : nat,
    (1 <= c <= 3)%nat
    /\ requests (snd r) = (requests w + c)%nat
    /\ requests_of (trace (snd r))
       = requests_of (trace w)
         ++ replicate c
              ("POST", base_url +:+ "/vectors/upsert",
               Some (pinecone_upsert_payload namespace
                       (py_slice vectors s
                          (Z.min (s + batch_size)
                             (Z.of_nat (length vectors)))))).
Proof.
  cbv zeta. destruct totals as [tu tb].
  set (w0 := logged w
         (EvLog INFO "Pinecone upsert batch %d-%d of %d vectors..."
            [PInt (s + 1);
             PInt (Z.min (s + batch_size) (Z.of_nat (length vectors)));
             PInt (Z.of_nat (length vectors))])).
  destruct (request_with_retry_shape server "Pinecone" [200] "POST"
              (base_url +:+ "/vectors/upsert") headers
              (Some (pinecone_upsert_payload namespace
                       (py_slice vectors s
                          (Z.min (s + batch_size)
                             (Z.of_nat (length vectors))))))
              api_key w0) as (c & Hc & Hreq & Htr).
  exists c. split; [done|].
  assert (snd (pinecone_upsert_batch server base_url headers namespace
                 api_key vectors batch_size s (tu, tb) w)
          = snd (_request_with_retry server "Pinecone" [200] "POST"
                   (base_url +:+ "/vectors/upsert") headers
                   (Some (pinecone_upsert_payload namespace
                            (py_slice vectors s
                               (Z.min (s + batch_size)
                                  (Z.of_nat (length vectors))))))
                   api_key w0)) as ->.
  { unfold pinecone_upsert_batch, pinecone_request_with_retry, bind, log,
      emit. cbn [fst snd]. fold (logged w
         (EvLog INFO "Pinecone upsert batch %d-%d of %d vectors..."
            [PInt (s + 1);
             PInt (Z.min (s + batch_size) (Z.of_nat (length vectors)));
             PInt (Z.of_nat (length vectors))])). fold w0.
    destruct (_request_with_retry _ _ _ _ _ _ _ _ w0) as [[data|e] w1];
      [|done].
    unfold json_get, lift, ret, raise. destruct data; try done.
    by destruct (py_add _ _). }
  rewrite Hreq, Htr. subst w0. cbn [logged requests trace].
  split; [done|]. rewrite requests_of_app. cbn. by rewrite app_nil_r.
Qed.

Lemma qdrant_upsert_batch_shape
    (server : nat -> http_outcome) (upsert_url : string)
    (headers : gmap string string) (api_key : string)
    (points : list pyval) (batch_size : Z)
    (s : Z) (totals : Z * Z) (w : world) :
  let r := qdrant_upsert_batch server upsert_url headers api_key points
             batch_size s totals w in
  exists c : nat,
    (1 <= c <= 3)%nat
    /\ requests (snd r) = (requests w + c)%nat
    /\ requests_of (trace (snd r))
       = requests_of (trace w)
         ++ replicate c
              ("PUT", upsert_url,
               Some (PDict {[ "points" :=
                                PList (py_slice points s
                                         (Z.min (s + batch_size)
                                            (Z.of_nat (length points)))) ]})).
Proof.
  cbv zeta. destruct totals as [tu tb].
  set (w0 := logged w
         (EvLog INFO "Qdrant upsert batch %d-%d of %d points..."
            [PInt (s + 1);
             PInt (Z.min (s + batch_size) (Z.of_nat (length points)));
             PInt (Z.of_nat (length points))])).
  destruct (request_with_retry_shape server "Qdrant" [200] "PUT"
              upsert_url headers
              (Some (PDict {[ "points" :=
                                PList (py_slice points s
                                         (Z.min (s + batch_size)
                                            (Z.of_nat (length points)))) ]}))
              api_key w0) as (c & Hc & Hreq & Htr).
  exists c. split; [done|].
  assert (requests (snd (qdrant_upsert_batch server upsert_url headers
                           api_key points batch_size s (tu, tb) w))
          = requests (snd (_request_with_retry server "Qdrant" [200] "PUT"
                             upsert_url headers
                             (Some (PDict {[ "points" :=
                                PList (py_slice points s
                                         (Z.min (s + batch_size)
                                            (Z.of_nat (length points)))) ]}))
                             api_key w0))
          /\ requests_of
               (trace (snd (qdrant_upsert_batch server upsert_url headers
                              api_key points batch_size s (tu, tb) w)))
             = requests_of
                 (trace (snd (_request_with_retry server "Qdrant" [200] "PUT"
                             upsert_url headers
                             (Some (PDict {[ "points" :=
                                PList (py_slice points s
                                         (Z.min (s + batch_size)
                                            (Z.of_nat (length points)))) ]}))
                             api_key w0)))) as [-> ->].
  { unfold qdrant_upsert_batch, qdrant_request_with_retry, bind, log, emit.
    cbn [fst snd]. fold (logged w
         (EvLog INFO "Qdrant upsert batch %d-%d of %d points..."
            [PInt (s + 1);
             PInt (Z.min (s + batch_size) (Z.of_nat (length points)));
             PInt (Z.of_nat (length points))])). fold w0.
    destruct (_request_with_retry _ _ _ _ _ _ _ _ w0) as [[data|e] w1];
      [|done].
    unfold json_get, ret, raise. destruct data; try done.
    destruct (py_eq_str _ _); cbn; [done|].
    split; [done|]. rewrite requests_of_app. cbn. by rewrite app_nil_r. }
  rewrite Hreq, Htr. subst w0. cbn [logged requests trace].
  split; [done|]. rewrite requests_of_app. cbn. by rewrite app_nil_r.
Qed.

(* ===================================================================== *)
(** * The claims about the batch loops *)
(* ===================================================================== *)

(** C6, amended. For [n] records and a batch size [b] of at least 1 the
    batch loops cut [ceil(n / b)] slices, which put end to end are the
    records, each of [b] records except a last one of [n mod b] when [b]
    does not divide [n]. Whatever the server answers, the HTTP calls of
    a loop are, slice after slice in this order, between one and three
    attempts with the same slice as body, for the slices up to the one
    whose call raised; a loop that returns has sent every slice. When
    every attempt from the first one of the loop on is answered 200 with
    a JSON object (for Pinecone one whose count is an integer), the loop
    makes exactly one HTTP call per slice: [ceil(n / b)] calls. *)
Theorem batch_loops_send_every_slice (records : list pyval) (batch_size : Z) :
  1 <= batch_size ->
  let batches := batches_of records batch_size in
  let n := Z.of_nat (length records) in
  Z.of_nat (length batches) = ceil_div n batch_size
  /\ concat batches = records
  /\ map (fun b => Z.of_nat (length b)) batches
     = replicate (Z.to_nat (n / batch_size)) batch_size
       ++ (if n mod batch_size =? 0 then [] else [n mod batch_size])
  /\ (forall server base_url headers namespace api_key w,
         let sent b := ("POST", base_url +:+ "/vectors/upsert",
                        Some (pinecone_upsert_payload namespace b)) in
         let r := pinecone_upsert_batches server base_url headers namespace
                    api_key records batch_size w in
         (exists counts : list nat,
             Forall (fun c => (1 <= c <= 3)%nat) counts
             /\ (length counts <= length batches)%nat
             /\ requests (snd r) = (requests w + sum_list counts)%nat
             /\ requests_of (trace (snd r))
                = requests_of (trace w)
                  ++ concat (zip_with replicate counts (map sent batches))
             /\ (forall totals,
                    fst r = Ok totals -> length counts = length batches))
         /\ ((forall k, (requests w <= k)%nat ->
                        pinecone_upsert_ok (server k) = true) ->
             fst r
             = Ok (PInt (reported_total server (requests w) (length batches)),
                   Z.of_nat (length batches))
             /\ requests (snd r) = (requests w + length batches)%nat
             /\ requests_of (trace (snd r))
                = requests_of (trace w) ++ map sent batches))
  /\ (forall server upsert_url headers api_key w,
         let sent b := ("PUT", upsert_url,
                        Some (PDict {[ "points" := PList b ]})) in
         let r := qdrant_upsert_batches server upsert_url headers api_key
                    records batch_size w in
         (exists counts : list nat,
             Forall (fun c => (1 <= c <= 3)%nat) counts
             /\ (length counts <= length batches)%nat
             /\ requests (snd r) = (requests w + sum_list counts)%nat
             /\ requests_of (trace (snd r))
                = requests_of (trace w)
                  ++ concat (zip_with replicate counts (map sent batches))
             /\ (forall totals,
                    fst r = Ok totals -> length counts = length batches))
         /\ ((forall k, (requests w <= k)%nat ->
                        qdrant_upsert_answered (server k) = true) ->
             (exists totals, fst r = Ok totals)
             /\ requests (snd r) = (requests w + length batches)%nat
             /\ requests_of (trace (snd r))
                = requests_of (trace w) ++ map sent batches)).
Proof.
  intros Hb. cbv zeta.
  assert ((batch_size =? 0) = false) as Hz by lia.
  assert ((batch_size <? 0) = false) as Hneg by lia.
  split; [by apply batches_of_length|].
  split; [by apply batches_of_concat|].
  split; [by apply batches_of_sizes|].
  split.
  - intros server base_url headers namespace api_key w. split.
    + unfold pinecone_upsert_batches, py_range0. rewrite Hz, Hneg, Nat2Z.id.
      unfold bind, ret. cbv beta iota.
      destruct (for_fold_shape
                  (pinecone_upsert_batch server base_url headers namespace
                     api_key records batch_size)
                  (fun s => ("POST", base_url +:+ "/vectors/upsert",
                             Some (pinecone_upsert_payload namespace
                                     (py_slice records s
                                        (Z.min (s + batch_size)
                                           (Z.of_nat (length records)))))))
                  (pinecone_upsert_batch_shape server base_url headers
                     namespace api_key records batch_size)
                  (range_from (length records) 0
                     (Z.of_nat (length records)) batch_size)
                  (PInt 0, 0) w)
        as (counts & Hall & Hlen & Hreq & Htr & Hok).
      exists counts. unfold batches_of. cbv zeta.
      rewrite length_map, map_map. done.
    + intros Hok.
      destruct (pinecone_upsert_batches_from server base_url headers namespace
                  api_key records batch_size w Hb Hok)
        as (w' & Hrun & Hreq & _ & Htr).
      rewrite Hrun. done.
  - intros server upsert_url headers api_key w. split.
    + unfold qdrant_upsert_batches, py_range0. rewrite Hz, Hneg, Nat2Z.id.
      unfold bind, ret. cbv beta iota.
      destruct (for_fold_shape
                  (qdrant_upsert_batch server upsert_url headers api_key
                     records batch_size)
                  (fun s => ("PUT", upsert_url,
                             Some (PDict {[ "points" :=
                                PList (py_slice records s
                                         (Z.min (s + batch_size)
                                            (Z.of_nat (length records)))) ]})))
                  (qdrant_upsert_batch_shape server upsert_url headers
                     api_key records batch_size)
                  (range_from (length records) 0
                     (Z.of_nat (length records)) batch_size)
                  (0, 0) w)
        as (counts & Hall & Hlen & Hreq & Htr & Hok).
      exists counts. unfold batches_of. cbv zeta.
      rewrite length_map, map_map. done.
    + intros Hok.
      destruct (qdrant_upsert_batches_from server upsert_url headers api_key
                  records batch_size w Hb Hok)
        as (w' & Hrun & Hreq & Htr).
      rewrite Hrun. split; [by eexists|done].
Qed.

Lemma batch_loops_send_every_slice_witness :
  Z.of_nat (length (batches_of records250 100)) = 3
  /\ map (fun b => Z.of_nat (length b)) (batches_of records250 100)
     = [100; 100; 50]
  /\ fst (pinecone_upsert_batches server_upserted "https://h" ∅ "" sample_key
            records250 100 world0)
     = Ok (PInt 300, 3)
  /\ requests
       (snd (pinecone_upsert_batches server_upserted "https://h" ∅ ""
               sample_key records250 100 world0)) = 3%nat.
Proof.
  destruct (batch_loops_send_every_slice records250 100 ltac:(lia))
    as (Hlen & _ & Hsizes & Hpinecone & _).
  split; [|split].
  - rewrite Hlen. vm_compute. reflexivity.
  - rewrite Hsizes. vm_compute. reflexivity.
  - destruct (proj2 (Hpinecone server_upserted "https://h" ∅ "" sample_key
                       world0) (fun k _ => eq_refl)) as (Hrun & Hreq & _).
    split.
    + rewrite Hrun. vm_compute. reflexivity.
    + rewrite Hreq. vm_compute. reflexivity.
Defined.



